(** * Lean-SDK backend proxy (server.js) and Plaid link flow (plaid-app.js)

    A shallow embedding of the token lifecycle, the customer workflows, the
    Plaid link-token retry and the HTTP handlers that wrap them, with the
    properties the specification states about them.

    JavaScript values are an inductive type; [async] functions are
    computations in a state-and-exception monad over the process state (the
    two cache variables of server.js), the wall clock and the log of outbound
    requests; the vendors are an arbitrary function from the request history
    to a reply. *)

From Stdlib Require Import ZArith List String Ascii Bool Lia DecimalString.
Import ListNotations.
Local Open Scope string_scope.
Local Open Scope Z_scope.
Set Warnings "-register-all".

(* ================================================================== *)
(** ** The fragment of JavaScript the sources use *)
(* ================================================================== *)

Module JS.

(** Numbers: the integers (milliseconds, seconds, status codes) and NaN.
    Fractions and infinities do not occur in the quantities modelled. *)
Inductive number : Type :=
| Fin (z : Z)
| NaN.

Inductive value : Type :=
| VUndefined
| VNull
| VBool (b : bool)
| VNum (n : number)
| VStr (s : string)
| VArr (items : list value)
| VObj (fields : list (string * value)).

(** Thrown values: all of them are [Error] objects here. *)
Record exn : Type := mkExn { exn_name : string; message : string }.

Definition Error (msg : string) : exn := mkExn "Error" msg.
Definition TypeError (msg : string) : exn := mkExn "TypeError" msg.
Definition RangeError (msg : string) : exn := mkExn "RangeError" msg.

Inductive outcome (A : Type) : Type :=
| Return (a : A)
| Throw (e : exn).
Arguments Return {A} a.
Arguments Throw {A} e.

Definition string_of_Z (z : Z) : string :=
  NilZero.string_of_int (Z.to_int z).

(** ToBoolean *)
Definition truthy (v : value) : bool :=
  match v with
  | VUndefined | VNull => false
  | VBool b => b
  | VNum (Fin z) => negb (z =? 0)
  | VNum NaN => false
  | VStr s => negb (String.eqb s EmptyString)
  | VArr _ | VObj _ => true
  end.

(** [a || b] on values *)
Definition or_else (a b : value) : value := if truthy a then a else b.

(** ToString, as a template literal applies it. *)
Fixpoint ToString (v : value) : string :=
  match v with
  | VUndefined => "undefined"
  | VNull => "null"
  | VBool true => "true"
  | VBool false => "false"
  | VNum (Fin z) => string_of_Z z
  | VNum NaN => "NaN"
  | VStr s => s
  | VArr items =>
      (fix join (l : list value) : string :=
         match l with
         | [] => EmptyString
         | x :: r =>
             let e := match x with
                      | VUndefined | VNull => EmptyString
                      | _ => ToString x
                      end in
             match r with
             | [] => e
             | _ :: _ => e ++ "," ++ join r
             end
         end) items
  | VObj _ => "[object Object]"
  end.

Definition lookup (k : string) (fields : list (string * value)) : value :=
  match find (fun p => String.eqb (fst p) k) fields with
  | Some (_, v) => v
  | None => VUndefined
  end.

(** [v.k] for a property name [k] that no built-in prototype defines
    (access_token, customer_id, error_type, ... ): a TypeError on null and
    undefined, the field of an object, undefined on everything else. *)
Definition get (v : value) (k : string) : outcome value :=
  match v with
  | VUndefined =>
      Throw (TypeError ("Cannot read properties of undefined (reading '" ++ k ++ "')"))
  | VNull =>
      Throw (TypeError ("Cannot read properties of null (reading '" ++ k ++ "')"))
  | VObj fields => Return (lookup k fields)
  | _ => Return VUndefined
  end.

(** [const { k } = v] *)
Definition destructure (v : value) (k : string) : outcome value :=
  match v with
  | VUndefined =>
      Throw (TypeError ("Cannot destructure property '" ++ k ++ "' of 'JSON.parse(...)' as it is undefined."))
  | VNull =>
      Throw (TypeError ("Cannot destructure property '" ++ k ++ "' of 'JSON.parse(...)' as it is null."))
  | VObj fields => Return (lookup k fields)
  | _ => Return VUndefined
  end.

(** [String.prototype.includes] *)
Fixpoint starts_with (p s : string) : bool :=
  match p, s with
  | EmptyString, _ => true
  | String a p', String b s' => Ascii.eqb a b && starts_with p' s'
  | String _ _, EmptyString => false
  end.

Fixpoint includes (s p : string) : bool :=
  starts_with p s ||
  match s with
  | EmptyString => false
  | String _ s' => includes s' p
  end.

(** Arithmetic and comparison on numbers. *)
Definition mul (a b : number) : number :=
  match a, b with
  | Fin x, Fin y => Fin (x * y)
  | _, _ => NaN
  end.

Definition add (a b : number) : number :=
  match a, b with
  | Fin x, Fin y => Fin (x + y)
  | _, _ => NaN
  end.

Definition ge (a b : number) : bool :=
  match a, b with
  | Fin x, Fin y => y <=? x
  | _, _ => false
  end.

(** The built-ins whose text format is not part of this development:
    the JSON codec, form encoding, [trim] and the number a string denotes. *)
Record Runtime : Type := {
  JSON_parse : string -> outcome value;
  JSON_stringify : value -> string;
  URLSearchParams_toString : list (string * string) -> string;
  String_trim : string -> string;
  StringToNumber : string -> number
}.

(** ToNumber; objects and arrays go through their string form. *)
Definition ToNumber (rt : Runtime) (v : value) : number :=
  match v with
  | VUndefined => NaN
  | VNull => Fin 0
  | VBool true => Fin 1
  | VBool false => Fin 0
  | VNum n => n
  | VStr s => StringToNumber rt s
  | VArr _ | VObj _ => StringToNumber rt (ToString v)
  end.

(** [Buffer.byteLength], strings being byte sequences. *)
Definition byteLength (s : string) : Z := Z.of_nat (String.length s).

End JS.
Export JS.

(* ================================================================== *)
(** ** Process state, the network and the monad of [async] code *)
(* ================================================================== *)

(** What [makeRequest] hands to [protocol.request] and [req.write]. *)
Record request : Type := mkRequest {
  url : string;
  method : string;
  headers : list (string * string);
  postData : option string
}.

(** What comes back: a socket error, or a status code with the body text. *)
Inductive reply : Type :=
| NetError (e : exn)
| Response (statusCode : Z) (data : string).

(** [apiAccessToken] and [apiTokenExpiry] are the two module variables of
    server.js (lines 74-75); [clock] is what [Date.now()] reads; [sent] is
    the log of outbound requests, oldest first. *)
Record Sys : Type := mkSys {
  apiAccessToken : value;
  apiTokenExpiry : value;
  clock : Z;
  sent : list request
}.

Definition M (A : Type) : Type := Sys -> outcome A * Sys.

Definition ret {A} (a : A) : M A := fun s => (Return a, s).
Definition throw {A} (e : exn) : M A := fun s => (Throw e, s).

Definition bind {A B} (m : M A) (k : A -> M B) : M B :=
  fun s =>
    match m s with
    | (Return a, s') => k a s'
    | (Throw e, s') => (Throw e, s')
    end.

(** [try { m } catch (error) { h error }] *)
Definition try_catch {A} (m : M A) (h : exn -> M A) : M A :=
  fun s =>
    match m s with
    | (Return a, s') => (Return a, s')
    | (Throw e, s') => h e s'
    end.

(** A pure step that may throw (property access, JSON.parse). *)
Definition lift {A} (o : outcome A) : M A := fun s => (o, s).

Declare Scope js_scope.
Delimit Scope js_scope with js.
Notation "x <- m ;; k" := (bind m (fun x => k))
  (at level 61, m at next level, right associativity) : js_scope.
Notation "m ;;; k" := (bind m (fun _ => k))
  (at level 61, right associativity) : js_scope.
Local Open Scope js_scope.

Definition Date_now : M Z := fun s => (Return (clock s), s).
Definition read_apiAccessToken : M value := fun s => (Return (apiAccessToken s), s).

Definition set_apiAccessToken (v : value) : M unit :=
  fun s => (Return tt, mkSys v (apiTokenExpiry s) (clock s) (sent s)).
Definition set_apiTokenExpiry (v : value) : M unit :=
  fun s => (Return tt, mkSys (apiAccessToken s) v (clock s) (sent s)).


(** [LEAN_CONFIG] and [PLAID_CONFIG] (server.js 35-65), read from the
    environment at start-up.  The Plaid credentials may be missing. *)
Record LeanConfig : Type := {
  lean_client_id : string;
  lean_client_secret : string;
  auth_url : string;
  api_url : string
}.

Record PlaidConfig : Type := {
  plaid_client_id : value;
  plaid_secret : value;
  plaid_env : string
}.

Definition plaid_api_url (c : PlaidConfig) : string :=
  if String.eqb (plaid_env c) "production" then "https://production.plaid.com"
  else if String.eqb (plaid_env c) "development" then "https://development.plaid.com"
  else "https://sandbox.plaid.com".

(* ================================================================== *)
(** ** Dates: [new Date(t).toISOString().split('T')[0]] *)
(* ================================================================== *)

Definition msPerDay : Z := 86400000.

(** Day number of a time value (ECMAScript [Day(t)]), days since 1970-01-01. *)
Definition Day (t : Z) : Z := t / msPerDay.

(** Proleptic Gregorian (year, month, day) of a day number. *)
Definition civil_from_days (day : Z) : Z * Z * Z :=
  let z := day + 719468 in
  let era := z / 146097 in
  let doe := z - era * 146097 in
  let yoe := (doe - doe / 1460 + doe / 36524 - doe / 146096) / 365 in
  let y := yoe + era * 400 in
  let doy := doe - (365 * yoe + yoe / 4 - yoe / 100) in
  let mp := (5 * doy + 2) / 153 in
  let d := doy - (153 * mp + 2) / 5 + 1 in
  let m := if mp <? 10 then mp + 3 else mp - 9 in
  (if m <=? 2 then y + 1 else y, m, d).

(** The calendar of ECMAScript (its DayFromYear, InLeapYear and the
    month table of MonthFromTime and DateFromTime), against which
    [civil_from_days] is checked below. *)
Definition DayFromYear (y : Z) : Z :=
  365 * (y - 1970) + (y - 1969) / 4 - (y - 1901) / 100 + (y - 1601) / 400.

Definition InLeapYear (y : Z) : Z :=
  if (y mod 4 =? 0) && (negb (y mod 100 =? 0) || (y mod 400 =? 0)) then 1 else 0.

(** Day within the year on which month [m] (1..12) starts; 13 stands for
    the start of the next year. *)
Definition month_start (m leap : Z) : Z :=
  match m with
  | 1 => 0 | 2 => 31 | 3 => 59 + leap | 4 => 90 + leap | 5 => 120 + leap
  | 6 => 151 + leap | 7 => 181 + leap | 8 => 212 + leap | 9 => 243 + leap
  | 10 => 273 + leap | 11 => 304 + leap | 12 => 334 + leap
  | _ => 365 + leap
  end.

Fixpoint zeros (n : nat) : string :=
  match n with
  | O => EmptyString
  | S n' => String "0" (zeros n')
  end.

(** Decimal form of a non-negative [n], zero-padded to [width] digits. *)
Definition pad (width : nat) (n : Z) : string :=
  let digits := string_of_Z n in
  zeros (width - String.length digits) ++ digits.

(** Years 0..9999 take four digits, the others a sign and six. *)
Definition iso_year (y : Z) : string :=
  if (0 <=? y) && (y <=? 9999) then pad 4 y
  else (if y <? 0 then "-" else "+") ++ pad 6 (Z.abs y).

Definition iso_date_of_day (day : Z) : string :=
  let '(y, m, d) := civil_from_days day in
  iso_year y ++ "-" ++ pad 2 m ++ "-" ++ pad 2 d.

(** The date part of [toISOString], which throws on a time value outside
    the range of [Date]. *)
Definition toISOString_date (t : Z) : outcome string :=
  if Z.abs t <=? 8640000000000000
  then Return (iso_date_of_day (Day t))
  else Throw (RangeError "Invalid time value").

(** What a handler writes: [res.writeHead(status, ...)] and [res.end(body)]. *)
Record response : Type := mkResponse {
  status : Z;
  body : string
}.

(** The world a server process runs in: the language runtime, its
    configuration, and the vendors.  [network] gives, for the requests made
    so far and the next one, the reply and the milliseconds it took. *)
Class World : Type := {
  rt : Runtime;
  LEAN_CONFIG : LeanConfig;
  PLAID_CONFIG : PlaidConfig;
  network : list request -> request -> reply * Z
}.

(* ================================================================== *)
(** ** server.js *)
(* ================================================================== *)

Section Server.

Context {W : World}.

(** [!data || data.trim() === ''] *)
Definition is_blank (data : string) : bool :=
  String.eqb data EmptyString || String.eqb (String_trim rt data) EmptyString.

Definition is_2xx (statusCode : Z) : bool :=
  (200 <=? statusCode) && (statusCode <? 300).

(** server.js 101-116: what the ['end'] callback resolves or rejects with. *)
Definition settle (statusCode : Z) (data : string) : outcome value :=
  if is_2xx statusCode then
    if is_blank data then
      Return (VObj [("success", VBool true); ("status", VNum (Fin statusCode))])
    else
      match JSON_parse rt data with
      | Return v => Return v
      | Throw _ => Return (VStr data)
      end
  else
    Throw (Error ("HTTP " ++ string_of_Z statusCode ++ ": " ++ data)).

(** What the promise of [makeRequest] settles with, for a reply. *)
Definition deliver (rep : reply) : outcome value :=
  match rep with
  | NetError e => Throw e
  | Response statusCode data => settle statusCode data
  end.

(** The state once request [r] has been answered: the clock has moved and
    the request is logged; the cache is as it was. *)
Definition after_request (s : Sys) (r : request) : Sys :=
  mkSys (apiAccessToken s) (apiTokenExpiry s)
        (clock s + snd (network (sent s) r)) (sent s ++ [r]).

(** server.js 80-129.  The configured URLs are taken to be well formed, so
    [new URL(url)] does not throw.  [postData] is the argument as passed (an
    empty one is not written to the socket). *)
Definition makeRequest (url : string) (method : string)
    (headers : list (string * string)) (postData : option string) : M value :=
  fun s =>
    let r := mkRequest url method headers postData in
    (deliver (fst (network (sent s) r)), after_request s r).

Definition form_headers (body : string) : list (string * string) :=
  [("Content-Type", "application/x-www-form-urlencoded");
   ("Content-Length", string_of_Z (byteLength body))].

Definition json_headers (body : string) : list (string * string) :=
  [("Content-Type", "application/json");
   ("Content-Length", string_of_Z (byteLength body))].

(** The form of a client-credentials token request for [scope]. *)
Definition token_form (scope : string) : list (string * string) :=
  [("client_id", lean_client_id LEAN_CONFIG);
   ("client_secret", lean_client_secret LEAN_CONFIG);
   ("grant_type", "client_credentials");
   ("scope", scope)].

Definition token_request (scope : string) : request :=
  let body := URLSearchParams_toString rt (token_form scope) in
  mkRequest (auth_url LEAN_CONFIG) "POST" (form_headers body) (Some body).

(** The state [getApiAccessToken] leaves after a successful exchange. *)
Definition refreshed (s : Sys) (tok expires_in : value) : Sys :=
  let s' := after_request s (token_request "api") in
  mkSys tok
        (VNum (add (Fin (clock s')) (mul (ToNumber rt expires_in) (Fin 1000))))
        (clock s') (sent s').

(** server.js 134-156 *)
Definition getApiAccessToken : M value :=
  let body := URLSearchParams_toString rt (token_form "api") in
  data <- makeRequest (auth_url LEAN_CONFIG) "POST" (form_headers body) (Some body) ;;
  tok <- lift (get data "access_token") ;;
  set_apiAccessToken tok ;;;
  now <- Date_now ;;
  expires_in <- lift (get data "expires_in") ;;
  set_apiTokenExpiry (VNum (add (Fin now) (mul (ToNumber rt expires_in) (Fin 1000)))) ;;;
  lift (get data "access_token").

(** [!apiAccessToken || Date.now() >= apiTokenExpiry] *)
Definition token_stale (s : Sys) : bool :=
  negb (truthy (apiAccessToken s))
  || ge (Fin (clock s)) (ToNumber rt (apiTokenExpiry s)).

Definition ensure_token : M unit :=
  fun s => if token_stale s then (getApiAccessToken ;;; ret tt) s else (Return tt, s).

Definition customer_request (appUserId token : value) : request :=
  let postData := JSON_stringify rt (VObj [("app_user_id", appUserId)]) in
  mkRequest (api_url LEAN_CONFIG ++ "/customers/v1") "POST"
    (("Authorization", "Bearer " ++ ToString token) :: json_headers postData)
    (Some postData).

(** The vendor call of [createCustomer], and the read of
    [data.customer_id] its log line makes, from a state whose token is in
    place. *)
Definition send_customer (appUserId : value) (s : Sys) : outcome value * Sys :=
  let r := customer_request appUserId (apiAccessToken s) in
  match deliver (fst (network (sent s) r)) with
  | Throw e => (Throw e, after_request s r)
  | Return data =>
      match get data "customer_id" with
      | Throw e => (Throw e, after_request s r)
      | Return _ => (Return data, after_request s r)
      end
  end.

(** server.js 161-182.  The final log line reads [data.customer_id]. *)
Definition createCustomer (appUserId : value) : M value :=
  ensure_token ;;;
  let postData := JSON_stringify rt (VObj [("app_user_id", appUserId)]) in
  token <- read_apiAccessToken ;;
  data <- makeRequest (api_url LEAN_CONFIG ++ "/customers/v1") "POST"
            (("Authorization", "Bearer " ++ ToString token) :: json_headers postData)
            (Some postData) ;;
  lift (get data "customer_id") ;;;
  ret data.

(** A request [createCustomer] may send: the token refresh or the customer
    creation, never a customer-scoped token request. *)
Definition provisioning_request (appUserId : value) (r : request) : Prop :=
  r = token_request "api" \/ exists tok, r = customer_request appUserId tok.

(** server.js 187-206 *)
Definition getCustomerAccessToken (customerId : value) : M value :=
  let body := URLSearchParams_toString rt (token_form ("customer." ++ ToString customerId)) in
  data <- makeRequest (auth_url LEAN_CONFIG) "POST" (form_headers body) (Some body) ;;
  ret data.

Definition failure_object (error : exn) : value :=
  VObj [("success", VBool false); ("error", VStr (message error))].

(** [customer.customer_id || customer.id] *)
Definition customer_id_or_id (customer : value) : M value :=
  cid <- lift (get customer "customer_id") ;;
  if truthy cid then ret cid else lift (get customer "id").

(** The object literal [initializeCustomer] returns on success. *)
Definition initialized (customerId customer customerToken : value) : M value :=
  app_user_id <- lift (get customer "app_user_id") ;;
  access_token <- lift (get customerToken "access_token") ;;
  expires_in <- lift (get customerToken "expires_in") ;;
  scope <- lift (get customerToken "scope") ;;
  ret (VObj [("success", VBool true);
             ("customer_id", customerId);
             ("app_user_id", app_user_id);
             ("access_token", access_token);
             ("token_expires_in", expires_in);
             ("token_scope", scope)]).

(** server.js 212-247 *)
Definition initializeCustomer (appUserId : value) : M value :=
  try_catch
    (getApiAccessToken ;;;
     customer <- createCustomer appUserId ;;
     customerId <- customer_id_or_id customer ;;
     customerToken <- getCustomerAccessToken customerId ;;
     initialized customerId customer customerToken)
    (fun error => ret (failure_object error)).

(** The object literal [getTokensForCustomer] returns on success. *)
Definition retrieved (customerId customerToken : value) : M value :=
  access_token <- lift (get customerToken "access_token") ;;
  expires_in <- lift (get customerToken "expires_in") ;;
  scope <- lift (get customerToken "scope") ;;
  ret (VObj [("success", VBool true);
             ("customer_id", customerId);
             ("access_token", access_token);
             ("token_expires_in", expires_in);
             ("token_scope", scope)]).

(** server.js 252-282 *)
Definition getTokensForCustomer (customerId : value) : M value :=
  try_catch
    (getApiAccessToken ;;;
     customerToken <- getCustomerAccessToken customerId ;;
     retrieved customerId customerToken)
    (fun error => ret (failure_object error)).

(** server.js 450-486 *)
Definition linkTokenConfig (userId institutionId : value) : value :=
  VObj ([("client_id", plaid_client_id PLAID_CONFIG);
         ("secret", plaid_secret PLAID_CONFIG);
         ("user", VObj [("client_user_id", userId)]);
         ("client_name", VStr "Lean SDK Integration App");
         ("products", VArr [VStr "auth"; VStr "transactions"]);
         ("country_codes", VArr [VStr "US"]);
         ("language", VStr "en")]
        ++ (if truthy institutionId then [("institution_id", institutionId)] else [])).

Definition link_token_request (userId institutionId : value) : request :=
  let postData := JSON_stringify rt (linkTokenConfig userId institutionId) in
  mkRequest (plaid_api_url PLAID_CONFIG ++ "/link/token/create") "POST"
    (json_headers postData) (Some postData).

Definition createPlaidLinkToken (userId institutionId : value) : M value :=
  let postData := JSON_stringify rt (linkTokenConfig userId institutionId) in
  data <- makeRequest (plaid_api_url PLAID_CONFIG ++ "/link/token/create") "POST"
            (json_headers postData) (Some postData) ;;
  ret data.





(** *** The HTTP handlers (the ['end'] callbacks of server.js 823-1756) *)

Definition respond (status : Z) (payload : value) : M response :=
  ret (mkResponse status (JSON_stringify rt payload)).

Definition required (what : string) : value :=
  VObj [("success", VBool false); ("error", VStr what)].

(** POST /api/initialize-customer, server.js 862-882 *)
Definition handle_initialize_customer (body : string) : M response :=
  try_catch
    (parsed <- lift (JSON_parse rt body) ;;
     app_user_id <- lift (destructure parsed "app_user_id") ;;
     result <- initializeCustomer app_user_id ;;
     respond 200 result)
    (fun error => respond 500 (failure_object error)).

(** POST /api/get-customer-tokens, server.js 885-912 *)
Definition handle_get_customer_tokens (body : string) : M response :=
  try_catch
    (parsed <- lift (JSON_parse rt body) ;;
     customer_id <- lift (destructure parsed "customer_id") ;;
     if negb (truthy customer_id) then
       respond 400 (required "customer_id is required")
     else
       result <- getTokensForCustomer customer_id ;;
       respond 200 result)
    (fun error => respond 500 (failure_object error)).

Definition link_token_error (error : exn) : Z * value :=
  let errorMessage := message error in
  let isInvalidInstitution := includes errorMessage "INVALID_INSTITUTION" in
  (if isInvalidInstitution then 400 else 500,
   VObj [("error", VStr (message error));
         ("error_type",
          VStr (if isInvalidInstitution then "INVALID_INSTITUTION" else "SERVER_ERROR"))]).

(** What /api/plaid/create-link-token answers for the outcome of its one
    vendor call. *)
Definition link_token_response (o : outcome value) : response :=
  match o with
  | Return result => mkResponse 200 (JSON_stringify rt result)
  | Throw error =>
      mkResponse (fst (link_token_error error))
                 (JSON_stringify rt (snd (link_token_error error)))
  end.

(** POST /api/plaid/create-link-token, server.js 1117-1152 *)
Definition handle_create_link_token (body : string) : M response :=
  try_catch
    (parsed <- lift (JSON_parse rt body) ;;
     user_id <- lift (destructure parsed "user_id") ;;
     institution_id <- lift (destructure parsed "institution_id") ;;
     now <- Date_now ;;
     result <- createPlaidLinkToken
                 (or_else user_id (VStr ("user_" ++ string_of_Z now)))
                 (or_else institution_id VNull) ;;
     respond 200 result)
    (fun error => respond (fst (link_token_error error)) (snd (link_token_error error))).



End Server.

(* ================================================================== *)
(** ** plaid-app.js: the link-token step of [initializePlaid] *)
(* ================================================================== *)

Section Frontend.

Context {W : World}.




Definition response_ok (r : response) : bool := is_2xx (status r).

(** [await response.json()] *)
Definition response_json (r : response) : M value :=
  lift (JSON_parse rt (body r)).








(** The text of [v] on the wire reads back as [v]. *)
Definition wire_faithful (v : value) : Prop :=
  JSON_parse rt (JSON_stringify rt v) = Return v.

End Frontend.

(* ================================================================== *)
(** ** backend-simulation.js: the browser-side twin of the Lean calls *)
(* ================================================================== *)

Module LeanBackendAPI.

Section Simulation.

Context {W : World}.

(** backend-simulation.js 19-24 *)
Definition config : LeanConfig := {|
  lean_client_id := "YOUR_CLIENT_ID_HERE";
  lean_client_secret := "YOUR_CLIENT_SECRET_HERE";
  auth_url := "https://auth.sandbox.sa.leantech.me/oauth2/token";
  api_url := "https://sandbox.sa.leantech.me"
|}.

(** The browser's [fetch]: it resolves on every status and rejects on a
    network failure. *)
Definition fetch (url : string) (method : string)
    (headers : list (string * string)) (body : option string) : M (Z * string) :=
  fun s =>
    let r := mkRequest url method headers body in
    (match fst (network (sent s) r) with
     | NetError e => Throw e
     | Response statusCode data => Return (statusCode, data)
     end,
     after_request s r).

(** backend-simulation.js 34-72; [this.apiAccessToken] and
    [this.apiTokenExpiry] are the object's own two fields. *)
Definition getApiAccessToken : M value :=
  let formData :=
    URLSearchParams_toString rt
      [("client_id", lean_client_id config);
       ("client_secret", lean_client_secret config);
       ("grant_type", "client_credentials");
       ("scope", "api")] in
  response <- fetch (auth_url config) "POST"
                [("Content-Type", "application/x-www-form-urlencoded")] (Some formData) ;;
  let '(statusCode, text) := response in
  if negb (is_2xx statusCode) then
    throw (Error ("Failed to get API token: " ++ string_of_Z statusCode ++ " - " ++ text))
  else
    data <- lift (JSON_parse rt text) ;;
    tok <- lift (get data "access_token") ;;
    set_apiAccessToken tok ;;;
    now <- Date_now ;;
    expires_in <- lift (get data "expires_in") ;;
    set_apiTokenExpiry (VNum (add (Fin now) (mul (ToNumber rt expires_in) (Fin 1000)))) ;;;
    lift (get data "access_token").

(** backend-simulation.js 78-135 *)
Definition createCustomer (appUserId : value) : M value :=
  cached <- read_apiAccessToken ;;
  stale <- (fun s => (Return (token_stale s), s)) ;;
  apiToken <- (if stale then getApiAccessToken else ret cached) ;;
  response <- fetch (api_url config ++ "/customers/v1") "POST"
                [("Authorization", "Bearer " ++ ToString apiToken);
                 ("Content-Type", "application/json")]
                (Some (JSON_stringify rt (VObj [("app_user_id", appUserId)]))) ;;
  let '(statusCode, text) := response in
  if negb (is_2xx statusCode) then
    throw (Error ("Failed to create customer: " ++ string_of_Z statusCode ++ " - " ++ text))
  else
    data <- lift (JSON_parse rt text) ;;
    cid <- lift (get data "customer_id") ;;
    customerId <- (if truthy cid then ret cid else lift (get data "id")) ;;
    app_user_id <- lift (get data "app_user_id") ;;
    if negb (truthy customerId) then
      throw (Error ("Customer API did not return a customer_id. Response: "
                    ++ JSON_stringify rt data))
    else
      created_at <- lift (get data "created_at") ;;
      ret (VObj [("customer_id", customerId);
                 ("app_user_id", app_user_id);
                 ("created_at", created_at)]).

End Simulation.

End LeanBackendAPI.

(* ================================================================== *)
(** ** A concrete world, for running the model *)
(* ================================================================== *)

Module Demo.

Definition dq : string := String (ascii_of_nat 34) EmptyString.

(** A plain JSON printer for values whose strings need no escaping. *)
Fixpoint stringify (v : value) : string :=
  match v with
  | VUndefined | VNull => "null"
  | VBool true => "true"
  | VBool false => "false"
  | VNum (Fin z) => string_of_Z z
  | VNum NaN => "null"
  | VStr s => dq ++ s ++ dq
  | VArr items =>
      "[" ++
      (fix elems (l : list value) : string :=
         match l with
         | [] => EmptyString
         | x :: r =>
             stringify x ++ match r with [] => EmptyString | _ :: _ => "," ++ elems r end
         end) items ++ "]"
  | VObj fields =>
      "{" ++
      (fix members (l : list (string * value)) : string :=
         match l with
         | [] => EmptyString
         | (k, x) :: r =>
             match x with
             | VUndefined => members r
             | _ => dq ++ k ++ dq ++ ":" ++ stringify x
                    ++ match r with [] => EmptyString | _ :: _ => "," ++ members r end
             end
         end) fields ++ "}"
  end.

(** A parser that knows the texts of a given corpus of values. *)
Definition parse_from (corpus : list value) (text : string) : outcome value :=
  match find (fun v => String.eqb (stringify v) text) corpus with
  | Some v => Return v
  | None => Throw (mkExn "SyntaxError" "Unexpected token in JSON")
  end.

Fixpoint form_encode (l : list (string * string)) : string :=
  match l with
  | [] => EmptyString
  | (k, v) :: r =>
      k ++ "=" ++ v ++ match r with [] => EmptyString | _ :: _ => "&" ++ form_encode r end
  end.

Definition runtime (corpus : list value) : Runtime := {|
  JSON_parse := parse_from corpus;
  JSON_stringify := stringify;
  URLSearchParams_toString := form_encode;
  String_trim := fun s => s;
  StringToNumber := fun _ => NaN
|}.

Definition lean : LeanConfig := {|
  lean_client_id := "client-1";
  lean_client_secret := "secret-1";
  auth_url := "https://auth.sandbox.sa.leantech.me/oauth2/token";
  api_url := "https://sandbox.sa.leantech.me"
|}.

Definition plaid : PlaidConfig := {|
  plaid_client_id := VStr "plaid-client";
  plaid_secret := VStr "plaid-secret";
  plaid_env := "sandbox"
|}.

Definition token_json : value :=
  VObj [("access_token", VStr "tok-1"); ("expires_in", VNum (Fin 3600));
        ("scope", VStr "api")].

Definition customer_json : value :=
  VObj [("customer_id", VStr "cust-1"); ("app_user_id", VStr "user_abc")].

Definition link_json : value := VObj [("link_token", VStr "link-sandbox-1")].

Definition invalid_institution_text : string :=
  "{error_type: INVALID_INPUT, error_code: INVALID_INSTITUTION}".

(** What the browser posts to /api/plaid/create-link-token, with and
    without a pre-selected institution. *)
Definition link_request_preselected : value :=
  VObj [("user_id", VStr "u1"); ("institution_id", VStr "ins_109508")].

Definition link_request_plain : value := VObj [("user_id", VStr "u1")].

(** What the server answers when the vendor refuses the institution. *)
Definition invalid_institution_envelope : value :=
  VObj [("error", VStr ("HTTP 400: " ++ invalid_institution_text));
        ("error_type", VStr "INVALID_INSTITUTION")].

(** What the browser posts to /api/initialize-customer. *)
Definition initialize_query : value := VObj [("app_user_id", VStr "user_abc")].

(** What the browser posts to /api/plaid/transactions without dates. *)
Definition transactions_query : value :=
  VObj [("access_token", VStr "access-sandbox-1")].

(** A customer-creation reply that carries no identifier. *)
Definition anonymous_customer_json : value :=
  VObj [("app_user_id", VStr "user_abc")].

(** A vendor side: the token endpoint and the customer endpoint answer as
    given; link tokens are issued unless an institution is pre-selected (the
    sandbox behaviour the comment above [createPlaidLinkToken] records).
    Every reply takes 40 ms. *)
Definition vendors_with (token customers : reply)
    (history : list request) (r : request) : reply * Z :=
  (if String.eqb (url r) (auth_url lean) then token
   else if String.eqb (url r) (api_url lean ++ "/customers/v1") then customers
   else if String.eqb (url r) "https://sandbox.plaid.com/link/token/create"
        then match postData r with
             | Some text =>
                 if includes text "institution_id"
                 then Response 400 invalid_institution_text
                 else Response 200 (stringify link_json)
             | None => Response 400 "{}"
             end
   else Response 200 "{}",
   40).

(** The JSON texts this world's parser knows. *)
Definition corpus : list value :=
  [token_json; customer_json; link_json; anonymous_customer_json;
   link_request_preselected; link_request_plain; invalid_institution_envelope;
   initialize_query; transactions_query].

Definition world_with (token customers : reply) : World := {|
  rt := runtime corpus;
  LEAN_CONFIG := lean;
  PLAID_CONFIG := plaid;
  network := vendors_with token customers
|}.

(** Every vendor call succeeds. *)
Definition world : World :=
  world_with (Response 200 (stringify token_json))
             (Response 200 (stringify customer_json)).

(** The customer endpoint is down. *)
Definition world_customers_down : World :=
  world_with (Response 200 (stringify token_json))
             (Response 503 "Service Unavailable").

(** The token endpoint rejects the credentials. *)
Definition world_unauthorized : World :=
  world_with (Response 401 "invalid_client")
             (Response 200 (stringify customer_json)).

(** The customer endpoint answers 200 without a customer identifier. *)
Definition world_anonymous : World :=
  world_with (Response 200 (stringify token_json))
             (Response 200 (stringify anonymous_customer_json)).

(** A process that has just started, at time [t]. *)
Definition start (t : Z) : Sys := mkSys VNull VNull t [].

(** A process holding a token that is valid until [t + 1000000]. *)
Definition warm (t : Z) : Sys :=
  mkSys (VStr "tok-0") (VNum (Fin (t + 1000000))) t [].

End Demo.

(* ================================================================== *)
(** ** server.js: the Lean proxy calls and the bank list *)
(* ================================================================== *)

Section Proxies.

Context {W : World}.

Definition bearer_headers (token : value) : list (string * string) :=
  [("Authorization", "Bearer " ++ ToString token);
   ("Accept", "application/json")].

Definition accounts_request (entityId token : value) : request :=
  mkRequest (api_url LEAN_CONFIG ++ "/data/v2/accounts?entity_id=" ++ ToString entityId
             ++ "&async=false&force_refresh=false&verbose=false")
    "GET" (bearer_headers token) None.

(** server.js 287-307.  The final log line reads [data.accounts]. *)
Definition getAccounts (entityId : value) : M value :=
  ensure_token ;;;
  let url := api_url LEAN_CONFIG ++ "/data/v2/accounts?entity_id=" ++ ToString entityId
             ++ "&async=false&force_refresh=false&verbose=false" in
  token <- read_apiAccessToken ;;
  data <- makeRequest url "GET" (bearer_headers token) None ;;
  lift (get data "accounts") ;;;
  ret data.

Definition balances_request (accountId entityId token : value) : request :=
  mkRequest (api_url LEAN_CONFIG ++ "/data/v2/accounts/" ++ ToString accountId
             ++ "/balances?entity_id=" ++ ToString entityId
             ++ "&async=false&page=0&size=50&verbose=false&force_refresh=true")
    "GET" (bearer_headers token) None.

(** server.js 312-334 *)
Definition getAccountBalances (accountId entityId : value) : M value :=
  ensure_token ;;;
  let url := api_url LEAN_CONFIG ++ "/data/v2/accounts/" ++ ToString accountId
             ++ "/balances?entity_id=" ++ ToString entityId
             ++ "&async=false&page=0&size=50&verbose=false&force_refresh=true" in
  token <- read_apiAccessToken ;;
  data <- makeRequest url "GET" (bearer_headers token) None ;;
  ret data.

Definition account_transactions_request (accountId entityId token : value) : request :=
  mkRequest (api_url LEAN_CONFIG ++ "/data/v2/accounts/" ++ ToString accountId
             ++ "/transactions?entity_id=" ++ ToString entityId
             ++ "&async=false&page=0&size=50&verbose=false")
    "GET" (bearer_headers token) None.

(** server.js 339-359 *)
Definition getAccountTransactions (accountId entityId : value) : M value :=
  ensure_token ;;;
  let url := api_url LEAN_CONFIG ++ "/data/v2/accounts/" ++ ToString accountId
             ++ "/transactions?entity_id=" ++ ToString entityId
             ++ "&async=false&page=0&size=50&verbose=false" in
  token <- read_apiAccessToken ;;
  data <- makeRequest url "GET" (bearer_headers token) None ;;
  ret data.

Definition consents_request (customerId entityId token : value) : request :=
  mkRequest (api_url LEAN_CONFIG ++ "/customers/v1/" ++ ToString customerId
             ++ "/entities/" ++ ToString entityId ++ "/consents")
    "GET" (bearer_headers token) None.

(** server.js 364-384.  The final log line reads [data.data]. *)
Definition listConsents (customerId entityId : value) : M value :=
  ensure_token ;;;
  let url := api_url LEAN_CONFIG ++ "/customers/v1/" ++ ToString customerId
             ++ "/entities/" ++ ToString entityId ++ "/consents" in
  token <- read_apiAccessToken ;;
  data <- makeRequest url "GET" (bearer_headers token) None ;;
  lift (get data "data") ;;;
  ret data.

Definition delete_consent_request
    (customerId entityId consentId reason token : value) : request :=
  mkRequest (api_url LEAN_CONFIG ++ "/customers/v1/" ++ ToString customerId
             ++ "/entities/" ++ ToString entityId ++ "/consent/" ++ ToString consentId
             ++ "?reason=" ++ ToString reason)
    "DELETE"
    [("Authorization", "Bearer " ++ ToString token);
     ("Accept", "application/json");
     ("Content-Type", "application/json")]
    None.

(** server.js 389-412; the default of [reason] applies to [undefined]. *)
Definition deleteConsent (customerId entityId consentId reason : value) : M value :=
  let reason := match reason with VUndefined => VStr "USER_REQUESTED" | _ => reason end in
  ensure_token ;;;
  let url := api_url LEAN_CONFIG ++ "/customers/v1/" ++ ToString customerId
             ++ "/entities/" ++ ToString entityId ++ "/consent/" ++ ToString consentId
             ++ "?reason=" ++ ToString reason in
  token <- read_apiAccessToken ;;
  data <- makeRequest url "DELETE"
            [("Authorization", "Bearer " ++ ToString token);
             ("Accept", "application/json");
             ("Content-Type", "application/json")]
            None ;;
  ret data.

Definition banks_request (token : value) : request :=
  mkRequest (api_url LEAN_CONFIG ++ "/entities/v1") "GET"
    [("Authorization", "Bearer " ++ ToString token);
     ("Content-Type", "application/json");
     ("lean-app-token", lean_client_id LEAN_CONFIG)]
    None.

(** server.js 801-818.  [tokenData] is what [getApiAccessToken] returns,
    and the header reads [tokenData.access_token]; the final log line reads
    [data.entities]. *)
Definition getLeanBanks : M value :=
  tokenData <- getApiAccessToken ;;
  token <- lift (get tokenData "access_token") ;;
  data <- makeRequest (api_url LEAN_CONFIG ++ "/entities/v1") "GET"
            [("Authorization", "Bearer " ++ ToString token);
             ("Content-Type", "application/json");
             ("lean-app-token", lean_client_id LEAN_CONFIG)]
            None ;;
  lift (get data "entities") ;;;
  ret data.

(** GET /api/lean/banks, server.js 837-848 *)
Definition handle_lean_banks : M response :=
  try_catch
    (result <- getLeanBanks ;; respond 200 result)
    (fun error => respond 500 (VObj [("error", VStr (message error))])).

(** POST /api/consents, server.js 988-1015 *)
Definition handle_list_consents (body : string) : M response :=
  try_catch
    (parsed <- lift (JSON_parse rt body) ;;
     customer_id <- lift (destructure parsed "customer_id") ;;
     entity_id <- lift (destructure parsed "entity_id") ;;
     if negb (truthy customer_id) || negb (truthy entity_id) then
       respond 400 (required "customer_id and entity_id are required")
     else
       result <- listConsents customer_id entity_id ;;
       respond 200 result)
    (fun error => respond 500 (failure_object error)).

(** POST /api/consents/delete, server.js 1018-1045 *)
Definition handle_delete_consent (body : string) : M response :=
  try_catch
    (parsed <- lift (JSON_parse rt body) ;;
     customer_id <- lift (destructure parsed "customer_id") ;;
     entity_id <- lift (destructure parsed "entity_id") ;;
     consent_id <- lift (destructure parsed "consent_id") ;;
     reason <- lift (destructure parsed "reason") ;;
     if negb (truthy customer_id) || negb (truthy entity_id) || negb (truthy consent_id) then
       respond 400 (required "customer_id, entity_id, and consent_id are required")
     else
       result <- deleteConsent customer_id entity_id consent_id
                   (or_else reason (VStr "USER_REQUESTED")) ;;
       respond 200 (VObj [("success", VBool true); ("data", result)]))
    (fun error => respond 500 (failure_object error)).

End Proxies.

(* ================================================================== *)
(** ** A second concrete world, for the proxy and Plaid endpoints *)
(* ================================================================== *)

Module Scenario.

(** What the browser posts to /api/consents/delete without a reason. *)
Definition delete_query : value :=
  VObj [("customer_id", VStr "cust-1"); ("entity_id", VStr "ent-1");
        ("consent_id", VStr "con-1")].

Definition corpus : list value := [Demo.token_json; delete_query].

(** The token endpoint issues tokens; a consent deletion is answered 204
    with an empty body; everything else is answered 404. *)
Definition vendors (history : list request) (r : request) : reply * Z :=
  (if String.eqb (url r) (auth_url Demo.lean)
   then Response 200 (Demo.stringify Demo.token_json)
   else if String.eqb (method r) "DELETE" then Response 204 EmptyString
   else Response 404 "not found",
   25).

Definition world : World := {|
  rt := Demo.runtime corpus;
  LEAN_CONFIG := Demo.lean;
  PLAID_CONFIG := Demo.plaid;
  network := vendors
|}.

End Scenario.

(* ================================================================== *)
(** ** server.js: Plaid balances with optional filters *)
(* ================================================================== *)

Section PlaidBalances.

Context {W : World}.

(** [n > 0] *)
Definition positive (n : number) : bool :=
  match n with
  | Fin z => 0 <? z
  | NaN => false
  end.

(** [v.length > 0] for a truthy [v]: arrays and strings have a length, an
    object may have a field of that name, numbers and booleans have none. *)
Definition length_positive (v : value) : bool :=
  match v with
  | VArr items => match items with [] => false | _ :: _ => true end
  | VStr s => negb (String.eqb s EmptyString)
  | VObj fields => positive (ToNumber rt (lookup "length" fields))
  | _ => false
  end.

(** server.js 548-567: the request body, built up field by field. *)
Definition balances_requestBody (accessToken options : value) : M value :=
  account_ids <- lift (get options "account_ids") ;;
  min_last_updated_datetime <- lift (get options "min_last_updated_datetime") ;;
  let requestBody :=
    [("client_id", plaid_client_id PLAID_CONFIG);
     ("secret", plaid_secret PLAID_CONFIG);
     ("access_token", accessToken)] in
  if truthy account_ids || truthy min_last_updated_datetime then
    let with_ids :=
      if truthy account_ids && length_positive account_ids
      then [("account_ids", account_ids)] else [] in
    let with_min :=
      if truthy min_last_updated_datetime
      then [("min_last_updated_datetime", min_last_updated_datetime)] else [] in
    ret (VObj (requestBody ++ [("options", VObj (with_ids ++ with_min))]))
  else
    ret (VObj requestBody).

Definition plaid_post (path : string) (requestBody : value) : request :=
  let postData := JSON_stringify rt requestBody in
  mkRequest (plaid_api_url PLAID_CONFIG ++ path) "POST"
    (json_headers postData) (Some postData).

(** server.js 545-581 *)
Definition getPlaidBalances (accessToken options : value) : M value :=
  requestBody <- balances_requestBody accessToken options ;;
  let postData := JSON_stringify rt requestBody in
  data <- makeRequest (plaid_api_url PLAID_CONFIG ++ "/accounts/balance/get") "POST"
            (json_headers postData) (Some postData) ;;
  ret data.

(** POST /api/plaid/balances, server.js 1217-1246 *)
Definition handle_plaid_balances (body : string) : M response :=
  try_catch
    (parsed <- lift (JSON_parse rt body) ;;
     access_token <- lift (destructure parsed "access_token") ;;
     options <- lift (destructure parsed "options") ;;
     if negb (truthy access_token) then
       respond 400 (VObj [("error", VStr "access_token is required")])
     else
       result <- getPlaidBalances access_token (or_else options (VObj [])) ;;
       respond 200 result)
    (fun error => respond 500 (VObj [("error", VStr (message error))])).

End PlaidBalances.

(* ================================================================== *)
(** ** server.js: GET /api/plaid/list-users *)
(* ================================================================== *)

Section ListUsers.

Context {W : World}.

(** The time value of [new Date(v)] (NaN for an invalid date) and the
    length of a string in UTF-16 code units: two more built-ins. *)
Variable Date_value : value -> number.
Variable String_length : string -> Z.

(** One entry of [usersMap], server.js 1429-1436. *)
Record user_entry : Type := mkUser {
  user_id : value;
  connection_count : Z;
  connections : list value;
  first_connection : value;
  last_connection : value;
  institutions : list value
}.

(** [conn.k] once [conn] is known not to be null or undefined. *)
Definition prop (conn : value) (k : string) : value :=
  match get conn k with
  | Return v => v
  | Throw _ => VUndefined
  end.

(** The names an empty object literal inherits from [Object.prototype]:
    [usersMap[name]] is truthy for these before any entry is stored. *)
Definition prototype_keys : list string :=
  ["constructor"; "__defineGetter__"; "__defineSetter__"; "hasOwnProperty";
   "__lookupGetter__"; "__lookupSetter__"; "isPrototypeOf";
   "propertyIsEnumerable"; "toString"; "valueOf"; "__proto__"; "toLocaleString"].

Definition is_prototype_key (k : string) : bool :=
  existsb (String.eqb k) prototype_keys.

(** SameValueZero, as [Array.prototype.includes] compares: primitives by
    value; two objects or arrays read from different log entries are never
    the same object. *)
Definition same_value_zero (a b : value) : bool :=
  match a, b with
  | VUndefined, VUndefined => true
  | VNull, VNull => true
  | VBool x, VBool y => Bool.eqb x y
  | VNum (Fin x), VNum (Fin y) => x =? y
  | VNum NaN, VNum NaN => true
  | VStr x, VStr y => String.eqb x y
  | _, _ => false
  end.

(** [a < b] on time values *)
Definition lt (a b : number) : bool :=
  match a, b with
  | Fin x, Fin y => x <? y
  | _, _ => false
  end.

(** [conn.accounts ? conn.accounts.length : 0] *)
Definition accounts_count (accounts : value) : value :=
  if truthy accounts then
    match accounts with
    | VArr items => VNum (Fin (Z.of_nat (List.length items)))
    | VStr s => VNum (Fin (String_length s))
    | VObj fields => lookup "length" fields
    | _ => VUndefined
    end
  else VNum (Fin 0).

(** The object pushed onto [connections], server.js 1440-1446. *)
Definition connection_summary (conn : value) : value :=
  VObj [("item_id", prop conn "item_id");
        ("institution_name", prop conn "institution_name");
        ("institution_id", prop conn "institution_id");
        ("timestamp", prop conn "timestamp");
        ("accounts_count", accounts_count (prop conn "accounts"))].

(** [conn.user_id || 'unknown'] as a property key *)
Definition user_key (conn : value) : string :=
  ToString (or_else (prop conn "user_id") (VStr "unknown")).

Fixpoint find_user (k : string) (usersMap : list (string * user_entry))
    : option user_entry :=
  match usersMap with
  | [] => None
  | (k', e) :: rest => if String.eqb k' k then Some e else find_user k rest
  end.

Fixpoint store_user (k : string) (e : user_entry)
    (usersMap : list (string * user_entry)) : list (string * user_entry) :=
  match usersMap with
  | [] => [(k, e)]
  | (k', e') :: rest =>
      if String.eqb k' k then (k, e) :: rest else (k', e') :: store_user k e rest
  end.

(** server.js 1439-1459: what one connection changes in its user's entry. *)
Definition record_connection (e : user_entry) (conn : value) : user_entry :=
  let name := prop conn "institution_name" in
  let timestamp := prop conn "timestamp" in
  mkUser (user_id e)
         (connection_count e + 1)
         (connections e ++ [connection_summary conn])
         (if lt (Date_value timestamp) (Date_value (first_connection e))
          then timestamp else first_connection e)
         (if lt (Date_value (last_connection e)) (Date_value timestamp)
          then timestamp else last_connection e)
         (if truthy name && negb (existsb (same_value_zero name) (institutions e))
          then institutions e ++ [name] else institutions e).

(** server.js 1425-1460: the body of the [forEach] callback.  A key that
    [Object.prototype] defines finds a function where an entry is expected,
    and [.connections.push] throws on it. *)
Definition add_connection (usersMap : list (string * user_entry)) (conn : value)
    : outcome (list (string * user_entry)) :=
  match get conn "user_id" with
  | Throw e => Throw e
  | Return uid =>
      let userId := or_else uid (VStr "unknown") in
      let key := ToString userId in
      match find_user key usersMap with
      | Some e => Return (store_user key (record_connection e conn) usersMap)
      | None =>
          if is_prototype_key key then
            Throw (TypeError "Cannot read properties of undefined (reading 'push')")
          else
            let fresh := mkUser userId 0 [] (prop conn "timestamp")
                           (prop conn "timestamp") [] in
            Return (store_user key (record_connection fresh conn) usersMap)
      end
  end.

(** [connections.forEach(conn => ...)] over the elements of an array. *)
Fixpoint group_users (usersMap : list (string * user_entry)) (conns : list value)
    : outcome (list (string * user_entry)) :=
  match conns with
  | [] => Return usersMap
  | conn :: rest =>
      match add_connection usersMap conn with
      | Throw e => Throw e
      | Return usersMap' => group_users usersMap' rest
      end
  end.

(** An array index: the canonical decimal form of an integer below
    2^32 - 1.  [Object.values] lists the properties with such names first,
    in ascending order. *)
Fixpoint digits_value (acc : Z) (s : string) : option Z :=
  match s with
  | EmptyString => Some acc
  | String c rest =>
      let n := Z.of_nat (nat_of_ascii c) in
      if (48 <=? n) && (n <=? 57) then digits_value (acc * 10 + (n - 48)) rest
      else None
  end.

Definition array_index (k : string) : option Z :=
  match k with
  | EmptyString => None
  | _ =>
      match digits_value 0 k with
      | Some n =>
          if String.eqb (string_of_Z n) k && (n <? 4294967295) then Some n else None
      | None => None
      end
  end.

Fixpoint insert_by_index (i : Z) (e : user_entry) (l : list (Z * user_entry))
    : list (Z * user_entry) :=
  match l with
  | [] => [(i, e)]
  | (j, e') :: rest =>
      if i <? j then (i, e) :: l else (j, e') :: insert_by_index i e rest
  end.

Fixpoint indexed_entries (usersMap : list (string * user_entry))
    : list (Z * user_entry) :=
  match usersMap with
  | [] => []
  | (k, e) :: rest =>
      match array_index k with
      | Some i => insert_by_index i e (indexed_entries rest)
      | None => indexed_entries rest
      end
  end.

Fixpoint named_entries (usersMap : list (string * user_entry)) : list user_entry :=
  match usersMap with
  | [] => []
  | (k, e) :: rest =>
      match array_index k with
      | Some _ => named_entries rest
      | None => e :: named_entries rest
      end
  end.

(** [Object.values(usersMap)] *)
Definition object_values (usersMap : list (string * user_entry)) : list user_entry :=
  map snd (indexed_entries usersMap) ++ named_entries usersMap.

Definition user_value (e : user_entry) : value :=
  VObj [("user_id", user_id e);
        ("connection_count", VNum (Fin (connection_count e)));
        ("connections", VArr (connections e));
        ("first_connection", first_connection e);
        ("last_connection", last_connection e);
        ("institutions", VArr (institutions e))].

(** The response body on success, server.js 1468-1473. *)
Definition users_report (conns : list value) (users : list user_entry) : value :=
  VObj [("success", VBool true);
        ("user_count", VNum (Fin (Z.of_nat (List.length users))));
        ("total_connections", VNum (Fin (Z.of_nat (List.length conns))));
        ("users", VArr (map user_value users))].

(** [connections.forEach(...)] on whatever the log parsed to. *)
Definition for_each_connection (parsed : value)
    : outcome (list value * list (string * user_entry)) :=
  match parsed with
  | VArr conns =>
      match group_users [] conns with
      | Return usersMap => Return (conns, usersMap)
      | Throw e => Throw e
      end
  | VNull =>
      Throw (TypeError "Cannot read properties of null (reading 'forEach')")
  | VUndefined =>
      Throw (TypeError "Cannot read properties of undefined (reading 'forEach')")
  | _ => Throw (TypeError "connections.forEach is not a function")
  end.

(** server.js 1409-1480; [logFile] is the content of
    plaid-connections/all_plaid_connections.json, [None] when the file does
    not exist. *)
Definition handle_list_users (logFile : option string) : response :=
  match logFile with
  | None => mkResponse 200 (JSON_stringify rt (VObj [("users", VArr [])]))
  | Some data =>
      let parsed :=
        if negb (String.eqb (String_trim rt data) EmptyString)
        then JSON_parse rt data else Return (VArr []) in
      match parsed with
      | Throw error =>
          mkResponse 500 (JSON_stringify rt (VObj [("error", VStr (message error))]))
      | Return connections =>
          match for_each_connection connections with
          | Throw error =>
              mkResponse 500 (JSON_stringify rt (VObj [("error", VStr (message error))]))
          | Return (conns, usersMap) =>
              mkResponse 200
                (JSON_stringify rt (users_report conns (object_values usersMap)))
          end
      end
  end.

(** The sum of the [connection_count] fields. *)
Definition counted (usersMap : list (string * user_entry)) : Z :=
  fold_right Z.add 0 (map (fun p => connection_count (snd p)) usersMap).

(** What holds of [usersMap] after the connections [done] have been
    processed. *)
Definition grouped (done : list value) (m : list (string * user_entry)) : Prop :=
  NoDup (map fst m)
  /\ (forall k e, In (k, e) m ->
        connections e
        = map connection_summary (filter (fun c => String.eqb (user_key c) k) done)
        /\ connection_count e = Z.of_nat (List.length (connections e))
        /\ 0 < connection_count e
        /\ is_prototype_key k = false)
  /\ (forall c, In c done -> In (user_key c) (map fst m))
  /\ counted m = Z.of_nat (List.length done).

End ListUsers.

(* ================================================================== *)
(** ** server.js: reading .env, and routing *)
(* ================================================================== *)

Section EnvAndRoutes.

Context {W : World}.

(** [s.split(sep)] for a one-character separator *)
Fixpoint split_on (sep : ascii) (s : string) : list string :=
  match s with
  | EmptyString => [EmptyString]
  | String c rest =>
      if Ascii.eqb c sep then EmptyString :: split_on sep rest
      else match split_on sep rest with
           | first :: others => String c first :: others
           | [] => [String c EmptyString]
           end
  end.

(** [parts.join(sep)] *)
Fixpoint join_with (sep : string) (parts : list string) : string :=
  match parts with
  | [] => EmptyString
  | [p] => p
  | p :: rest => p ++ sep ++ join_with sep rest
  end.

(** [process.env], and an assignment to one of its names. *)
Definition Env : Type := string -> option string.

Definition assign (env : Env) (k v : string) : Env :=
  fun k' => if String.eqb k' k then Some v else env k'.

(** server.js 20-29: the callback of [forEach] over the lines. *)
Definition parse_env_line (env : Env) (line : string) : Env :=
  let line := String_trim rt line in
  if negb (String.eqb line EmptyString) && negb (starts_with "#" line) then
    match split_on "=" line with
    | key :: valueParts =>
        let value := String_trim rt (join_with "=" valueParts) in
        if negb (String.eqb key EmptyString) && negb (String.eqb value EmptyString)
        then assign env (String_trim rt key) value
        else env
    | [] => env
    end
  else env.

(** server.js 11-30; [None] is [process.exit(1)], taken when there is no
    .env file. *)
Definition loadEnv (envFile : option string) (env : Env) : option Env :=
  match envFile with
  | None => None
  | Some text => Some (fold_left parse_env_line (split_on "010" text) env)
  end.

(** The routes of the request listener, server.js 823-1756, in its order. *)
Inductive endpoint : Type :=
| Preflight | LeanBanks | Config | InitializeCustomer | GetCustomerTokens
| AccountBalances | AccountTransactions | Accounts | Consents | ConsentsDelete
| SaveConnection | PlaidCreateLinkToken | PlaidExchangeToken | PlaidAccounts
| PlaidBalances | PlaidTransactions | PlaidAuth | PlaidSaveConnection
| PlaidListConnections | PlaidListUsers | PlaidRemoveItem | PlaidRecipients
| PlaidInstitutions | PlaidWebhook | PlaidFireWebhook | PlaidResetLogin
| PlaidWebhooks | StaticFile.

(** The longest prefix without a slash is dropped. *)
Fixpoint after_segment (s : string) : string :=
  match s with
  | EmptyString => EmptyString
  | String c rest => if Ascii.eqb c "/" then s else after_segment rest
  end.

Fixpoint drop_prefix (p s : string) : option string :=
  match p, s with
  | EmptyString, _ => Some s
  | String a p', String b s' => if Ascii.eqb a b then drop_prefix p' s' else None
  | String _ _, EmptyString => None
  end.

(** [url.match(/^\/api\/accounts\/[^\/]+\/<what>/)] *)
Definition account_route (what : string) (url : string) : bool :=
  match drop_prefix "/api/accounts/" url with
  | Some (String c rest) =>
      negb (Ascii.eqb c "/") && starts_with ("/" ++ what) (after_segment rest)
  | _ => false
  end.

Definition route (method url : string) : endpoint :=
  let hit (u m : string) := String.eqb url u && String.eqb method m in
  if String.eqb method "OPTIONS" then Preflight
  else if hit "/api/lean/banks" "GET" then LeanBanks
  else if hit "/api/config" "GET" then Config
  else if hit "/api/initialize-customer" "POST" then InitializeCustomer
  else if hit "/api/get-customer-tokens" "POST" then GetCustomerTokens
  else if account_route "balances" url && String.eqb method "GET" then AccountBalances
  else if account_route "transactions" url && String.eqb method "GET"
       then AccountTransactions
  else if starts_with "/api/accounts" url && String.eqb method "GET" then Accounts
  else if hit "/api/consents" "POST" then Consents
  else if hit "/api/consents/delete" "POST" then ConsentsDelete
  else if hit "/api/save-connection" "POST" then SaveConnection
  else if hit "/api/plaid/create-link-token" "POST" then PlaidCreateLinkToken
  else if hit "/api/plaid/exchange-token" "POST" then PlaidExchangeToken
  else if hit "/api/plaid/accounts" "POST" then PlaidAccounts
  else if hit "/api/plaid/balances" "POST" then PlaidBalances
  else if hit "/api/plaid/transactions" "POST" then PlaidTransactions
  else if hit "/api/plaid/auth" "POST" then PlaidAuth
  else if hit "/api/plaid/save-connection" "POST" then PlaidSaveConnection
  else if hit "/api/plaid/list-connections" "GET" then PlaidListConnections
  else if hit "/api/plaid/list-users" "GET" then PlaidListUsers
  else if hit "/api/plaid/remove-item" "POST" then PlaidRemoveItem
  else if hit "/api/plaid/recipients" "POST" then PlaidRecipients
  else if starts_with "/api/plaid/institutions" url && String.eqb method "POST"
       then PlaidInstitutions
  else if hit "/api/plaid/webhook" "POST" then PlaidWebhook
  else if hit "/api/plaid/fire-webhook" "POST" then PlaidFireWebhook
  else if hit "/api/plaid/reset-login" "POST" then PlaidResetLogin
  else if hit "/api/plaid/webhooks" "GET" then PlaidWebhooks
  else StaticFile.

(** [req.url.split('?')[0].split('/')[3]], server.js 917-918 and 941-942;
    [None] is [undefined]. *)
Definition url_accountId (url : string) : option string :=
  nth_error (split_on "/" (hd EmptyString (split_on "?" url))) 3.

End EnvAndRoutes.

(* ================================================================== *)
(** ** A connection log for the user list *)
(* ================================================================== *)

Module UsersLog.

(** [new Date(ms)] of a number is that time value; here every other value
    gives an invalid date. *)
Definition Date_value (v : value) : number :=
  match v with
  | VNum n => n
  | _ => NaN
  end.

Definition String_length (s : string) : Z := Z.of_nat (String.length s).

Definition connection (user item bank : string) (timestamp : Z) : value :=
  VObj [("user_id", VStr user); ("item_id", VStr item);
        ("institution_name", VStr bank); ("institution_id", VStr "ins_1");
        ("timestamp", VNum (Fin timestamp)); ("accounts", VArr [VStr "acc-1"])].

Definition log : list value :=
  [connection "alice" "item-1" "First Bank" 1000;
   connection "bob" "item-2" "First Bank" 2000;
   connection "alice" "item-3" "Second Bank" 3000].

(** A log in which one user is called like a property of every object. *)
Definition log_with_constructor : list value :=
  [connection "alice" "item-1" "First Bank" 1000;
   connection "constructor" "item-9" "First Bank" 4000].

Definition world : World := {|
  rt := Demo.runtime [VArr log; VArr log_with_constructor];
  LEAN_CONFIG := Demo.lean;
  PLAID_CONFIG := Demo.plaid;
  network := Scenario.vendors
|}.

Definition users : list (string * user_entry) :=
  match group_users Date_value String_length [] log with
  | Return usersMap => usersMap
  | Throw _ => []
  end.

End UsersLog.

(* ================================================================== *)
(** ** backend-simulation.js: the rest of the workflow *)
(* ================================================================== *)

Module BackendSimulation.

Section Workflow.

Context {W : World}.

Definition token_request (scope : string) : request :=
  mkRequest (auth_url LeanBackendAPI.config) "POST"
    [("Content-Type", "application/x-www-form-urlencoded")]
    (Some (URLSearchParams_toString rt
             [("client_id", lean_client_id LeanBackendAPI.config);
              ("client_secret", lean_client_secret LeanBackendAPI.config);
              ("grant_type", "client_credentials");
              ("scope", scope)])).

Definition customer_request (appUserId apiToken : value) : request :=
  mkRequest (api_url LeanBackendAPI.config ++ "/customers/v1") "POST"
    [("Authorization", "Bearer " ++ ToString apiToken);
     ("Content-Type", "application/json")]
    (Some (JSON_stringify rt (VObj [("app_user_id", appUserId)]))).

(** [!customerId || customerId === 'undefined'] *)
Definition invalid_customer_id (customerId : value) : bool :=
  negb (truthy customerId)
  || match customerId with
     | VStr s => String.eqb s "undefined"
     | _ => false
     end.

(** backend-simulation.js 141-191; the three log lines read [data]. *)
Definition getCustomerAccessToken (customerId : value) : M value :=
  if invalid_customer_id customerId then
    throw (Error ("Invalid customer ID: " ++ ToString customerId
                  ++ ". Make sure Step 2 returned a valid customer ID."))
  else
    let formData :=
      URLSearchParams_toString rt
        [("client_id", lean_client_id LeanBackendAPI.config);
         ("client_secret", lean_client_secret LeanBackendAPI.config);
         ("grant_type", "client_credentials");
         ("scope", "customer." ++ ToString customerId)] in
    response <- LeanBackendAPI.fetch (auth_url LeanBackendAPI.config) "POST"
                  [("Content-Type", "application/x-www-form-urlencoded")]
                  (Some formData) ;;
    if negb (is_2xx (fst response)) then
      throw (Error ("Failed to get customer token: " ++ string_of_Z (fst response)
                    ++ " - " ++ snd response))
    else
      data <- lift (JSON_parse rt (snd response)) ;;
      token_type <- lift (get data "token_type") ;;
      expires_in <- lift (get data "expires_in") ;;
      scope <- lift (get data "scope") ;;
      access_token <- lift (get data "access_token") ;;
      ret (VObj [("access_token", access_token);
                 ("token_type", token_type);
                 ("expires_in", expires_in);
                 ("scope", scope)]).

(** backend-simulation.js 212-233: from the customer object on. *)
Definition with_customer (customer : value) : M value :=
  if negb (truthy customer) then
    throw (Error ("Failed to get customer_id from createCustomer. Customer object: "
                  ++ JSON_stringify rt customer))
  else
    customer_id <- lift (get customer "customer_id") ;;
    if negb (truthy customer_id) then
      throw (Error ("Failed to get customer_id from createCustomer. Customer object: "
                    ++ JSON_stringify rt customer))
    else
      customerToken <- getCustomerAccessToken customer_id ;;
      app_user_id <- lift (get customer "app_user_id") ;;
      access_token <- lift (get customerToken "access_token") ;;
      expires_in <- lift (get customerToken "expires_in") ;;
      scope <- lift (get customerToken "scope") ;;
      ret (VObj [("success", VBool true);
                 ("customer_id", customer_id);
                 ("app_user_id", app_user_id);
                 ("access_token", access_token);
                 ("token_expires_in", expires_in);
                 ("token_scope", scope)]).

(** backend-simulation.js 197-246 *)
Definition initializeCustomer (appUserId : value) : M value :=
  try_catch
    (LeanBackendAPI.getApiAccessToken ;;;
     customer <- LeanBackendAPI.createCustomer appUserId ;;
     with_customer customer)
    (fun error => ret (failure_object error)).


End Workflow.

End BackendSimulation.

(* ================================================================== *)
(** ** app.js: the customer flows of the Lean page *)
(* ================================================================== *)

Module App.

(** What [resultsDiv] shows. *)
Inductive panel : Type :=
| Loading
| Succeeded (heading : string) (result : value)
| Failed (heading message : string).

(** The variables and elements of the page the two flows read or write
    (the two read-only display inputs are left out). *)
Record Page : Type := mkPage {
  currentCustomerId : value;
  currentAccessToken : value;
  connectBtn_disabled : bool;
  existingCustomerIdInput : string;
  resultsDiv : panel
}.

Section Flows.

Context {W : World}.

(** [response.statusText] for the statuses server.js writes. *)
Definition statusText (status : Z) : string :=
  if status =? 200 then "OK"
  else if status =? 400 then "Bad Request"
  else if status =? 404 then "Not Found"
  else if status =? 500 then "Internal Server Error"
  else "unknown".

(** app.js 139-147 and 459-467: reading the backend's answer. *)
Definition read_backend (response : response) (fallback : string) : M value :=
  if negb (response_ok response) then
    throw (Error ("Backend API failed: " ++ string_of_Z (status response) ++ " "
                  ++ statusText (status response)))
  else
    result <- response_json response ;;
    success <- lift (get result "success") ;;
    if negb (truthy success) then
      error <- lift (get result "error") ;;
      throw (Error (ToString (or_else error (VStr fallback))))
    else ret result.

(** app.js 150-158 and 470-478 *)
Definition store (heading input : string) (result : value) : Page :=
  mkPage (prop result "customer_id") (prop result "access_token") false input
         (Succeeded heading result).

Definition show (page : Page) (p : panel) : Page :=
  mkPage (currentCustomerId page) (currentAccessToken page)
         (connectBtn_disabled page) (existingCustomerIdInput page) p.

(** app.js 114-226; [randomId] is what the two [Math.random()] calls give.
    The local server, taken to be reachable, runs its handler on the posted
    text. *)
Definition initializeCustomer (randomId : string) (page : Page) : M Page :=
  let appUserId := "user_" ++ randomId in
  try_catch
    (response <- handle_initialize_customer
                   (JSON_stringify rt (VObj [("app_user_id", VStr appUserId)])) ;;
     result <- read_backend response "Customer initialization failed" ;;
     ret (store "Customer Initialized Successfully!"
            (existingCustomerIdInput page) result))
    (fun error => ret (show page (Failed "Initialization Failed" (message error)))).

Definition is_hex (c : ascii) : bool :=
  let n := Z.of_nat (nat_of_ascii c) in
  ((48 <=? n) && (n <=? 57)) || ((97 <=? n) && (n <=? 102))
  || ((65 <=? n) && (n <=? 70)).

(** [n] hexadecimal digits, then the rest *)
Fixpoint hex_digits (n : nat) (s : string) : option string :=
  match n with
  | O => Some s
  | S n' =>
      match s with
      | String c rest => if is_hex c then hex_digits n' rest else None
      | EmptyString => None
      end
  end.

Definition hex_group (n : nat) (s : option string) : option string :=
  match s with
  | Some s => hex_digits n s
  | None => None
  end.

Definition dash (s : option string) : option string :=
  match s with
  | Some (String c rest) => if Ascii.eqb c "-" then Some rest else None
  | _ => None
  end.

(** [/^[0-9a-f]{8}-[0-9a-f]{4}-[0-9a-f]{4}-[0-9a-f]{4}-[0-9a-f]{12}$/i.test(s)] *)
Definition uuidPattern_test (s : string) : bool :=
  match hex_group 12 (dash (hex_group 4 (dash (hex_group 4 (dash
          (hex_group 4 (dash (hex_group 8 (Some s))))))))) with
  | Some EmptyString => true
  | _ => false
  end.

(** app.js 405-540 *)
Definition getTokensForExistingCustomer (page : Page) : M Page :=
  let customerId := String_trim rt (existingCustomerIdInput page) in
  if String.eqb customerId EmptyString then
    ret (show page (Failed "Validation Failed" "Customer ID is required"))
  else if negb (uuidPattern_test customerId) then
    ret (show page (Failed "Invalid Customer ID"
                      "Customer ID must be a valid UUID format"))
  else
    try_catch
      (response <- handle_get_customer_tokens
                     (JSON_stringify rt (VObj [("customer_id", VStr customerId)])) ;;
       result <- read_backend response "Token retrieval failed" ;;
       ret (store "Tokens Retrieved Successfully!" EmptyString result))
      (fun error => ret (show page (Failed "Token Retrieval Failed" (message error)))).

End Flows.

End App.

(** Every run of [m] only appends requests that satisfy [P] to the log. *)
Definition sends {A} (P : request -> Prop) (m : M A) : Prop :=
  forall s, exists new, sent (snd (m s)) = (sent s ++ new)%list /\ Forall P new.

(** A vendor that cannot be reached, and a page on which a customer id has
    been typed. *)
Module Offline.

Definition refused : exn := Error "connect ECONNREFUSED".

Definition uuid : string := "82e518a0-19fe-4561-ae2a-988b5056d5af".

Definition tokens_query : value := VObj [("customer_id", VStr uuid)].

Definition corpus : list value :=
  [Demo.initialize_query; tokens_query; failure_object refused].

Definition world : World := {|
  rt := Demo.runtime corpus;
  LEAN_CONFIG := Demo.lean;
  PLAID_CONFIG := Demo.plaid;
  network := fun _ _ => (NetError refused, 5)
|}.

Definition page : App.Page := App.mkPage VNull VNull true uuid App.Loading.

End Offline.

(* ================================================================== *)
(** ** server.js: the webhook log *)
(* ================================================================== *)

(** [new Date(t).toISOString()] *)
Definition toISOString (t : Z) : outcome string :=
  match toISOString_date t with
  | Throw e => Throw e
  | Return date =>
      let ms := t mod msPerDay in
      Return (date ++ "T" ++ pad 2 (ms / 3600000) ++ ":" ++ pad 2 ((ms / 60000) mod 60)
              ++ ":" ++ pad 2 ((ms / 1000) mod 60) ++ "." ++ pad 3 (ms mod 1000) ++ "Z")
  end.

(** [s.replace(/[:.]/g, '-')] *)
Fixpoint dashed (s : string) : string :=
  match s with
  | EmptyString => EmptyString
  | String c rest =>
      String (if Ascii.eqb c ":" || Ascii.eqb c "." then "-"%char else c) (dashed rest)
  end.

(** The files of the [webhooks] directory, by name. *)
Definition Files : Type := string -> option string.

Definition writeFileSync (files : Files) (name content : string) : Files :=
  fun n => if String.eqb n name then Some content else files n.

(** [{ ...fields, k: v }]: a property that is there keeps its place. *)
Fixpoint set_property (k : string) (v : value) (fields : list (string * value))
    : list (string * value) :=
  match fields with
  | [] => [(k, v)]
  | (k', v') :: rest =>
      if String.eqb k' k then (k, v) :: rest else (k', v') :: set_property k v rest
  end.

Fixpoint indexed (i : Z) (items : list value) : list (string * value) :=
  match items with
  | [] => []
  | x :: rest => (string_of_Z i, x) :: indexed (i + 1) rest
  end.

Section Webhooks.

Context {W : World}.

(** Two more built-ins: [JSON.stringify(v, null, 2)], and the UTF-16 code
    units of a string, one string each. *)
Variable JSON_pretty : value -> string.
Variable code_units : string -> list string.

(** The own enumerable properties a spread copies. *)
Definition own_properties (v : value) : list (string * value) :=
  match v with
  | VObj fields => fields
  | VArr items => indexed 0 items
  | VStr s => indexed 0 (map VStr (code_units s))
  | _ => []
  end.

Definition all_webhooks : string := "all_webhooks.json".

(** [allWebhooks.push(dataToSave)] and the write of the log *)
Definition push_event (files : Files) (allWebhooks dataToSave : value)
    : outcome unit * Files :=
  match allWebhooks with
  | VArr items =>
      (Return tt,
       writeFileSync files all_webhooks (JSON_pretty (VArr (items ++ [dataToSave]))))
  | VNull => (Throw (TypeError "Cannot read properties of null (reading 'push')"), files)
  | VUndefined =>
      (Throw (TypeError "Cannot read properties of undefined (reading 'push')"), files)
  | _ => (Throw (TypeError "allWebhooks.push is not a function"), files)
  end.

(** What the log holds: an absent or blank file stands for no event. *)
Definition read_log (files : Files) : outcome value :=
  match files all_webhooks with
  | Some existing =>
      if negb (String.eqb (String_trim rt existing) EmptyString)
      then JSON_parse rt existing
      else Return (VArr [])
  | None => Return (VArr [])
  end.

(** [{ ...webhookData, received_at: timestamp }] *)
Definition stamped (timestamp : string) (webhookData : value) : value :=
  VObj (set_property "received_at" (VStr timestamp) (own_properties webhookData)).

Definition event_file (timestamp : string) : string :=
  "webhook_" ++ dashed timestamp ++ ".json".

(** server.js 765-796, at time [now]; creating the directory is left out. *)
Definition saveWebhookEvent (now : Z) (files : Files) (webhookData : value)
    : outcome string * Files :=
  match toISOString now with
  | Throw e => (Throw e, files)
  | Return timestamp =>
      let dataToSave := stamped timestamp webhookData in
      let filename := event_file timestamp in
      let files := writeFileSync files filename (JSON_pretty dataToSave) in
      match read_log files with
      | Throw e => (Throw e, files)
      | Return allWebhooks =>
          match push_event files allWebhooks dataToSave with
          | (Return _, files') => (Return filename, files')
          | (Throw e, files') => (Throw e, files')
          end
      end
  end.

(** POST /api/plaid/webhook, server.js 1563-1600; the log lines read three
    properties of the payload. *)
Definition handle_webhook (now : Z) (files : Files) (body : string)
    : response * Files :=
  let failed (error : exn) :=
    mkResponse 500 (JSON_stringify rt (VObj [("error", VStr (message error))])) in
  match JSON_parse rt body with
  | Throw error => (failed error, files)
  | Return webhookData =>
      match get webhookData "webhook_type" with
      | Throw error => (failed error, files)
      | Return _ =>
          match saveWebhookEvent now files webhookData with
          | (Throw error, files') => (failed error, files')
          | (Return filename, files') =>
              (mkResponse 200
                 (JSON_stringify rt
                    (VObj [("success", VBool true);
                           ("message", VStr "Webhook received and processed");
                           ("filename", VStr filename)])),
               files')
          end
      end
  end.

(** [webhooks.length] *)
Definition length_of (v : value) : outcome value :=
  match v with
  | VArr items => Return (VNum (Fin (Z.of_nat (List.length items))))
  | VStr s => Return (VNum (Fin (Z.of_nat (List.length (code_units s)))))
  | _ => get v "length"
  end.

(** GET /api/plaid/webhooks, server.js 1675-1707 *)
Definition handle_list_webhooks (files : Files) : response :=
  let failed (error : exn) :=
    mkResponse 500 (JSON_stringify rt (VObj [("error", VStr (message error))])) in
  match files all_webhooks with
  | None =>
      mkResponse 200
        (JSON_stringify rt
           (VObj [("success", VBool true); ("count", VNum (Fin 0));
                  ("webhooks", VArr [])]))
  | Some _ =>
      match read_log files with
      | Throw error => failed error
      | Return webhooks =>
          match length_of webhooks with
          | Throw error => failed error
          | Return count =>
              mkResponse 200
                (JSON_stringify rt
                   (VObj [("success", VBool true); ("count", count);
                          ("webhooks", webhooks)]))
          end
      end
  end.

End Webhooks.

(** A webhook arriving at the epoch, with nothing logged yet. *)
Module WebhookDemo.

Definition code_units (s : string) : list string :=
  map (fun c => String c EmptyString) (list_ascii_of_string s).

Definition payload : value :=
  VObj [("webhook_type", VStr "ITEM"); ("webhook_code", VStr "ERROR");
        ("item_id", VStr "item-1"); ("received_at", VStr "yesterday")].

Definition saved : value := stamped code_units "1970-01-01T00:00:00.000Z" payload.

Definition world : World := {|
  rt := Demo.runtime [payload; VArr [saved]];
  LEAN_CONFIG := Demo.lean;
  PLAID_CONFIG := Demo.plaid;
  network := Scenario.vendors
|}.

Definition no_files : Files := fun _ => None.

Definition corrupt_log : Files := writeFileSync no_files all_webhooks "[{".

End WebhookDemo.

(** A customer endpoint that names the customer [id]. *)
Module LegacyIds.

Definition customer_json : value :=
  VObj [("id", VStr "cust-9"); ("app_user_id", VStr "user_abc")].

Definition world : World := {|
  rt := Demo.runtime [Demo.token_json; customer_json];
  LEAN_CONFIG := Demo.lean;
  PLAID_CONFIG := Demo.plaid;
  network := Demo.vendors_with (Response 200 (Demo.stringify Demo.token_json))
                               (Response 200 (Demo.stringify customer_json))
|}.

End LegacyIds.

(* ================================================================== *)
(** ** server.js: the static files *)
(* ================================================================== *)

(** What [fs.readFile] calls back with. *)
Inductive read_result : Type :=
| Content (content : string)
| ENOENT
| OtherError.

(** server.js 1711-1715 *)
Definition static_path (url : string) : string :=
  let urlPath := hd EmptyString (split_on "?" url) in
  let filePath := "." ++ urlPath in
  if String.eqb filePath "./" then "./index.html" else filePath.

(** server.js 1709-1756, for the file system [readFile]. *)
Definition serve_static (readFile : string -> read_result) (url : string) : response :=
  match readFile (static_path url) with
  | Content content => mkResponse 200 content
  | ENOENT => mkResponse 404 "404 - File Not Found"
  | OtherError => mkResponse 500 "500 - Internal Server Error"
  end.

(* ================================================================== *)
(** ** crypto-wallet-app.js: the names of the networks *)
(* ================================================================== *)

From Stdlib Require HexadecimalString HexadecimalN.

Module CryptoWallet.

(** [n.toString(16)] for an integer *)
Definition toString16 (n : Z) : string :=
  let hex (m : Z) :=
    HexadecimalString.NilEmpty.string_of_uint (N.to_hex_uint (Z.to_N m)) in
  if n <? 0 then "-" ++ hex (- n) else hex n.

(** crypto-wallet-app.js 1112-1127 *)
Definition networks : list (string * string) :=
  [("0x1", "Ethereum Mainnet");
   ("0x3", "Ropsten Testnet");
   ("0x4", "Rinkeby Testnet");
   ("0x5", "Goerli Testnet");
   ("0x2a", "Kovan Testnet");
   ("0x38", "Binance Smart Chain");
   ("0x61", "BSC Testnet");
   ("0x89", "Polygon Mainnet");
   ("0x13881", "Mumbai Testnet");
   ("0xa", "Optimism");
   ("0xa4b1", "Arbitrum One");
   ("0xa4ba", "Arbitrum Nova");
   ("0xfa", "Fantom Opera");
   ("0x19", "Cronos Mainnet")].

(** What [networks[chainId] || ...] evaluates to: a string, or for a name
    that every object inherits, that member of [Object.prototype]. *)
Inductive network_name : Type :=
| Named (name : string)
| Inherited (member : string).

Fixpoint own (k : string) (table : list (string * string)) : option string :=
  match table with
  | [] => None
  | (k', v) :: rest => if String.eqb k' k then Some v else own k rest
  end.

(** crypto-wallet-app.js 1111-1130, for a string [chainId] *)
Definition getNetworkName (chainId : string) : network_name :=
  match own chainId networks with
  | Some name => Named name
  | None =>
      if is_prototype_key chainId then Inherited chainId
      else Named ("Unknown Network (" ++ chainId ++ ")")
  end.

(** crypto-wallet-app.js 635-636, for a numeric [account.chainId] *)
Definition account_network (chainId : Z) : network_name :=
  let chainId := if chainId =? 0 then 1 else chainId in
  getNetworkName ("0x" ++ toString16 chainId).

(** The chain numbers of these networks, against which the table's
    hexadecimal keys are checked below. *)
Definition chains : list (Z * string) :=
  [(1, "Ethereum Mainnet"); (3, "Ropsten Testnet"); (4, "Rinkeby Testnet");
   (5, "Goerli Testnet"); (42, "Kovan Testnet"); (56, "Binance Smart Chain");
   (97, "BSC Testnet"); (137, "Polygon Mainnet"); (80001, "Mumbai Testnet");
   (10, "Optimism"); (42161, "Arbitrum One"); (42170, "Arbitrum Nova");
   (250, "Fantom Opera"); (25, "Cronos Mainnet")].

Fixpoint chain_name (n : Z) (table : list (Z * string)) : option string :=
  match table with
  | [] => None
  | (m, v) :: rest => if m =? n then Some v else chain_name n rest
  end.

End CryptoWallet.

(* ================================================================== *)
(** ** Facts about the token cache *)
(* ================================================================== *)

Section TokenCache.

Context {W : World}.

Lemma get_after_get (data : value) (k k' : string) (v : value) :
  get data k = Return v -> exists v', get data k' = Return v'.
Proof.
  destruct data; simpl; intros H; try discriminate; eauto.
Qed.

Lemma makeRequest_run (u m : string) (h : list (string * string))
    (p : option string) (s : Sys) :
  makeRequest u m h p s =
  (deliver (fst (network (sent s) (mkRequest u m h p))),
   after_request s (mkRequest u m h p)).
Proof. reflexivity. Qed.

(** [getApiAccessToken] in one equation: the request is always made; the
    two cache variables are written only when the reply is a 2xx whose
    body is not [null]. *)
Lemma getApiAccessToken_run (s : Sys) :
  getApiAccessToken s =
  match deliver (fst (network (sent s) (token_request "api"))) with
  | Throw e => (Throw e, after_request s (token_request "api"))
  | Return data =>
      match get data "access_token", get data "expires_in" with
      | Return tok, Return expires_in => (Return tok, refreshed s tok expires_in)
      | Throw e, _ => (Throw e, after_request s (token_request "api"))
      | Return tok, Throw e =>
          (Throw e, mkSys tok (apiTokenExpiry s)
                      (clock (after_request s (token_request "api")))
                      (sent (after_request s (token_request "api"))))
      end
  end.
Proof.
  unfold getApiAccessToken, bind, token_request.
  rewrite makeRequest_run.
  destruct (deliver _) as [data|e]; [|reflexivity].
  unfold lift.
  destruct (get data "access_token") as [tok|e] eqn:Htok; [|reflexivity].
  simpl.
  destruct (get data "expires_in") as [ei|e] eqn:Hei; reflexivity.
Qed.

Lemma createCustomer_run (appUserId : value) (s : Sys) :
  createCustomer appUserId s =
  if token_stale s then
    match getApiAccessToken s with
    | (Return _, s1) => send_customer appUserId s1
    | (Throw e, s1) => (Throw e, s1)
    end
  else send_customer appUserId s.
Proof.
  assert (Hsend : forall s0,
    (token <- read_apiAccessToken ;;
     data <- makeRequest (api_url LEAN_CONFIG ++ "/customers/v1") "POST"
               (("Authorization", "Bearer " ++ ToString token)
                :: json_headers (JSON_stringify rt (VObj [("app_user_id", appUserId)])))
               (Some (JSON_stringify rt (VObj [("app_user_id", appUserId)]))) ;;
     lift (get data "customer_id") ;;; ret data) s0 = send_customer appUserId s0).
  { intros s0. unfold bind, read_apiAccessToken, send_customer.
    rewrite makeRequest_run.
    fold (customer_request appUserId (apiAccessToken s0)). cbv zeta.
    destruct (deliver _) as [data|e]; [|reflexivity].
    unfold lift. destruct (get data "customer_id"); reflexivity. }
  unfold createCustomer. unfold bind at 1. unfold ensure_token.
  destruct (token_stale s).
  - unfold bind at 1. destruct (getApiAccessToken s) as [[tok|e] s1]; [|reflexivity].
    unfold ret. cbv zeta. apply Hsend.
  - cbv zeta. apply Hsend.
Qed.

Lemma send_customer_state (appUserId : value) (s : Sys) :
  snd (send_customer appUserId s) =
  after_request s (customer_request appUserId (apiAccessToken s)).
Proof.
  unfold send_customer. cbv zeta.
  destruct (deliver _) as [data|e]; [|reflexivity].
  destruct (get data "customer_id"); reflexivity.
Qed.





(** A failed request rejects: a socket error with its error, a status
    outside 200..299 with the "HTTP <status>: <body>" error. *)
Lemma deliver_failure (rep : reply) :
  (forall e, rep = NetError e -> deliver rep = Throw e)
  /\ (forall c d, rep = Response c d -> is_2xx c = false ->
        deliver rep = Throw (Error ("HTTP " ++ string_of_Z c ++ ": " ++ d))).
Proof.
  split.
  - intros e ->. reflexivity.
  - intros c d -> Hc. simpl. unfold settle. rewrite Hc. reflexivity.
Qed.

Lemma deliver_success (rep : reply) (data : value) :
  deliver rep = Return data ->
  exists c d, rep = Response c d /\ is_2xx c = true.
Proof.
  destruct rep as [e|c d]; simpl; [discriminate|].
  unfold settle. destruct (is_2xx c) eqn:Hc; [|discriminate].
  intros _. exists c, d. split; [reflexivity | exact Hc].
Qed.

(** C9. The cache is error-atomic.  When the token request of
    [getApiAccessToken] fails (a network error, or a status outside
    200..299) the call throws and [apiAccessToken] and [apiTokenExpiry] keep
    their values.  In every run, either both keep their values, or the
    reply was a 2xx and both were written from it: the token to
    [data.access_token], the expiry to now + [data.expires_in] * 1000. *)
Theorem getApiAccessToken_error_atomic (s : Sys) :
  let rep := fst (network (sent s) (token_request "api")) in
  let s' := snd (getApiAccessToken s) in
  (forall e, rep = NetError e ->
     fst (getApiAccessToken s) = Throw e
     /\ apiAccessToken s' = apiAccessToken s
     /\ apiTokenExpiry s' = apiTokenExpiry s)
  /\ (forall c d, rep = Response c d -> is_2xx c = false ->
       fst (getApiAccessToken s)
         = Throw (Error ("HTTP " ++ string_of_Z c ++ ": " ++ d))
       /\ apiAccessToken s' = apiAccessToken s
       /\ apiTokenExpiry s' = apiTokenExpiry s)
  /\ ((apiAccessToken s' = apiAccessToken s
       /\ apiTokenExpiry s' = apiTokenExpiry s)
      \/ (exists c d data tok expires_in,
            rep = Response c d /\ is_2xx c = true
            /\ deliver rep = Return data
            /\ get data "access_token" = Return tok
            /\ get data "expires_in" = Return expires_in
            /\ fst (getApiAccessToken s) = Return tok
            /\ apiAccessToken s' = tok
            /\ apiTokenExpiry s'
                = VNum (add (Fin (clock s')) (mul (ToNumber rt expires_in) (Fin 1000))))).
Proof.
  cbv zeta. rewrite getApiAccessToken_run.
  destruct (deliver_failure (fst (network (sent s) (token_request "api"))))
    as [Hnet Hstatus].
  split; [|split].
  - intros e He. rewrite (Hnet e He). repeat split.
  - intros c d Hrep Hc. rewrite (Hstatus c d Hrep Hc). repeat split.
  - destruct (deliver (fst (network (sent s) (token_request "api"))))
      as [data|e] eqn:Hdel.
    + destruct (get data "access_token") as [tok|e] eqn:Htok.
      * destruct (get_after_get data "access_token" "expires_in" tok Htok)
          as [ei Hei].
        rewrite Hei. right.
        destruct (deliver_success _ data Hdel) as [c [d [Hrep Hc]]].
        exists c, d, data, tok, ei. repeat split; assumption.
      * left. split; reflexivity.
    + left. split; reflexivity.
Qed.

Lemma getCustomerAccessToken_run (customerId : value) (s : Sys) :
  getCustomerAccessToken customerId s =
  (deliver (fst (network (sent s) (token_request ("customer." ++ ToString customerId)))),
   after_request s (token_request ("customer." ++ ToString customerId))).
Proof.
  unfold getCustomerAccessToken, bind. rewrite makeRequest_run.
  fold (token_request ("customer." ++ ToString customerId)).
  destruct (deliver _); reflexivity.
Qed.

(** C6. [getCustomerAccessToken] sends one client-credentials request
    with scope "customer." + customerId whatever the cache holds, leaves
    [apiAccessToken] and [apiTokenExpiry] as they were, and returns what the
    vendor's reply settles to: the parsed body itself, hence its
    [access_token], [expires_in] and [scope] as sent. *)
Theorem getCustomerAccessToken_fresh_and_frame (customerId : value) (s : Sys) :
  let r := token_request ("customer." ++ ToString customerId) in
  let rep := fst (network (sent s) r) in
  let s' := snd (getCustomerAccessToken customerId s) in
  sent s' = (sent s ++ [r])%list
  /\ url r = auth_url LEAN_CONFIG
  /\ postData r
     = Some (URLSearchParams_toString rt
               [("client_id", lean_client_id LEAN_CONFIG);
                ("client_secret", lean_client_secret LEAN_CONFIG);
                ("grant_type", "client_credentials");
                ("scope", "customer." ++ ToString customerId)])
  /\ apiAccessToken s' = apiAccessToken s
  /\ apiTokenExpiry s' = apiTokenExpiry s
  /\ fst (getCustomerAccessToken customerId s) = deliver rep
  /\ (forall c text data,
        rep = Response c text -> is_2xx c = true -> is_blank text = false ->
        JSON_parse rt text = Return data ->
        fst (getCustomerAccessToken customerId s) = Return data).
Proof.
  cbv zeta. rewrite getCustomerAccessToken_run. simpl.
  repeat split.
  intros c text data Hrep Hc Hblank Hparse. rewrite Hrep. simpl.
  unfold settle. rewrite Hc, Hblank, Hparse. reflexivity.
Qed.

End TokenCache.


(* ================================================================== *)
(** ** Facts about the two workflows *)
(* ================================================================== *)

Section Workflows.

Context {W : World}.

(** Case analysis on the reply the goal is waiting for. *)
Ltac on_reply a e :=
  match goal with
  | |- context [deliver ?x] => destruct (deliver x) as [a|e]
  end.

Lemma customer_id_or_id_state (customer : value) (s : Sys) :
  snd (customer_id_or_id customer s) = s.
Proof.
  unfold customer_id_or_id, bind, lift.
  destruct (get customer "customer_id") as [cid|e]; [|reflexivity].
  destruct (truthy cid); reflexivity.
Qed.

Lemma initialized_state (customerId customer customerToken : value) (s : Sys) :
  snd (initialized customerId customer customerToken s) = s.
Proof.
  unfold initialized, bind, lift.
  destruct (get customer "app_user_id"); [|reflexivity].
  destruct (get customerToken "access_token") as [x|e] eqn:Ha; [|reflexivity].
  destruct customerToken; simpl in *; try discriminate; reflexivity.
Qed.

Lemma retrieved_state (customerId customerToken : value) (s : Sys) :
  snd (retrieved customerId customerToken s) = s.
Proof.
  unfold retrieved, bind, lift.
  destruct (get customerToken "access_token") as [x|e] eqn:Ha; [|reflexivity].
  destruct customerToken; simpl in *; try discriminate; reflexivity.
Qed.

Lemma getApiAccessToken_sent (s : Sys) :
  sent (snd (getApiAccessToken s)) = (sent s ++ [token_request "api"])%list.
Proof.
  rewrite getApiAccessToken_run.
  destruct (deliver _) as [data|e]; [|reflexivity].
  destruct (get data "access_token"); [|reflexivity].
  destruct (get data "expires_in"); reflexivity.
Qed.

Lemma createCustomer_sent (appUserId : value) (s : Sys) :
  exists l, sent (snd (createCustomer appUserId s)) = (sent s ++ l)%list
            /\ Forall (provisioning_request appUserId) l.
Proof.
  assert (Hcust : forall tok, provisioning_request appUserId
                                 (customer_request appUserId tok)).
  { intros tok. right. exists tok. reflexivity. }
  assert (Htok : provisioning_request appUserId (token_request "api")).
  { left. reflexivity. }
  rewrite createCustomer_run. destruct (token_stale s).
  - pose proof (getApiAccessToken_sent s) as Hs.
    destruct (getApiAccessToken s) as [[t|e] s1]; simpl in Hs.
    + rewrite send_customer_state. simpl. rewrite Hs, <- app_assoc.
      eexists. split; [reflexivity|].
      apply Forall_cons; [exact Htok|].
      apply Forall_cons; [apply Hcust | apply Forall_nil].
    + simpl. rewrite Hs. eexists. split; [reflexivity|].
      apply Forall_cons; [exact Htok | apply Forall_nil].
  - rewrite send_customer_state. simpl.
    eexists. split; [reflexivity|].
    apply Forall_cons; [apply Hcust | apply Forall_nil].
Qed.

(** [initializeCustomer], step by step: the [catch] turns the first throw
    into the failure object, in the state the throw happened in. *)
Lemma initializeCustomer_run (appUserId : value) (s : Sys) :
  initializeCustomer appUserId s =
  match getApiAccessToken s with
  | (Throw e, s1) => (Return (failure_object e), s1)
  | (Return _, s1) =>
    match createCustomer appUserId s1 with
    | (Throw e, s2) => (Return (failure_object e), s2)
    | (Return customer, s2) =>
      match customer_id_or_id customer s2 with
      | (Throw e, s3) => (Return (failure_object e), s3)
      | (Return customerId, s3) =>
        match getCustomerAccessToken customerId s3 with
        | (Throw e, s4) => (Return (failure_object e), s4)
        | (Return customerToken, s4) =>
          match initialized customerId customer customerToken s4 with
          | (Throw e, s5) => (Return (failure_object e), s5)
          | (Return v, s5) => (Return v, s5)
          end
        end
      end
    end
  end.
Proof.
  unfold initializeCustomer, try_catch, bind.
  destruct (getApiAccessToken s) as [[t|e] s1]; [|reflexivity].
  destruct (createCustomer appUserId s1) as [[customer|e] s2]; [|reflexivity].
  destruct (customer_id_or_id customer s2) as [[customerId|e] s3]; [|reflexivity].
  destruct (getCustomerAccessToken customerId s3) as [[customerToken|e] s4];
    [|reflexivity].
  destruct (initialized customerId customer customerToken s4) as [[v|e] s5];
    reflexivity.
Qed.

Lemma getTokensForCustomer_run (customerId : value) (s : Sys) :
  getTokensForCustomer customerId s =
  match getApiAccessToken s with
  | (Throw e, s1) => (Return (failure_object e), s1)
  | (Return _, s1) =>
    match getCustomerAccessToken customerId s1 with
    | (Throw e, s2) => (Return (failure_object e), s2)
    | (Return customerToken, s2) =>
      match retrieved customerId customerToken s2 with
      | (Throw e, s3) => (Return (failure_object e), s3)
      | (Return v, s3) => (Return v, s3)
      end
    end
  end.
Proof.
  unfold getTokensForCustomer, try_catch, bind.
  destruct (getApiAccessToken s) as [[t|e] s1]; [|reflexivity].
  destruct (getCustomerAccessToken customerId s1) as [[customerToken|e] s2];
    [|reflexivity].
  destruct (retrieved customerId customerToken s2) as [[v|e] s3]; reflexivity.
Qed.

Lemma initialized_success (customerId customer customerToken v : value) (s : Sys) :
  fst (initialized customerId customer customerToken s) = Return v ->
  get v "success" = Return (VBool true).
Proof.
  unfold initialized, bind, lift.
  destruct (get customer "app_user_id"); [|discriminate].
  destruct (get customerToken "access_token"); [|discriminate].
  destruct (get customerToken "expires_in"); [|discriminate].
  destruct (get customerToken "scope"); [|discriminate].
  simpl. intros H. injection H as <-. reflexivity.
Qed.

Lemma retrieved_success (customerId customerToken v : value) (s : Sys) :
  fst (retrieved customerId customerToken s) = Return v ->
  get v "success" = Return (VBool true).
Proof.
  unfold retrieved, bind, lift.
  destruct (get customerToken "access_token"); [|discriminate].
  destruct (get customerToken "expires_in"); [|discriminate].
  destruct (get customerToken "scope"); [|discriminate].
  simpl. intros H. injection H as <-. reflexivity.
Qed.

(** Neither workflow throws: each returns a failure object or a success
    object. *)
Lemma initializeCustomer_returns (appUserId : value) (s : Sys) :
  exists v,
    fst (initializeCustomer appUserId s) = Return v
    /\ ((exists e, v = failure_object e) \/ get v "success" = Return (VBool true)).
Proof.
  rewrite initializeCustomer_run.
  destruct (getApiAccessToken s) as [[t|e] s1];
    [|eexists; split; [reflexivity | left; eexists; reflexivity]].
  destruct (createCustomer appUserId s1) as [[customer|e] s2];
    [|eexists; split; [reflexivity | left; eexists; reflexivity]].
  destruct (customer_id_or_id customer s2) as [[customerId|e] s3];
    [|eexists; split; [reflexivity | left; eexists; reflexivity]].
  destruct (getCustomerAccessToken customerId s3) as [[customerToken|e] s4];
    [|eexists; split; [reflexivity | left; eexists; reflexivity]].
  destruct (initialized customerId customer customerToken s4) as [[v|e] s5] eqn:Hi;
    [|eexists; split; [reflexivity | left; eexists; reflexivity]].
  exists v. split; [reflexivity|]. right.
  apply (initialized_success customerId customer customerToken v s4).
  rewrite Hi. reflexivity.
Qed.

Lemma getTokensForCustomer_returns (customerId : value) (s : Sys) :
  exists v,
    fst (getTokensForCustomer customerId s) = Return v
    /\ ((exists e, v = failure_object e) \/ get v "success" = Return (VBool true)).
Proof.
  rewrite getTokensForCustomer_run.
  destruct (getApiAccessToken s) as [[t|e] s1];
    [|eexists; split; [reflexivity | left; eexists; reflexivity]].
  destruct (getCustomerAccessToken customerId s1) as [[customerToken|e] s2];
    [|eexists; split; [reflexivity | left; eexists; reflexivity]].
  destruct (retrieved customerId customerToken s2) as [[v|e] s3] eqn:Hr;
    [|eexists; split; [reflexivity | left; eexists; reflexivity]].
  exists v. split; [reflexivity|]. right.
  apply (retrieved_success customerId customerToken v s2).
  rewrite Hr. reflexivity.
Qed.

(** C5. In [initializeCustomer] a failure of any step (the API token, the
    customer creation, the customer token) ends the workflow there, and the
    value returned is [{success: false, error: error.message}].  When the
    customer creation fails, the requests sent are token refreshes and the
    customer creation only: the customer-token step is not run.  The
    workflow always returns, with that failure object or a success object. *)
Theorem initializeCustomer_fail_fast (appUserId : value) (s : Sys) :
  (forall e s1,
     getApiAccessToken s = (Throw e, s1) ->
     initializeCustomer appUserId s = (Return (failure_object e), s1))
  /\ (forall t s1 e s2,
       getApiAccessToken s = (Return t, s1) ->
       createCustomer appUserId s1 = (Throw e, s2) ->
       initializeCustomer appUserId s = (Return (failure_object e), s2)
       /\ exists l,
            sent (snd (initializeCustomer appUserId s))
              = (sent s ++ token_request "api" :: l)%list
            /\ Forall (provisioning_request appUserId) l)
  /\ (forall t s1 customer s2 customerId e s3,
       getApiAccessToken s = (Return t, s1) ->
       createCustomer appUserId s1 = (Return customer, s2) ->
       fst (customer_id_or_id customer s2) = Return customerId ->
       getCustomerAccessToken customerId s2 = (Throw e, s3) ->
       initializeCustomer appUserId s = (Return (failure_object e), s3))
  /\ (exists v,
       fst (initializeCustomer appUserId s) = Return v
       /\ ((exists e, v = failure_object e) \/ get v "success" = Return (VBool true))).
Proof.
  split; [|split; [|split]].
  - intros e s1 H1. rewrite initializeCustomer_run, H1. reflexivity.
  - intros t s1 e s2 H1 H2.
    assert (Hrun : initializeCustomer appUserId s = (Return (failure_object e), s2)).
    { rewrite initializeCustomer_run, H1, H2. reflexivity. }
    split; [exact Hrun|]. rewrite Hrun. simpl.
    destruct (createCustomer_sent appUserId s1) as [l [Hl Hall]].
    rewrite H2 in Hl. simpl in Hl.
    pose proof (getApiAccessToken_sent s) as Hs. rewrite H1 in Hs. simpl in Hs.
    exists l. split; [|exact Hall].
    rewrite Hl, Hs, <- app_assoc. reflexivity.
  - intros t s1 customer s2 customerId e s3 H1 H2 H3 H4.
    rewrite initializeCustomer_run, H1, H2.
    pose proof (customer_id_or_id_state customer s2) as Hst.
    destruct (customer_id_or_id customer s2) as [[c|e'] s2']; simpl in *;
      [|discriminate].
    injection H3 as ->. subst s2'. rewrite H4. reflexivity.
  - apply initializeCustomer_returns.
Qed.

Lemma getApiAccessToken_ok (s : Sys) (data tok expires_in : value) :
  deliver (fst (network (sent s) (token_request "api"))) = Return data ->
  get data "access_token" = Return tok ->
  get data "expires_in" = Return expires_in ->
  getApiAccessToken s = (Return tok, refreshed s tok expires_in).
Proof.
  intros Hd Ht He. rewrite getApiAccessToken_run, Hd, Ht, He. reflexivity.
Qed.

(** What follows [createCustomer] in [initializeCustomer] sends at most the
    customer-token request and does not touch the cache. *)
Lemma initializeCustomer_tail (customer : value) (s2 : Sys) :
  let final :=
    match customer_id_or_id customer s2 with
    | (Throw e, s3) => (Return (failure_object e), s3)
    | (Return customerId, s3) =>
      match getCustomerAccessToken customerId s3 with
      | (Throw e, s4) => (Return (failure_object e), s4)
      | (Return customerToken, s4) =>
        match initialized customerId customer customerToken s4 with
        | (Throw e, s5) => (Return (failure_object e), s5)
        | (Return v, s5) => (Return v, s5)
        end
      end
    end in
  (exists rest, sent (snd final) = (sent s2 ++ rest)%list)
  /\ apiAccessToken (snd final) = apiAccessToken s2
  /\ apiTokenExpiry (snd final) = apiTokenExpiry s2.
Proof.
  cbv zeta.
  pose proof (customer_id_or_id_state customer s2) as H3.
  destruct (customer_id_or_id customer s2) as [[customerId|e] s3];
    simpl in H3; subst s3.
  - rewrite getCustomerAccessToken_run.
    destruct (deliver _) as [customerToken|e].
    + pose proof (initialized_state customerId customer customerToken
                    (after_request s2 (token_request ("customer." ++ ToString customerId))))
        as H5.
      destruct (initialized customerId customer customerToken _) as [[v|e] s5];
        simpl in H5; subst s5; simpl; repeat split; eexists; reflexivity.
    + simpl. repeat split. eexists. reflexivity.
  - simpl. repeat split. exists []. symmetry. apply app_nil_r.
Qed.

(** C10. [initializeCustomer] and [getTokensForCustomer] start with a token
    request for scope "api" whatever the cache holds, a valid cached
    token included.  When that request is answered with a token, the cached
    token and expiry are overwritten with the new ones: [getTokensForCustomer]
    ends with them in the cache, and so does [initializeCustomer], which
    authenticates its customer request with the new token, as long as the
    new token is usable when it arrives. *)
Theorem workflows_refresh_unconditionally (s : Sys) (appUserId customerId : value) :
  (exists rest, sent (snd (initializeCustomer appUserId s))
                = (sent s ++ token_request "api" :: rest)%list)
  /\ (exists rest, sent (snd (getTokensForCustomer customerId s))
                   = (sent s ++ token_request "api" :: rest)%list)
  /\ (forall data tok expires_in,
        deliver (fst (network (sent s) (token_request "api"))) = Return data ->
        get data "access_token" = Return tok ->
        get data "expires_in" = Return expires_in ->
        let answered := clock (after_request s (token_request "api")) in
        let expiry :=
          VNum (add (Fin answered) (mul (ToNumber rt expires_in) (Fin 1000))) in
        (sent (snd (getTokensForCustomer customerId s))
           = (sent s ++ [token_request "api";
                         token_request ("customer." ++ ToString customerId)])%list
         /\ apiAccessToken (snd (getTokensForCustomer customerId s)) = tok
         /\ apiTokenExpiry (snd (getTokensForCustomer customerId s)) = expiry)
        /\ (token_stale (refreshed s tok expires_in) = false ->
            (exists rest,
               sent (snd (initializeCustomer appUserId s))
               = (sent s ++ token_request "api"
                         :: customer_request appUserId tok :: rest)%list)
            /\ apiAccessToken (snd (initializeCustomer appUserId s)) = tok
            /\ apiTokenExpiry (snd (initializeCustomer appUserId s)) = expiry)).
Proof.
  split; [|split].
  - rewrite initializeCustomer_run.
    pose proof (getApiAccessToken_sent s) as Hs.
    destruct (getApiAccessToken s) as [[t|e] s1]; simpl in Hs;
      [|exists []; simpl; exact Hs].
    destruct (createCustomer_sent appUserId s1) as [l [Hl _]].
    destruct (createCustomer appUserId s1) as [[customer|e] s2]; simpl in Hl.
    + destruct (initializeCustomer_tail customer s2) as [[rest Hrest] _].
      cbv zeta in Hrest. rewrite Hrest, Hl, Hs, <- !app_assoc.
      eexists. reflexivity.
    + simpl. rewrite Hl, Hs, <- app_assoc. eexists. reflexivity.
  - rewrite getTokensForCustomer_run.
    pose proof (getApiAccessToken_sent s) as Hs.
    destruct (getApiAccessToken s) as [[t|e] s1]; simpl in Hs;
      [|exists []; simpl; exact Hs].
    rewrite getCustomerAccessToken_run.
    on_reply customerToken e.
    + pose proof (retrieved_state customerId customerToken
                    (after_request s1 (token_request ("customer." ++ ToString customerId))))
        as H3.
      destruct (retrieved customerId customerToken _) as [[v|e] s3];
        simpl in H3; subst s3; simpl; rewrite Hs, <- app_assoc;
        eexists; reflexivity.
    + simpl. rewrite Hs, <- app_assoc. eexists. reflexivity.
  - intros data tok expires_in Hd Ht He. cbv zeta. split.
    + rewrite getTokensForCustomer_run,
        (getApiAccessToken_ok s data tok expires_in Hd Ht He).
      rewrite getCustomerAccessToken_run.
      on_reply customerToken e.
      * pose proof (retrieved_state customerId customerToken
                      (after_request (refreshed s tok expires_in)
                         (token_request ("customer." ++ ToString customerId))))
          as H3.
        destruct (retrieved customerId customerToken _) as [[v|e] s3];
          simpl in H3; subst s3; simpl; rewrite <- app_assoc; repeat split.
      * simpl. rewrite <- app_assoc. repeat split.
    + intros Hfresh.
      rewrite initializeCustomer_run,
        (getApiAccessToken_ok s data tok expires_in Hd Ht He).
      rewrite createCustomer_run, Hfresh.
      pose proof (send_customer_state appUserId (refreshed s tok expires_in)) as H2.
      destruct (send_customer appUserId (refreshed s tok expires_in))
        as [[customer|e] s2]; simpl in H2; subst s2.
      * destruct (initializeCustomer_tail customer
                    (after_request (refreshed s tok expires_in)
                       (customer_request appUserId tok)))
          as [[rest Hrest] [Hcache Hexp]].
        cbv zeta in Hrest, Hcache, Hexp. rewrite Hrest, Hcache, Hexp. simpl.
        rewrite <- !app_assoc. split; [eexists; reflexivity|]. split; reflexivity.
      * simpl. rewrite <- app_assoc. split; [exists []; reflexivity|].
        split; reflexivity.
Qed.

End Workflows.

(* ================================================================== *)
(** ** The customer identifier *)
(* ================================================================== *)

Section CustomerIdentifier.

Context {W : World}.

(** C4, as server.js behaves.  When the customer endpoint answers 2xx
    with a body that has neither [customer_id] nor [id], [createCustomer]
    returns that body normally (it throws nothing), and [initializeCustomer]
    goes on to request a token for the scope "customer.undefined". *)
Theorem createCustomer_missing_identifier_not_rejected
    (appUserId : value) (s : Sys) (data tok expires_in customer : value) :
  deliver (fst (network (sent s) (token_request "api"))) = Return data ->
  get data "access_token" = Return tok ->
  get data "expires_in" = Return expires_in ->
  token_stale (refreshed s tok expires_in) = false ->
  deliver (fst (network (sent (refreshed s tok expires_in))
                  (customer_request appUserId tok))) = Return customer ->
  get customer "customer_id" = Return VUndefined ->
  get customer "id" = Return VUndefined ->
  fst (createCustomer appUserId (refreshed s tok expires_in)) = Return customer
  /\ sent (snd (initializeCustomer appUserId s))
     = (sent s ++ [token_request "api";
                   customer_request appUserId tok;
                   token_request "customer.undefined"])%list.
Proof.
  intros Hd Ht He Hfresh Hc Hcid Hid.
  assert (Hcreate : createCustomer appUserId (refreshed s tok expires_in)
                    = (Return customer,
                       after_request (refreshed s tok expires_in)
                         (customer_request appUserId tok))).
  { rewrite createCustomer_run, Hfresh. unfold send_customer. cbv zeta.
    change (apiAccessToken (refreshed s tok expires_in)) with tok.
    rewrite Hc, Hcid. reflexivity. }
  split; [rewrite Hcreate; reflexivity|].
  rewrite initializeCustomer_run,
    (getApiAccessToken_ok s data tok expires_in Hd Ht He), Hcreate.
  assert (Hnone : forall s2, customer_id_or_id customer s2 = (Return VUndefined, s2)).
  { intros s2. unfold customer_id_or_id, bind, lift. rewrite Hcid. simpl.
    rewrite Hid. reflexivity. }
  rewrite Hnone, getCustomerAccessToken_run.
  change (ToString VUndefined) with "undefined".
  change ("customer." ++ "undefined") with "customer.undefined".
  match goal with
  | |- context [deliver ?x] => destruct (deliver x) as [customerToken|e]
  end.
  - pose proof (initialized_state VUndefined customer customerToken
                  (after_request
                     (after_request (refreshed s tok expires_in)
                        (customer_request appUserId tok))
                     (token_request "customer.undefined"))) as H5.
    destruct (initialized VUndefined customer customerToken _) as [[v|e] s5];
      simpl in H5; subst s5; simpl; rewrite <- !app_assoc; reflexivity.
  - simpl. rewrite <- !app_assoc. reflexivity.
Qed.

(** The twin in backend-simulation.js checks: the same reply makes its
    [createCustomer] throw. *)
Lemma simulation_createCustomer_rejects_missing_identifier
    (appUserId : value) (s : Sys) (c : Z) (text : string) (data : value) :
  token_stale s = false ->
  fst (network (sent s)
         (mkRequest (api_url LeanBackendAPI.config ++ "/customers/v1") "POST"
            [("Authorization", "Bearer " ++ ToString (apiAccessToken s));
             ("Content-Type", "application/json")]
            (Some (JSON_stringify rt (VObj [("app_user_id", appUserId)])))))
    = Response c text ->
  is_2xx c = true ->
  JSON_parse rt text = Return data ->
  get data "customer_id" = Return VUndefined ->
  get data "id" = Return VUndefined ->
  fst (LeanBackendAPI.createCustomer appUserId s)
  = Throw (Error ("Customer API did not return a customer_id. Response: "
                  ++ JSON_stringify rt data)).
Proof.
  intros Hfresh Hrep Hc Hparse Hcid Hid.
  unfold LeanBackendAPI.createCustomer, bind, read_apiAccessToken.
  rewrite Hfresh. unfold ret at 1. unfold LeanBackendAPI.fetch. cbv zeta.
  rewrite Hrep. rewrite Hc. simpl negb. cbv iota.
  unfold lift. rewrite Hparse, Hcid. simpl truthy. cbv iota.
  rewrite Hid.
  destruct (get_after_get data "id" "app_user_id" _ Hid) as [a Ha].
  rewrite Ha. reflexivity.
Qed.

End CustomerIdentifier.

(** The failing input: the customer endpoint answers 200 with
    [{app_user_id: "user_abc"}]. *)
Lemma createCustomer_missing_identifier_witness :
  fst (createCustomer (W := Demo.world_anonymous) (VStr "user_abc")
         (refreshed (W := Demo.world_anonymous) (Demo.start 1000)
            (VStr "tok-1") (VNum (Fin 3600))))
  = Return Demo.anonymous_customer_json
  /\ map postData (sent (snd (initializeCustomer (W := Demo.world_anonymous)
                               (VStr "user_abc") (Demo.start 1000))))
     = [Some "client_id=client-1&client_secret=secret-1&grant_type=client_credentials&scope=api";
        Some (Demo.stringify (VObj [("app_user_id", VStr "user_abc")]));
        Some "client_id=client-1&client_secret=secret-1&grant_type=client_credentials&scope=customer.undefined"].
Proof.
  pose proof (createCustomer_missing_identifier_not_rejected
                (W := Demo.world_anonymous) (VStr "user_abc") (Demo.start 1000)
                Demo.token_json (VStr "tok-1") (VNum (Fin 3600))
                Demo.anonymous_customer_json
                eq_refl eq_refl eq_refl eq_refl eq_refl eq_refl eq_refl)
    as [Hreturn Hsent].
  split; [exact Hreturn|].
  rewrite Hsent. reflexivity.
Defined.

(* ================================================================== *)
(** ** Facts about the HTTP handlers *)
(* ================================================================== *)

Section Endpoints.

Context {W : World}.

Lemma createPlaidLinkToken_run (userId institutionId : value) (s : Sys) :
  createPlaidLinkToken userId institutionId s =
  (deliver (fst (network (sent s) (link_token_request userId institutionId))),
   after_request s (link_token_request userId institutionId)).
Proof.
  unfold createPlaidLinkToken, bind. rewrite makeRequest_run.
  fold (link_token_request userId institutionId).
  destruct (deliver _); reflexivity.
Qed.

(** The handler on a body that parses: one vendor call, then the answer. *)
Lemma handle_create_link_token_run
    (body : string) (s : Sys) (parsed user_id institution_id : value) :
  JSON_parse rt body = Return parsed ->
  destructure parsed "user_id" = Return user_id ->
  destructure parsed "institution_id" = Return institution_id ->
  let r := link_token_request
             (or_else user_id (VStr ("user_" ++ string_of_Z (clock s))))
             (or_else institution_id VNull) in
  handle_create_link_token body s =
  (Return (link_token_response (deliver (fst (network (sent s) r)))),
   after_request s r).
Proof.
  intros Hp Hu Hi. cbv zeta.
  unfold handle_create_link_token, try_catch, bind, lift, Date_now.
  rewrite Hp, Hu, Hi, createPlaidLinkToken_run.
  destruct (deliver _); reflexivity.
Qed.



(** C3, as the code behaves.  When the vendor call made for a POST to
    /api/plaid/create-link-token fails with an error whose message contains
    INVALID_INSTITUTION, the endpoint answers 400 with
    [{error, error_type: "INVALID_INSTITUTION"}] after that single vendor
    call: the server does not retry. *)
Theorem create_link_token_endpoint_reports_invalid_institution
    (body : string) (s : Sys) (parsed user_id institution_id : value) (e : exn) :
  JSON_parse rt body = Return parsed ->
  destructure parsed "user_id" = Return user_id ->
  destructure parsed "institution_id" = Return institution_id ->
  let r := link_token_request
             (or_else user_id (VStr ("user_" ++ string_of_Z (clock s))))
             (or_else institution_id VNull) in
  deliver (fst (network (sent s) r)) = Throw e ->
  includes (message e) "INVALID_INSTITUTION" = true ->
  fst (handle_create_link_token body s)
  = Return (mkResponse 400
              (JSON_stringify rt
                 (VObj [("error", VStr (message e));
                        ("error_type", VStr "INVALID_INSTITUTION")])))
  /\ sent (snd (handle_create_link_token body s)) = (sent s ++ [r])%list.
Proof.
  intros Hp Hu Hi r Hd Hinv.
  rewrite (handle_create_link_token_run body s parsed user_id institution_id Hp Hu Hi).
  fold r. rewrite Hd. simpl. unfold link_token_error. rewrite Hinv.
  split; reflexivity.
Qed.

Lemma handle_initialize_customer_run
    (body : string) (s : Sys) (parsed app_user_id v : value) (s' : Sys) :
  JSON_parse rt body = Return parsed ->
  destructure parsed "app_user_id" = Return app_user_id ->
  initializeCustomer app_user_id s = (Return v, s') ->
  handle_initialize_customer body s
  = (Return (mkResponse 200 (JSON_stringify rt v)), s').
Proof.
  intros Hp Ha Hrun.
  unfold handle_initialize_customer, try_catch, bind, lift.
  rewrite Hp, Ha, Hrun. reflexivity.
Qed.

Lemma handle_get_customer_tokens_run
    (body : string) (s : Sys) (parsed customer_id v : value) (s' : Sys) :
  JSON_parse rt body = Return parsed ->
  destructure parsed "customer_id" = Return customer_id ->
  truthy customer_id = true ->
  getTokensForCustomer customer_id s = (Return v, s') ->
  handle_get_customer_tokens body s
  = (Return (mkResponse 200 (JSON_stringify rt v)), s').
Proof.
  intros Hp Hc Ht Hrun.
  unfold handle_get_customer_tokens, try_catch, bind, lift.
  rewrite Hp, Hc, Ht. change (negb true) with false. cbv beta iota.
  rewrite Hrun. reflexivity.
Qed.


End Endpoints.

(** A POST with a pre-selected institution the sandbox refuses: the
    endpoint answers 400, not 200 with a link token. *)
Lemma create_link_token_endpoint_counterexample :
  deliver (W := Demo.world)
    (fst (@network Demo.world []
            (link_token_request (W := Demo.world) (VStr "u1") (VStr "ins_109508"))))
  = Throw (Error ("HTTP 400: " ++ Demo.invalid_institution_text))
  /\ fst (handle_create_link_token (W := Demo.world)
            (Demo.stringify Demo.link_request_preselected) (Demo.start 1000))
     = Return (mkResponse 400 (Demo.stringify Demo.invalid_institution_envelope))
  /\ map url (sent (snd (handle_create_link_token (W := Demo.world)
                     (Demo.stringify Demo.link_request_preselected) (Demo.start 1000))))
     = ["https://sandbox.plaid.com/link/token/create"].
Proof.
  split; [reflexivity|]. split; reflexivity.
Qed.

Lemma create_link_token_endpoint_witness :
  fst (handle_create_link_token (W := Demo.world)
         (Demo.stringify Demo.link_request_preselected) (Demo.start 1000))
  = Return (mkResponse 400 (Demo.stringify Demo.invalid_institution_envelope)).
Proof.
  exact (proj1 (create_link_token_endpoint_reports_invalid_institution
                  (W := Demo.world)
                  (Demo.stringify Demo.link_request_preselected) (Demo.start 1000)
                  Demo.link_request_preselected (VStr "u1") (VStr "ins_109508")
                  (Error ("HTTP 400: " ++ Demo.invalid_institution_text))
                  eq_refl eq_refl eq_refl eq_refl eq_refl)).
Defined.



(* ================================================================== *)
(** ** The default date window of /api/plaid/transactions *)
(* ================================================================== *)

Section Transactions.

Context {W : World}.


Lemma InLeapYear_cases (y : Z) :
  (InLeapYear y = 1 /\ ((y mod 4 = 0 /\ y mod 100 <> 0) \/ y mod 400 = 0))
  \/ (InLeapYear y = 0 /\ (y mod 4 <> 0 \/ (y mod 100 = 0 /\ y mod 400 <> 0))).
Proof.
  unfold InLeapYear.
  destruct (Z.eqb_spec (y mod 4) 0); destruct (Z.eqb_spec (y mod 100) 0);
    destruct (Z.eqb_spec (y mod 400) 0); cbn [andb orb negb];
    try (left; split; [reflexivity|]; lia);
    try (right; split; [reflexivity|]; lia).
Qed.

(** The year of [civil_from_days] is ECMAScript's YearFromTime. *)
Lemma civil_from_days_year (day : Z) :
  let '(y, m, d) := civil_from_days day in
  DayFromYear y <= day < DayFromYear (y + 1).
Proof.
  unfold civil_from_days, DayFromYear. cbv zeta.
  destruct (_ <? 10) eqn:H1; destruct (_ <=? 2) eqn:H2;
    try apply Z.ltb_lt in H1; try apply Z.ltb_ge in H1;
    try apply Z.leb_le in H2; try apply Z.leb_gt in H2;
    Z.div_mod_to_equations; lia.
Qed.

(** Its month and day are MonthFromTime + 1 and DateFromTime: the day
    within the year falls in month [m], and [d] counts from its start. *)
Lemma civil_from_days_month_day (day : Z) :
  let '(y, m, d) := civil_from_days day in
  let dwy := day - DayFromYear y in
  1 <= m <= 12
  /\ month_start m (InLeapYear y) <= dwy < month_start (m + 1) (InLeapYear y)
  /\ d = dwy - month_start m (InLeapYear y) + 1.
Proof.
  unfold civil_from_days. cbv zeta.
  set (z := day + 719468).
  set (era := z / 146097).
  set (doe := z - era * 146097).
  set (yoe := (doe - doe / 1460 + doe / 36524 - doe / 146096) / 365).
  set (doy := doe - (365 * yoe + yoe / 4 - yoe / 100)).
  set (mp := (5 * doy + 2) / 153).
  assert (Hdoe : 0 <= doe <= 146096)
    by (subst doe era; Z.div_mod_to_equations; lia).
  assert (Hyoe : 0 <= yoe <= 399) by (subst yoe; Z.div_mod_to_equations; lia).
  assert (Hdoy : 0 <= doy <= 365)
    by (subst doy yoe; Z.div_mod_to_equations; lia).
  assert (Hmp : 0 <= mp <= 11) by (subst mp; Z.div_mod_to_equations; lia).
  assert (Hcases : mp = 0 \/ mp = 1 \/ mp = 2 \/ mp = 3 \/ mp = 4 \/ mp = 5
                   \/ mp = 6 \/ mp = 7 \/ mp = 8 \/ mp = 9 \/ mp = 10 \/ mp = 11)
    by lia.
  assert (Hmpdef : 153 * mp <= 5 * doy + 2 < 153 * mp + 153)
    by (subst mp; Z.div_mod_to_equations; lia).
  destruct Hcases as [E|[E|[E|[E|[E|[E|[E|[E|[E|[E|[E|E]]]]]]]]]]];
    rewrite E in *;
    repeat match goal with
           | |- context [if ?b then _ else _] =>
               let v := eval vm_compute in b in change b with v; cbv iota
           end;
    match goal with
    | |- context [InLeapYear ?y] =>
        destruct (InLeapYear_cases y) as [[-> HL]|[-> HL]]
    end;
    simpl month_start; unfold DayFromYear in *;
    subst doy yoe doe era z; Z.div_mod_to_equations; lia.
Qed.



End Transactions.


(* ================================================================== *)
(** ** The link-token retry of the browser *)
(* ================================================================== *)

Section LinkTokenRetry.

Context {W : World}.





Lemma response_json_state (r : response) (s : Sys) :
  snd (response_json r s) = s.
Proof. reflexivity. Qed.





Lemma bind_Return {A B} (m : M A) (k : A -> M B) (s : Sys) (a : A) (s' : Sys) :
  m s = (Return a, s') -> bind m k s = k a s'.
Proof. intros H. unfold bind. rewrite H. reflexivity. Qed.

Lemma bind_Throw {A B} (m : M A) (k : A -> M B) (s : Sys) (e : exn) (s' : Sys) :
  m s = (Throw e, s') -> bind m k s = (Throw e, s').
Proof. intros H. unfold bind. rewrite H. reflexivity. Qed.


End LinkTokenRetry.

(* ================================================================== *)
(** ** The theorems at work in the concrete world *)
(* ================================================================== *)


(** The customer endpoint is down: the workflow returns the failure object
    after the token request and the customer request. *)
Lemma initializeCustomer_fail_fast_witness :
  initializeCustomer (W := Demo.world_customers_down) (VStr "user_abc")
    (Demo.start 1000)
  = (Return (VObj [("success", VBool false);
                   ("error", VStr "HTTP 503: Service Unavailable")]),
     mkSys (VStr "tok-1") (VNum (Fin 3601040)) 1080
       [token_request (W := Demo.world_customers_down) "api";
        customer_request (W := Demo.world_customers_down)
          (VStr "user_abc") (VStr "tok-1")]).
Proof.
  exact (proj1 (proj1 (proj2
           (initializeCustomer_fail_fast (W := Demo.world_customers_down)
              (VStr "user_abc") (Demo.start 1000)))
           (VStr "tok-1") _ (Error "HTTP 503: Service Unavailable") _
           eq_refl eq_refl)).
Defined.

(** A rejected refresh leaves a cached token and its expiry in place. *)
Lemma getApiAccessToken_error_atomic_witness :
  fst (getApiAccessToken (W := Demo.world_unauthorized) (Demo.warm 1000))
  = Throw (Error "HTTP 401: invalid_client")
  /\ apiAccessToken (snd (getApiAccessToken (W := Demo.world_unauthorized)
                            (Demo.warm 1000))) = VStr "tok-0"
  /\ apiTokenExpiry (snd (getApiAccessToken (W := Demo.world_unauthorized)
                            (Demo.warm 1000))) = VNum (Fin 1001000).
Proof.
  exact (proj1 (proj2
           (getApiAccessToken_error_atomic (W := Demo.world_unauthorized)
              (Demo.warm 1000)))
           401 "invalid_client" eq_refl eq_refl).
Defined.

(** A process holding a valid token still refreshes it in both workflows. *)
Lemma workflows_refresh_unconditionally_witness :
  token_stale (W := Demo.world) (Demo.warm 1000) = false
  /\ sent (snd (getTokensForCustomer (W := Demo.world) (VStr "cust-1")
                  (Demo.warm 1000)))
     = [token_request (W := Demo.world) "api";
        token_request (W := Demo.world) "customer.cust-1"]
  /\ apiAccessToken (snd (getTokensForCustomer (W := Demo.world) (VStr "cust-1")
                            (Demo.warm 1000))) = VStr "tok-1"
  /\ apiAccessToken (snd (initializeCustomer (W := Demo.world) (VStr "user_abc")
                            (Demo.warm 1000))) = VStr "tok-1"
  /\ apiTokenExpiry (snd (initializeCustomer (W := Demo.world) (VStr "user_abc")
                            (Demo.warm 1000))) = VNum (Fin 3601040).
Proof.
  destruct (proj2 (proj2
              (workflows_refresh_unconditionally (W := Demo.world)
                 (Demo.warm 1000) (VStr "user_abc") (VStr "cust-1")))
              Demo.token_json (VStr "tok-1") (VNum (Fin 3600))
              eq_refl eq_refl eq_refl)
    as [[Hsent [Htok _]] Hinit].
  destruct (Hinit eq_refl) as [_ [Htok' Hexp']].
  split; [reflexivity|].
  split; [exact Hsent|]. split; [exact Htok|]. split; [exact Htok' | exact Hexp'].
Defined.

(** A reply that parses is handed back as it is. *)
Lemma getCustomerAccessToken_witness :
  fst (getCustomerAccessToken (W := Demo.world) (VStr "cust-1") (Demo.warm 1000))
  = Return Demo.token_json.
Proof.
  exact (proj2 (proj2 (proj2 (proj2 (proj2 (proj2
           (getCustomerAccessToken_fresh_and_frame (W := Demo.world)
              (VStr "cust-1") (Demo.warm 1000)))))))
           200 (Demo.stringify Demo.token_json) Demo.token_json
           eq_refl eq_refl eq_refl eq_refl).
Defined.

(** On the reply without an identifier, the twin of backend-simulation.js
    throws where server.js returns. *)
Lemma simulation_createCustomer_rejects_example :
  fst (LeanBackendAPI.createCustomer (W := Demo.world_anonymous)
         (VStr "user_abc") (Demo.warm 1000))
  = Throw (Error ("Customer API did not return a customer_id. Response: "
                  ++ Demo.stringify Demo.anonymous_customer_json)).
Proof.
  exact (simulation_createCustomer_rejects_missing_identifier
           (W := Demo.world_anonymous) (VStr "user_abc") (Demo.warm 1000)
           200 (Demo.stringify Demo.anonymous_customer_json)
           Demo.anonymous_customer_json
           eq_refl eq_refl eq_refl eq_refl eq_refl eq_refl).
Qed.

(* ================================================================== *)
(** ** Facts about the Lean proxy calls *)
(* ================================================================== *)

Section ProxyFacts.

Context {W : World}.

Lemma getApiAccessToken_throw_state (s : Sys) (e : exn) (s1 : Sys) :
  getApiAccessToken s = (Throw e, s1) ->
  s1 = after_request s (token_request "api").
Proof.
  rewrite getApiAccessToken_run.
  destruct (deliver _) as [data|e0].
  - destruct (get data "access_token") as [tok|e1] eqn:Htok.
    + destruct (get_after_get data "access_token" "expires_in" tok Htok) as [ei Hei].
      rewrite Hei. discriminate.
    + intros H. injection H as _ <-. reflexivity.
  - intros H. injection H as _ <-. reflexivity.
Qed.

Lemma ensure_token_run (s : Sys) :
  ensure_token s =
  if token_stale s then
    match getApiAccessToken s with
    | (Return _, s1) => (Return tt, s1)
    | (Throw e, s1) => (Throw e, s1)
    end
  else (Return tt, s).
Proof.
  unfold ensure_token, bind. destruct (token_stale s); [|reflexivity].
  destruct (getApiAccessToken s) as [[t|e] s1]; reflexivity.
Qed.

(** A computation guarded by the token check stops at a failed refresh. *)
Lemma guarded_refresh_failure {A} (k : M A) (s : Sys) (e : exn) (s1 : Sys) :
  token_stale s = true ->
  getApiAccessToken s = (Throw e, s1) ->
  (ensure_token ;;; k) s = (Throw e, s1).
Proof.
  intros Hstale Hfail. unfold bind. rewrite ensure_token_run, Hstale, Hfail.
  reflexivity.
Qed.

Lemma guarded_fresh {A} (k : M A) (s : Sys) :
  token_stale s = false ->
  (ensure_token ;;; k) s = k s.
Proof.
  intros Hfresh. unfold bind. rewrite ensure_token_run, Hfresh. reflexivity.
Qed.

Lemma guarded_refreshed {A} (k : M A) (s : Sys) (t : value) (s1 : Sys) :
  token_stale s = true ->
  getApiAccessToken s = (Return t, s1) ->
  (ensure_token ;;; k) s = k s1.
Proof.
  intros Hstale Hok. unfold bind. rewrite ensure_token_run, Hstale, Hok.
  reflexivity.
Qed.

(** The part of each proxy after the token check: one request, logged with
    the token the state holds. *)
Ltac one_request :=
  intros; unfold bind, read_apiAccessToken; rewrite makeRequest_run;
  match goal with
  | |- context [deliver ?x] => destruct (deliver x)
  end;
  [unfold lift; try match goal with
                    | |- context [get ?d ?k] => destruct (get d k)
                    end; reflexivity
  | reflexivity].

Lemma getAccounts_state (entityId : value) (s : Sys) :
  token_stale s = false ->
  snd (getAccounts entityId s)
  = after_request s (accounts_request entityId (apiAccessToken s)).
Proof.
  intros H. unfold getAccounts. rewrite (guarded_fresh _ s H).
  cbv zeta. one_request.
Qed.

Lemma getAccountBalances_state (accountId entityId : value) (s : Sys) :
  token_stale s = false ->
  snd (getAccountBalances accountId entityId s)
  = after_request s (balances_request accountId entityId (apiAccessToken s)).
Proof.
  intros H. unfold getAccountBalances. rewrite (guarded_fresh _ s H).
  cbv zeta. one_request.
Qed.

Lemma getAccountTransactions_state (accountId entityId : value) (s : Sys) :
  token_stale s = false ->
  snd (getAccountTransactions accountId entityId s)
  = after_request s (account_transactions_request accountId entityId (apiAccessToken s)).
Proof.
  intros H. unfold getAccountTransactions. rewrite (guarded_fresh _ s H).
  cbv zeta. one_request.
Qed.

Lemma listConsents_state (customerId entityId : value) (s : Sys) :
  token_stale s = false ->
  snd (listConsents customerId entityId s)
  = after_request s (consents_request customerId entityId (apiAccessToken s)).
Proof.
  intros H. unfold listConsents. rewrite (guarded_fresh _ s H).
  cbv zeta. one_request.
Qed.

Lemma deleteConsent_state (customerId entityId consentId reason : value) (s : Sys) :
  token_stale s = false ->
  reason <> VUndefined ->
  snd (deleteConsent customerId entityId consentId reason s)
  = after_request s
      (delete_consent_request customerId entityId consentId reason (apiAccessToken s)).
Proof.
  intros H Hr. unfold deleteConsent.
  assert (Hd : match reason with VUndefined => VStr "USER_REQUESTED" | _ => reason end
               = reason) by (destruct reason; congruence).
  rewrite Hd. cbv zeta. rewrite (guarded_fresh _ s H). one_request.
Qed.

(** X1. A proxy call (accounts, balances, transactions, consents, consent
    deletion) that needs a token and cannot get one throws the refresh's
    error; the token request is the only request sent, and the cache is as
    it was: the data request is never sent without a token. *)
Theorem proxy_calls_stop_at_failed_refresh
    (accountId entityId customerId consentId reason : value)
    (s : Sys) (e : exn) (s1 : Sys) :
  token_stale s = true ->
  getApiAccessToken s = (Throw e, s1) ->
  s1 = after_request s (token_request "api")
  /\ getAccounts entityId s = (Throw e, s1)
  /\ getAccountBalances accountId entityId s = (Throw e, s1)
  /\ getAccountTransactions accountId entityId s = (Throw e, s1)
  /\ listConsents customerId entityId s = (Throw e, s1)
  /\ deleteConsent customerId entityId consentId reason s = (Throw e, s1).
Proof.
  intros Hstale Hfail.
  split; [exact (getApiAccessToken_throw_state s e s1 Hfail)|].
  repeat split;
    first [ apply guarded_refresh_failure; assumption
          | unfold deleteConsent; cbv zeta;
            apply guarded_refresh_failure; assumption ].
Qed.

(** X2. A proxy call that finds a valid cached token sends exactly one
    vendor request, authenticated with that token, and no token request;
    one that finds a stale cache and gets a new token sends the token
    request and then the data request with the new token. *)
Theorem proxy_calls_token_discipline
    (accountId entityId customerId consentId reason : value) (s : Sys) :
  reason <> VUndefined ->
  (token_stale s = false ->
     let t := apiAccessToken s in
     snd (getAccounts entityId s) = after_request s (accounts_request entityId t)
     /\ snd (getAccountBalances accountId entityId s)
        = after_request s (balances_request accountId entityId t)
     /\ snd (getAccountTransactions accountId entityId s)
        = after_request s (account_transactions_request accountId entityId t)
     /\ snd (listConsents customerId entityId s)
        = after_request s (consents_request customerId entityId t)
     /\ snd (deleteConsent customerId entityId consentId reason s)
        = after_request s (delete_consent_request customerId entityId consentId reason t))
  /\ (forall data tok expires_in,
        token_stale s = true ->
        deliver (fst (network (sent s) (token_request "api"))) = Return data ->
        get data "access_token" = Return tok ->
        get data "expires_in" = Return expires_in ->
        let s1 := refreshed s tok expires_in in
        sent (snd (getAccounts entityId s))
        = (sent s ++ [token_request "api"; accounts_request entityId tok])%list
        /\ sent (snd (getAccountBalances accountId entityId s))
           = (sent s ++ [token_request "api";
                         balances_request accountId entityId tok])%list
        /\ sent (snd (getAccountTransactions accountId entityId s))
           = (sent s ++ [token_request "api";
                         account_transactions_request accountId entityId tok])%list
        /\ sent (snd (listConsents customerId entityId s))
           = (sent s ++ [token_request "api";
                         consents_request customerId entityId tok])%list
        /\ sent (snd (deleteConsent customerId entityId consentId reason s))
           = (sent s ++ [token_request "api";
                         delete_consent_request customerId entityId consentId
                           reason tok])%list).
Proof.
  intros Hr. split.
  - intros Hfresh t. subst t.
    repeat split;
      [ apply getAccounts_state | apply getAccountBalances_state
      | apply getAccountTransactions_state | apply listConsents_state
      | apply deleteConsent_state ]; assumption.
  - intros data tok expires_in Hstale Hd Ht He s1.
    pose proof (getApiAccessToken_ok s data tok expires_in Hd Ht He) as Hok.
    assert (Hd' : match reason with VUndefined => VStr "USER_REQUESTED" | _ => reason end
                  = reason) by (destruct reason; congruence).
    repeat split.
    + unfold getAccounts. rewrite (guarded_refreshed _ s tok _ Hstale Hok).
      cbv zeta.
      replace (sent s ++ [token_request "api"; accounts_request entityId tok])%list
        with (sent (after_request (refreshed s tok expires_in)
                      (accounts_request entityId tok)))
        by (simpl; rewrite <- app_assoc; reflexivity).
      f_equal. one_request.
    + unfold getAccountBalances. rewrite (guarded_refreshed _ s tok _ Hstale Hok).
      cbv zeta.
      replace (sent s ++ [token_request "api";
                          balances_request accountId entityId tok])%list
        with (sent (after_request (refreshed s tok expires_in)
                      (balances_request accountId entityId tok)))
        by (simpl; rewrite <- app_assoc; reflexivity).
      f_equal. one_request.
    + unfold getAccountTransactions.
      rewrite (guarded_refreshed _ s tok _ Hstale Hok). cbv zeta.
      replace (sent s ++ [token_request "api";
                          account_transactions_request accountId entityId tok])%list
        with (sent (after_request (refreshed s tok expires_in)
                      (account_transactions_request accountId entityId tok)))
        by (simpl; rewrite <- app_assoc; reflexivity).
      f_equal. one_request.
    + unfold listConsents. rewrite (guarded_refreshed _ s tok _ Hstale Hok).
      cbv zeta.
      replace (sent s ++ [token_request "api";
                          consents_request customerId entityId tok])%list
        with (sent (after_request (refreshed s tok expires_in)
                      (consents_request customerId entityId tok)))
        by (simpl; rewrite <- app_assoc; reflexivity).
      f_equal. one_request.
    + unfold deleteConsent. rewrite Hd'. cbv zeta.
      rewrite (guarded_refreshed _ s tok _ Hstale Hok).
      replace (sent s ++ [token_request "api";
                          delete_consent_request customerId entityId consentId
                            reason tok])%list
        with (sent (after_request (refreshed s tok expires_in)
                      (delete_consent_request customerId entityId consentId
                         reason tok)))
        by (simpl; rewrite <- app_assoc; reflexivity).
      f_equal. one_request.
Qed.

End ProxyFacts.

(** The token endpoint rejects the credentials: no data request leaves. *)
Lemma proxy_calls_stop_at_failed_refresh_witness :
  sent (snd (getAccountBalances (W := Demo.world_unauthorized)
               (VStr "acc-1") (VStr "ent-1") (Demo.start 1000)))
  = [token_request (W := Demo.world_unauthorized) "api"]
  /\ fst (deleteConsent (W := Demo.world_unauthorized)
            (VStr "cust-1") (VStr "ent-1") (VStr "con-1") VUndefined (Demo.start 1000))
     = Throw (Error "HTTP 401: invalid_client").
Proof.
  destruct (proxy_calls_stop_at_failed_refresh (W := Demo.world_unauthorized)
              (VStr "acc-1") (VStr "ent-1") (VStr "cust-1") (VStr "con-1") VUndefined
              (Demo.start 1000) (Error "HTTP 401: invalid_client") _
              eq_refl eq_refl)
    as [_ [_ [Hb [_ [_ Hd]]]]].
  rewrite Hb, Hd. split; reflexivity.
Defined.

(** A process holding a valid token lists consents with one request. *)
Lemma proxy_calls_token_discipline_witness :
  sent (snd (listConsents (W := Demo.world) (VStr "cust-1") (VStr "ent-1")
               (Demo.warm 1000)))
  = [consents_request (W := Demo.world) (VStr "cust-1") (VStr "ent-1") (VStr "tok-0")]
  /\ sent (snd (getAccounts (W := Demo.world) (VStr "ent-1") (Demo.start 1000)))
     = [token_request (W := Demo.world) "api";
        accounts_request (W := Demo.world) (VStr "ent-1") (VStr "tok-1")].
Proof.
  assert (Hr : VStr "USER_REQUESTED" <> VUndefined) by discriminate.
  split.
  - destruct (proj1 (proxy_calls_token_discipline (W := Demo.world)
                       (VStr "acc-1") (VStr "ent-1") (VStr "cust-1") (VStr "con-1")
                       (VStr "USER_REQUESTED") (Demo.warm 1000) Hr) eq_refl)
      as [_ [_ [_ [Hc _]]]].
    rewrite Hc. reflexivity.
  - exact (proj1 (proj2 (proxy_calls_token_discipline (W := Demo.world)
                           (VStr "acc-1") (VStr "ent-1") (VStr "cust-1") (VStr "con-1")
                           (VStr "USER_REQUESTED") (Demo.start 1000) Hr)
                    Demo.token_json (VStr "tok-1") (VNum (Fin 3600))
                    eq_refl eq_refl eq_refl eq_refl)).
Defined.

Section BanksAndConsents.

Context {W : World}.

(** X3. [getLeanBanks] always refreshes the token first, but the header of
    its entities request reads [access_token] off the token string that
    [getApiAccessToken] returns: whenever the vendor's token is a string,
    the request carries "Bearer undefined", not the token.  When the
    vendor's reply has no [access_token], the read throws and no entities
    request is sent. *)
Theorem getLeanBanks_bearer (s : Sys) (data expires_in : value) :
  deliver (fst (network (sent s) (token_request "api"))) = Return data ->
  get data "expires_in" = Return expires_in ->
  (forall t,
     get data "access_token" = Return (VStr t) ->
     sent (snd (getLeanBanks s))
     = (sent s ++ [token_request "api"; banks_request VUndefined])%list
     /\ headers (banks_request VUndefined)
        = [("Authorization", "Bearer undefined");
           ("Content-Type", "application/json");
           ("lean-app-token", lean_client_id LEAN_CONFIG)]
     /\ apiAccessToken (snd (getLeanBanks s)) = VStr t)
  /\ (get data "access_token" = Return VUndefined ->
      sent (snd (getLeanBanks s)) = (sent s ++ [token_request "api"])%list
      /\ fst (getLeanBanks s)
         = Throw (TypeError
                    "Cannot read properties of undefined (reading 'access_token')")).
Proof.
  intros Hd He. split.
  - intros t Ht.
    assert (Hs : snd (getLeanBanks s)
                 = after_request (refreshed s (VStr t) expires_in)
                     (banks_request VUndefined)).
    { unfold getLeanBanks.
      rewrite (bind_Return _ _ s _ _
                 (getApiAccessToken_ok s data (VStr t) expires_in Hd Ht He)).
      rewrite (bind_Return (lift (get (VStr t) "access_token")) _ _ VUndefined
                 (refreshed s (VStr t) expires_in) eq_refl).
      unfold bind. rewrite makeRequest_run.
      fold (banks_request VUndefined).
      match goal with
      | |- context [deliver ?x] => destruct (deliver x) as [d|e]
      end; [|reflexivity].
      unfold lift. destruct (get d "entities"); reflexivity. }
    rewrite Hs. simpl. rewrite <- app_assoc. repeat split.
  - intros Ht. unfold getLeanBanks.
    rewrite (bind_Return _ _ s _ _
               (getApiAccessToken_ok s data VUndefined expires_in Hd Ht He)).
    unfold bind, lift. simpl. split; reflexivity.
Qed.

(** X4. POST /api/consents/delete: a request missing [customer_id],
    [entity_id] or [consent_id] is answered 400 and nothing is sent; a
    missing or empty [reason] becomes USER_REQUESTED in the vendor URL;
    and a deletion the vendor answers with an empty 2xx body is answered
    200 with [{success: true, data: {success: true, status}}]. *)
Theorem delete_consent_endpoint
    (body : string) (s : Sys)
    (parsed customer_id entity_id consent_id reason : value) :
  JSON_parse rt body = Return parsed ->
  destructure parsed "customer_id" = Return customer_id ->
  destructure parsed "entity_id" = Return entity_id ->
  destructure parsed "consent_id" = Return consent_id ->
  destructure parsed "reason" = Return reason ->
  (truthy customer_id && truthy entity_id && truthy consent_id = false ->
     handle_delete_consent body s
     = (Return (mkResponse 400
                  (JSON_stringify rt
                     (required "customer_id, entity_id, and consent_id are required"))),
        s))
  /\ (truthy customer_id && truthy entity_id && truthy consent_id = true ->
      token_stale s = false ->
      let r := delete_consent_request customer_id entity_id consent_id
                 (or_else reason (VStr "USER_REQUESTED")) (apiAccessToken s) in
      sent (snd (handle_delete_consent body s)) = (sent s ++ [r])%list
      /\ (truthy reason = false ->
          url r = api_url LEAN_CONFIG ++ "/customers/v1/" ++ ToString customer_id
                  ++ "/entities/" ++ ToString entity_id ++ "/consent/"
                  ++ ToString consent_id ++ "?reason=USER_REQUESTED")
      /\ (forall c text,
            fst (network (sent s) r) = Response c text ->
            is_2xx c = true -> is_blank text = true ->
            fst (handle_delete_consent body s)
            = Return (mkResponse 200
                        (JSON_stringify rt
                           (VObj [("success", VBool true);
                                  ("data", VObj [("success", VBool true);
                                                 ("status", VNum (Fin c))])]))))).
Proof.
  intros Hp Hc He Hk Hr. split.
  - intros Hmissing.
    unfold handle_delete_consent, try_catch, bind, lift.
    rewrite Hp, Hc, He, Hk, Hr.
    replace (negb (truthy customer_id) || negb (truthy entity_id)
             || negb (truthy consent_id)) with true; [reflexivity|].
    destruct (truthy customer_id), (truthy entity_id), (truthy consent_id);
      simpl in *; congruence.
  - intros Hpresent Hfresh r.
    assert (Hgate : negb (truthy customer_id) || negb (truthy entity_id)
                    || negb (truthy consent_id) = false).
    { destruct (truthy customer_id), (truthy entity_id), (truthy consent_id);
        simpl in *; congruence. }
    assert (Hreason : or_else reason (VStr "USER_REQUESTED") <> VUndefined).
    { unfold or_else. destruct (truthy reason) eqn:Ht; [|discriminate].
      intros ->. discriminate. }
    assert (Hdel : deleteConsent customer_id entity_id consent_id
                     (or_else reason (VStr "USER_REQUESTED")) s
                   = (deliver (fst (network (sent s) r)), after_request s r)).
    { unfold deleteConsent.
      replace (match or_else reason (VStr "USER_REQUESTED") with
               | VUndefined => VStr "USER_REQUESTED"
               | _ => or_else reason (VStr "USER_REQUESTED")
               end) with (or_else reason (VStr "USER_REQUESTED"))
        by (destruct (or_else reason (VStr "USER_REQUESTED")); congruence).
      cbv zeta. rewrite (guarded_fresh _ s Hfresh).
      unfold bind, read_apiAccessToken. rewrite makeRequest_run.
      fold (delete_consent_request customer_id entity_id consent_id
              (or_else reason (VStr "USER_REQUESTED")) (apiAccessToken s)).
      fold r. destruct (deliver _); reflexivity. }
    assert (Hrun : handle_delete_consent body s
                   = match deliver (fst (network (sent s) r)) with
                     | Return result =>
                         (Return (mkResponse 200
                                    (JSON_stringify rt
                                       (VObj [("success", VBool true);
                                              ("data", result)]))),
                          after_request s r)
                     | Throw e =>
                         (Return (mkResponse 500
                                    (JSON_stringify rt (failure_object e))),
                          after_request s r)
                     end).
    { unfold handle_delete_consent, try_catch. unfold bind at 1. unfold lift at 1.
      rewrite Hp. unfold bind at 1. unfold lift at 1. rewrite Hc.
      unfold bind at 1. unfold lift at 1. rewrite He.
      unfold bind at 1. unfold lift at 1. rewrite Hk.
      unfold bind at 1. unfold lift at 1. rewrite Hr.
      rewrite Hgate. unfold bind at 1. rewrite Hdel.
      destruct (deliver _); reflexivity. }
    split; [|split].
    + rewrite Hrun. destruct (deliver _); reflexivity.
    + intros Hfalsy. subst r. unfold or_else. rewrite Hfalsy. reflexivity.
    + intros c text Hrep Hok Hblank. rewrite Hrun, Hrep. simpl.
      unfold settle. rewrite Hok, Hblank. reflexivity.
Qed.

End BanksAndConsents.

(** The bank list is asked for with "Bearer undefined". *)
Lemma getLeanBanks_bearer_witness :
  map headers (sent (snd (getLeanBanks (W := Demo.world) (Demo.warm 1000))))
  = [form_headers
       "client_id=client-1&client_secret=secret-1&grant_type=client_credentials&scope=api";
     [("Authorization", "Bearer undefined");
      ("Content-Type", "application/json");
      ("lean-app-token", "client-1")]].
Proof.
  destruct (proj1 (getLeanBanks_bearer (W := Demo.world) (Demo.warm 1000)
                     Demo.token_json (VNum (Fin 3600)) eq_refl eq_refl)
              "tok-1" eq_refl) as [Hsent _].
  rewrite Hsent. reflexivity.
Defined.

(** A deletion without a reason, answered 204 by the vendor. *)
Lemma delete_consent_endpoint_witness :
  fst (handle_delete_consent (W := Scenario.world)
         (Demo.stringify Scenario.delete_query) (Demo.warm 1000))
  = Return (mkResponse 200
              (Demo.stringify
                 (VObj [("success", VBool true);
                        ("data", VObj [("success", VBool true);
                                       ("status", VNum (Fin 204))])])))
  /\ sent (snd (handle_delete_consent (W := Scenario.world)
                  (Demo.stringify Scenario.delete_query) (Demo.warm 1000)))
     = [mkRequest
          "https://sandbox.sa.leantech.me/customers/v1/cust-1/entities/ent-1/consent/con-1?reason=USER_REQUESTED"
          "DELETE"
          [("Authorization", "Bearer tok-0"); ("Accept", "application/json");
           ("Content-Type", "application/json")]
          None].
Proof.
  destruct (proj2 (delete_consent_endpoint (W := Scenario.world)
                     (Demo.stringify Scenario.delete_query) (Demo.warm 1000)
                     Scenario.delete_query (VStr "cust-1") (VStr "ent-1")
                     (VStr "con-1") VUndefined
                     eq_refl eq_refl eq_refl eq_refl eq_refl)
              eq_refl eq_refl) as [Hsent [_ H204]].
  split.
  - exact (H204 204 EmptyString eq_refl eq_refl eq_refl).
  - rewrite Hsent. reflexivity.
Defined.

(* ================================================================== *)
(** ** Facts about the Plaid balance filters *)
(* ================================================================== *)

Section BalanceFilters.

Context {W : World}.

Lemma getPlaidBalances_run (accessToken options requestBody : value) (s : Sys) :
  balances_requestBody accessToken options s = (Return requestBody, s) ->
  getPlaidBalances accessToken options s
  = (deliver (fst (network (sent s) (plaid_post "/accounts/balance/get" requestBody))),
     after_request s (plaid_post "/accounts/balance/get" requestBody)).
Proof.
  intros Hb. unfold getPlaidBalances.
  rewrite (bind_Return _ _ s requestBody s Hb). cbv zeta.
  unfold bind. rewrite makeRequest_run.
  fold (plaid_post "/accounts/balance/get" requestBody).
  destruct (deliver _); reflexivity.
Qed.

(** X5. [getPlaidBalances] sends one /accounts/balance/get request.  A
    [min_last_updated_datetime] that is set goes out verbatim as the last
    field of [options]; with neither filter set the body has no [options]
    key at all; an empty [account_ids] array alone still sends an empty
    [options] object, and a non-empty one goes out as given. *)
Theorem balances_filters_sent
    (accessToken options account_ids min_last_updated_datetime : value) (s : Sys) :
  get options "account_ids" = Return account_ids ->
  get options "min_last_updated_datetime" = Return min_last_updated_datetime ->
  let base := [("client_id", plaid_client_id PLAID_CONFIG);
               ("secret", plaid_secret PLAID_CONFIG);
               ("access_token", accessToken)] in
  let sends (requestBody : value) :=
    sent (snd (getPlaidBalances accessToken options s))
    = (sent s ++ [plaid_post "/accounts/balance/get" requestBody])%list in
  (truthy min_last_updated_datetime = true ->
     exists filters,
       sends (VObj (base ++ [("options",
                              VObj (filters ++ [("min_last_updated_datetime",
                                                 min_last_updated_datetime)]))]))
       /\ (filters = [] \/ filters = [("account_ids", account_ids)]))
  /\ (truthy account_ids = false -> truthy min_last_updated_datetime = false ->
      sends (VObj base))
  /\ (account_ids = VArr [] -> truthy min_last_updated_datetime = false ->
      sends (VObj (base ++ [("options", VObj [])])))
  /\ (forall x rest, account_ids = VArr (x :: rest) ->
      truthy min_last_updated_datetime = false ->
      sends (VObj (base ++ [("options", VObj [("account_ids", account_ids)])]))).
Proof.
  intros Hids Hmin base sends.
  assert (Hsend : forall requestBody,
            balances_requestBody accessToken options s = (Return requestBody, s) ->
            sends requestBody).
  { intros requestBody Hb. unfold sends.
    rewrite (getPlaidBalances_run accessToken options requestBody s Hb).
    reflexivity. }
  assert (Hbody : balances_requestBody accessToken options s
                  = (if truthy account_ids || truthy min_last_updated_datetime
                     then Return (VObj (base ++
                            [("options",
                              VObj ((if truthy account_ids && length_positive account_ids
                                     then [("account_ids", account_ids)] else [])
                                    ++ (if truthy min_last_updated_datetime
                                        then [("min_last_updated_datetime",
                                               min_last_updated_datetime)]
                                        else [])))]))
                     else Return (VObj base), s)).
  { unfold balances_requestBody, bind, lift. rewrite Hids, Hmin. cbv zeta.
    destruct (truthy account_ids || truthy min_last_updated_datetime); reflexivity. }
  repeat split.
  - intros Hm.
    exists (if truthy account_ids && length_positive account_ids
            then [("account_ids", account_ids)] else []).
    split.
    + apply Hsend. rewrite Hbody, Hm, orb_true_r. reflexivity.
    + destruct (truthy account_ids && length_positive account_ids);
        [right | left]; reflexivity.
  - intros Hi Hm. apply Hsend. rewrite Hbody, Hi, Hm. reflexivity.
  - intros -> Hm. apply Hsend. rewrite Hbody, Hm. reflexivity.
  - intros x rest -> Hm. apply Hsend. rewrite Hbody, Hm. reflexivity.
Qed.

End BalanceFilters.

(** A minimum update time alone: it is the only filter sent. *)
Lemma balances_filters_sent_witness :
  map postData
    (sent (snd (getPlaidBalances (W := Demo.world) (VStr "access-sandbox-1")
                  (VObj [("min_last_updated_datetime", VStr "2025-10-01T00:00:00.000Z")])
                  (Demo.start 1000))))
  = [Some (Demo.stringify
             (VObj [("client_id", VStr "plaid-client");
                    ("secret", VStr "plaid-secret");
                    ("access_token", VStr "access-sandbox-1");
                    ("options",
                     VObj [("min_last_updated_datetime",
                            VStr "2025-10-01T00:00:00.000Z")])]))].
Proof.
  destruct (proj1 (balances_filters_sent (W := Demo.world) (VStr "access-sandbox-1")
                     (VObj [("min_last_updated_datetime",
                             VStr "2025-10-01T00:00:00.000Z")])
                     VUndefined (VStr "2025-10-01T00:00:00.000Z") (Demo.start 1000)
                     eq_refl eq_refl) eq_refl) as [filters [Hsent Hf]].
  rewrite Hsent. destruct Hf as [-> | ->]; reflexivity.
Defined.

(* ================================================================== *)
(** ** Facts about GET /api/plaid/list-users *)
(* ================================================================== *)

From Stdlib Require Import Permutation.

Section ListUsersFacts.

Context {W : World}.
Variable Date_value : value -> number.
Variable String_length : string -> Z.


Lemma find_user_In (k : string) (m : list (string * user_entry)) (e : user_entry) :
  find_user k m = Some e -> In (k, e) m.
Proof.
  induction m as [|[k' e'] m IH]; simpl; [discriminate|].
  destruct (String.eqb_spec k' k) as [->|Hne].
  - intros H. injection H as ->. left. reflexivity.
  - intros H. right. apply IH. exact H.
Qed.

Lemma find_user_None (k : string) (m : list (string * user_entry)) :
  find_user k m = None -> ~ In k (map fst m).
Proof.
  induction m as [|[k' e'] m IH]; simpl; [tauto|].
  destruct (String.eqb_spec k' k) as [->|Hne]; [discriminate|].
  intros H [Heq|Hin]; [contradiction | exact (IH H Hin)].
Qed.

Lemma find_user_not_None (k : string) (m : list (string * user_entry)) (e : user_entry) :
  find_user k m = Some e -> In k (map fst m).
Proof.
  intros H. apply find_user_In in H. apply (in_map fst) in H. exact H.
Qed.

Lemma store_user_keys_existing (k : string) (e : user_entry)
    (m : list (string * user_entry)) :
  In k (map fst m) -> map fst (store_user k e m) = map fst m.
Proof.
  induction m as [|[k' e'] m IH]; simpl; [tauto|].
  destruct (String.eqb_spec k' k) as [->|Hne]; [reflexivity|].
  intros [Heq|Hin]; [contradiction|]. simpl. rewrite (IH Hin). reflexivity.
Qed.

Lemma store_user_keys_new (k : string) (e : user_entry)
    (m : list (string * user_entry)) :
  ~ In k (map fst m) -> map fst (store_user k e m) = (map fst m ++ [k])%list.
Proof.
  induction m as [|[k' e'] m IH]; simpl; [reflexivity|].
  destruct (String.eqb_spec k' k) as [->|Hne]; [tauto|].
  intros Hnot. simpl. rewrite IH; [reflexivity | tauto].
Qed.

Lemma store_user_In (k : string) (e : user_entry) (m : list (string * user_entry))
    (k' : string) (e' : user_entry) :
  NoDup (map fst m) ->
  In (k', e') (store_user k e m) ->
  (k' = k /\ e' = e) \/ (k' <> k /\ In (k', e') m).
Proof.
  induction m as [|[k0 e0] m IH]; simpl.
  - intros _ [H|[]]. injection H as <- <-. left. split; reflexivity.
  - intros Hnd. inversion Hnd as [|? ? Hnotin Hnd']; subst.
    destruct (String.eqb_spec k0 k) as [->|Hne]; simpl.
    + intros [H|Hin].
      * injection H as <- <-. left. split; reflexivity.
      * right. split; [|right; exact Hin].
        intros ->. apply Hnotin. apply (in_map fst) in Hin. exact Hin.
    + intros [H|Hin].
      * injection H as <- <-. right. split; [exact Hne | left; reflexivity].
      * destruct (IH Hnd' Hin) as [Hl|[Hr1 Hr2]]; [left; exact Hl|].
        right. split; [exact Hr1 | right; exact Hr2].
Qed.

Lemma counted_store_existing (k : string) (e e' : user_entry)
    (m : list (string * user_entry)) :
  find_user k m = Some e ->
  counted (store_user k e' m) = counted m - connection_count e + connection_count e'.
Proof.
  unfold counted. induction m as [|[k0 e0] m IH]; simpl; [discriminate|].
  destruct (String.eqb_spec k0 k) as [->|Hne]; simpl.
  - intros H. injection H as ->. lia.
  - intros H. rewrite (IH H). lia.
Qed.

Lemma counted_store_new (k : string) (e' : user_entry)
    (m : list (string * user_entry)) :
  find_user k m = None ->
  counted (store_user k e' m) = counted m + connection_count e'.
Proof.
  unfold counted. induction m as [|[k0 e0] m IH]; simpl; [lia|].
  destruct (String.eqb_spec k0 k) as [->|Hne]; simpl; [discriminate|].
  intros H. rewrite (IH H). lia.
Qed.

Lemma get_prop (conn : value) (k : string) (v : value) :
  get conn k = Return v -> prop conn k = v.
Proof. unfold prop. intros ->. reflexivity. Qed.

Lemma filter_absent (k : string) (done : list value) (keys : list string) :
  (forall c, In c done -> In (user_key c) keys) ->
  ~ In k keys ->
  filter (fun c => String.eqb (user_key c) k) done = [].
Proof.
  intros Hall Hnot. induction done as [|c done IH]; [reflexivity|].
  simpl. destruct (String.eqb_spec (user_key c) k) as [Heq|Hne].
  - exfalso. apply Hnot. rewrite <- Heq. apply Hall. left. reflexivity.
  - apply IH. intros c' Hc'. apply Hall. right. exact Hc'.
Qed.

Lemma grouped_step (done : list value) (m m' : list (string * user_entry))
    (conn : value) :
  grouped String_length done m ->
  add_connection Date_value String_length m conn = Return m' ->
  grouped String_length (done ++ [conn]) m'.
Proof.
  intros [Hnd [Hentries [Hkeys Hcount]]].
  unfold add_connection.
  destruct (get conn "user_id") as [uid|e0] eqn:Huid; [|discriminate].
  cbv zeta. rewrite <- (get_prop conn "user_id" uid Huid). fold (user_key conn).
  set (k := user_key conn).
  assert (Hfilter_other : forall k', k' <> k ->
            filter (fun c => String.eqb (user_key c) k') (done ++ [conn])
            = filter (fun c => String.eqb (user_key c) k') done).
  { intros k' Hne. rewrite filter_app. simpl. fold k.
    destruct (String.eqb_spec k k') as [Heq|_]; [congruence|]. apply app_nil_r. }
  assert (Hfilter_same :
            filter (fun c => String.eqb (user_key c) k) (done ++ [conn])
            = (filter (fun c => String.eqb (user_key c) k) done ++ [conn])%list).
  { rewrite filter_app. simpl. fold k. rewrite String.eqb_refl. reflexivity. }
  destruct (find_user k m) as [e|] eqn:Hfind.
  - intros H. injection H as <-.
    pose proof (find_user_In k m e Hfind) as Hin.
    destruct (Hentries k e Hin) as [Hconn [Hlen [Hpos Hproto]]].
    split; [|split; [|split]].
    + rewrite store_user_keys_existing; [exact Hnd|].
      exact (find_user_not_None k m e Hfind).
    + intros k' e' Hin'.
      destruct (store_user_In k _ m k' e' Hnd Hin') as [[-> ->]|[Hne Hold]].
      * simpl. rewrite Hfilter_same, map_app, <- Hconn. simpl.
        repeat split; [|lia|exact Hproto].
        rewrite length_app. simpl. lia.
      * rewrite (Hfilter_other k' Hne). exact (Hentries k' e' Hold).
    + intros c Hc. rewrite store_user_keys_existing
        by exact (find_user_not_None k m e Hfind).
      apply in_app_or in Hc. destruct Hc as [Hc|[<-|[]]].
      * exact (Hkeys c Hc).
      * exact (find_user_not_None k m e Hfind).
    + rewrite (counted_store_existing k e _ m Hfind). simpl.
      rewrite length_app, Hcount. simpl. lia.
  - destruct (is_prototype_key k) eqn:Hproto; [discriminate|].
    intros H. injection H as <-.
    pose proof (find_user_None k m Hfind) as Hnot.
    split; [|split; [|split]].
    + rewrite store_user_keys_new by exact Hnot.
      apply NoDup_app.
      * exact Hnd.
      * constructor; [intros [] | constructor].
      * intros x Hx [<-|[]]. exact (Hnot Hx).
    + intros k' e' Hin'.
      destruct (store_user_In k _ m k' e' Hnd Hin') as [[-> ->]|[Hne Hold]].
      * simpl. rewrite Hfilter_same, map_app.
        rewrite (filter_absent k done (map fst m) Hkeys Hnot). simpl.
        repeat split; try lia; exact Hproto.
      * rewrite (Hfilter_other k' Hne). exact (Hentries k' e' Hold).
    + intros c Hc. rewrite store_user_keys_new by exact Hnot.
      apply in_or_app. apply in_app_or in Hc. destruct Hc as [Hc|[<-|[]]].
      * left. exact (Hkeys c Hc).
      * right. left. reflexivity.
    + rewrite (counted_store_new k _ m Hfind). simpl.
      rewrite length_app, Hcount. simpl. lia.
Qed.

Lemma grouped_run (conns done : list value) (m m' : list (string * user_entry)) :
  grouped String_length done m ->
  group_users Date_value String_length m conns = Return m' ->
  grouped String_length (done ++ conns) m'.
Proof.
  revert done m. induction conns as [|c conns IH]; intros done m Hg; simpl.
  - intros H. injection H as <-. rewrite app_nil_r. exact Hg.
  - destruct (add_connection Date_value String_length m c) as [m1|e] eqn:Hadd; [|discriminate].
    intros Hrun.
    replace (done ++ c :: conns)%list with ((done ++ [c]) ++ conns)%list
      by (rewrite <- app_assoc; reflexivity).
    apply (IH (done ++ [c])%list m1); [|exact Hrun].
    exact (grouped_step done m m1 c Hg Hadd).
Qed.

Lemma grouped_nil : grouped String_length [] [].
Proof.
  split; [constructor|]. split; [intros k e []|]. split; [intros c []|].
  reflexivity.
Qed.

Lemma insert_by_index_perm (i : Z) (e : user_entry) (l : list (Z * user_entry)) :
  Permutation (insert_by_index i e l) ((i, e) :: l).
Proof.
  induction l as [|[j e'] l IH]; simpl; [apply Permutation_refl|].
  destruct (i <? j); [apply Permutation_refl|].
  eapply perm_trans; [apply perm_skip; exact IH | apply perm_swap].
Qed.

(** [Object.values] lists every entry once. *)
Lemma object_values_perm (m : list (string * user_entry)) :
  Permutation (object_values m) (map snd m).
Proof.
  unfold object_values. induction m as [|[k e] m IH]; simpl; [constructor|].
  destruct (array_index k) as [i|].
  - eapply perm_trans.
    + apply Permutation_app_tail. apply Permutation_map.
      apply insert_by_index_perm.
    + simpl. apply perm_skip. exact IH.
  - eapply perm_trans; [apply Permutation_sym; apply Permutation_middle|].
    apply perm_skip. exact IH.
Qed.

(** X6. GET /api/plaid/list-users groups the log by user: on a log that
    parses to an array on which the grouping succeeds, the answer is 200
    with the report of the grouped users, each stored user once; the users
    have distinct keys; every log entry falls under its user; each user's
    [connections] are the summaries of exactly the log entries with that
    user id, in log order, and [connection_count] is their number, at
    least one; and the counts add up to [total_connections]. *)
Theorem list_users_groups_by_user
    (data : string) (conns : list value) (usersMap : list (string * user_entry)) :
  String.eqb (String_trim rt data) EmptyString = false ->
  JSON_parse rt data = Return (VArr conns) ->
  group_users Date_value String_length [] conns = Return usersMap ->
  handle_list_users Date_value String_length (Some data)
  = mkResponse 200
      (JSON_stringify rt (users_report conns (object_values usersMap)))
  /\ Permutation (object_values usersMap) (map snd usersMap)
  /\ List.length (object_values usersMap) = List.length usersMap
  /\ NoDup (map fst usersMap)
  /\ (forall c, In c conns -> In (user_key c) (map fst usersMap))
  /\ (forall k e, In (k, e) usersMap ->
        connections e
        = map (connection_summary String_length)
            (filter (fun c => String.eqb (user_key c) k) conns)
        /\ connection_count e = Z.of_nat (List.length (connections e))
        /\ 0 < connection_count e)
  /\ counted usersMap = Z.of_nat (List.length conns).
Proof.
  intros Hblank Hparse Hrun.
  destruct (grouped_run conns [] [] usersMap grouped_nil Hrun)
    as [Hnd [Hentries [Hkeys Hcount]]].
  simpl in Hentries, Hkeys, Hcount.
  split.
  { unfold handle_list_users. rewrite Hblank. simpl negb. cbv iota.
    rewrite Hparse. unfold for_each_connection. rewrite Hrun. reflexivity. }
  split; [apply object_values_perm|].
  split.
  { rewrite (Permutation_length (object_values_perm usersMap)).
    apply length_map. }
  split; [exact Hnd|]. split; [exact Hkeys|]. split; [|exact Hcount].
  intros k e Hin. destruct (Hentries k e Hin) as [H1 [H2 [H3 _]]].
  repeat split; assumption.
Qed.

Lemma group_users_prototype_key (conns : list value) (m : list (string * user_entry))
    (conn uid : value) :
  Forall (fun p => is_prototype_key (fst p) = false) m ->
  In conn conns ->
  get conn "user_id" = Return uid ->
  is_prototype_key (user_key conn) = true ->
  exists e, group_users Date_value String_length m conns = Throw e.
Proof.
  revert m. induction conns as [|c conns IH]; intros m Hm Hin Huid Hproto;
    [destruct Hin|].
  simpl. destruct (add_connection Date_value String_length m c) as [m1|e] eqn:Hadd; [|eauto].
  destruct Hin as [->|Hin].
  - exfalso. revert Hadd. unfold add_connection. rewrite Huid. cbv zeta.
    rewrite <- (get_prop conn "user_id" uid Huid). fold (user_key conn).
    destruct (find_user (user_key conn) m) as [e|] eqn:Hfind.
    + apply find_user_In in Hfind.
      rewrite Forall_forall in Hm. specialize (Hm _ Hfind). simpl in Hm.
      congruence.
    + rewrite Hproto. discriminate.
  - apply (IH m1); try assumption.
    revert Hadd. unfold add_connection.
    destruct (get c "user_id") as [u|e0]; [|discriminate]. cbv zeta.
    destruct (find_user (ToString (or_else u (VStr "unknown"))) m) as [e|] eqn:Hfind.
    + intros H. injection H as <-.
      assert (Hk : is_prototype_key (ToString (or_else u (VStr "unknown"))) = false).
      { apply find_user_In in Hfind. rewrite Forall_forall in Hm.
        exact (Hm _ Hfind). }
      clear Hfind. induction m as [|[k0 e0] m IHm]; simpl.
      * constructor; [exact Hk | constructor].
      * inversion Hm as [|? ? Hk0 Hm']; subst.
        destruct (String.eqb k0 (ToString (or_else u (VStr "unknown")))).
        -- constructor; [exact Hk | exact Hm'].
        -- constructor; [exact Hk0 | exact (IHm Hm')].
    + destruct (is_prototype_key (ToString (or_else u (VStr "unknown")))) eqn:Hk;
        [discriminate|].
      intros H. injection H as <-.
      clear Hfind. induction m as [|[k0 e0] m IHm]; simpl.
      * constructor; [exact Hk | constructor].
      * inversion Hm as [|? ? Hk0 Hm']; subst.
        destruct (String.eqb k0 (ToString (or_else u (VStr "unknown")))).
        -- constructor; [exact Hk | exact Hm'].
        -- constructor; [exact Hk0 | exact (IHm Hm')].
Qed.

(** X7. A log entry whose user id is a name that [Object.prototype]
    defines ("constructor", "toString", "__proto__", ...) makes
    GET /api/plaid/list-users answer 500, whatever else the log holds. *)
Theorem list_users_prototype_key
    (data : string) (conns : list value) (conn uid : value) :
  String.eqb (String_trim rt data) EmptyString = false ->
  JSON_parse rt data = Return (VArr conns) ->
  In conn conns ->
  get conn "user_id" = Return uid ->
  is_prototype_key (user_key conn) = true ->
  status (handle_list_users Date_value String_length (Some data)) = 500.
Proof.
  intros Hblank Hparse Hin Huid Hproto.
  destruct (group_users_prototype_key conns [] conn uid
              (Forall_nil _) Hin Huid Hproto) as [e He].
  unfold handle_list_users. rewrite Hblank. simpl negb. cbv iota.
  rewrite Hparse. unfold for_each_connection. rewrite He. reflexivity.
Qed.

End ListUsersFacts.
(* ================================================================== *)
(** ** Facts about loadEnv *)
(* ================================================================== *)

Section EnvFacts.

Context {W : World}.

Lemma includes_char_cons (c d : ascii) (s : string) :
  includes (String d s) (String c EmptyString)
  = Ascii.eqb c d || includes s (String c EmptyString).
Proof.
  simpl. destruct (Ascii.eqb c d); simpl; [ now destruct s | reflexivity ].
Qed.

Lemma split_on_cons (sep : ascii) (s : string) :
  exists first others, split_on sep s = first :: others.
Proof.
  induction s as [|c s IH]; simpl.
  - eauto.
  - destruct (Ascii.eqb c sep); [ eauto | ].
    destruct IH as (h & t & ->). eauto.
Qed.

Lemma join_split (sep : ascii) (s : string) :
  join_with (String sep EmptyString) (split_on sep s) = s.
Proof.
  induction s as [|c s IH]; [ reflexivity | ].
  cbn [split_on].
  destruct (Ascii.eqb_spec c sep) as [-> | Hne].
  - destruct (split_on_cons sep s) as (h & t & Hs).
    rewrite Hs in *.
    change (join_with (String sep EmptyString) (EmptyString :: h :: t))
      with (String sep (join_with (String sep EmptyString) (h :: t))).
    now rewrite IH.
  - destruct (split_on_cons sep s) as (h & t & Hs).
    rewrite Hs in *. destruct t as [|h' t].
    + simpl in *. now rewrite IH.
    + change (join_with (String sep EmptyString) (String c h :: h' :: t))
        with (String c (join_with (String sep EmptyString) (h :: h' :: t))).
      now rewrite IH.
Qed.

Lemma split_on_first (sep : ascii) (k v : string) :
  includes k (String sep EmptyString) = false ->
  split_on sep (k ++ String sep v) = k :: split_on sep v.
Proof.
  induction k as [|c k IH]; intros Hk.
  - simpl. now rewrite Ascii.eqb_refl.
  - rewrite includes_char_cons in Hk. apply Bool.orb_false_iff in Hk.
    destruct Hk as [Hc Hk]. cbn [append split_on].
    rewrite Ascii.eqb_sym, Hc, (IH Hk). reflexivity.
Qed.

Lemma split_on_whole (sep : ascii) (k : string) :
  includes k (String sep EmptyString) = false ->
  split_on sep k = [k].
Proof.
  induction k as [|c k IH]; intros Hk; [ reflexivity | ].
  rewrite includes_char_cons in Hk. apply Bool.orb_false_iff in Hk.
  destruct Hk as [Hc Hk]. cbn [split_on].
  rewrite Ascii.eqb_sym, Hc, (IH Hk). reflexivity.
Qed.

(** X8.  A line [key=value] of the .env file, already trimmed, with a
    non-empty key that holds no [=] and does not open a comment, and a
    value that is not blank, assigns the trimmed value to the trimmed key:
    the value is everything after the first [=], further [=] signs
    included, and no other name of the environment changes. *)
Theorem env_line_assigns (env : Env) (key value : string) :
  String_trim rt (key ++ "=" ++ value) = key ++ "=" ++ value ->
  key <> EmptyString ->
  starts_with "#" key = false ->
  includes key "=" = false ->
  String_trim rt value <> EmptyString ->
  parse_env_line env (key ++ "=" ++ value)
  = assign env (String_trim rt key) (String_trim rt value)
  /\ (forall name, name <> String_trim rt key ->
        parse_env_line env (key ++ "=" ++ value) name = env name).
Proof.
  intros Htrim Hkey Hhash Heq Hval.
  assert (Hrun : parse_env_line env (key ++ "=" ++ value)
                 = assign env (String_trim rt key) (String_trim rt value)).
  { unfold parse_env_line. rewrite Htrim.
    destruct key as [|c key]; [ congruence | ].
    change ((String c key ++ "=" ++ value)%string)
      with (String c (key ++ "=" ++ value)%string).
    change (String.eqb (String c (key ++ "=" ++ value)) EmptyString) with false.
    assert (Hh : starts_with "#" (String c (key ++ "=" ++ value)) = false).
    { cbn [starts_with] in *. destruct (Ascii.eqb "#" c); [ | reflexivity ].
      now destruct key. }
    rewrite Hh. cbn [negb andb].
    change (String c (key ++ "=" ++ value)%string)
      with ((String c key ++ String "=" value)%string).
    rewrite (split_on_first "=" (String c key) value Heq).
    rewrite join_split.
    change (String.eqb (String c key) EmptyString) with false.
    destruct (String.eqb_spec (String_trim rt value) EmptyString) as [E|_];
      [ contradiction | reflexivity ]. }
  split; [ exact Hrun | ].
  intros name Hname. rewrite Hrun. unfold assign.
  destruct (String.eqb_spec name (String_trim rt key)); [ contradiction | reflexivity ].
Qed.

(** X9.  A line is ignored, the environment staying as it is, when after
    trimming it is empty, opens with [#], holds no [=], starts with [=]
    (empty key), or has nothing but blanks after its first [=]. *)
Theorem env_line_ignored (env : Env) (line : string) :
  String_trim rt EmptyString = EmptyString ->
  String_trim rt line = EmptyString
  \/ starts_with "#" (String_trim rt line) = true
  \/ includes (String_trim rt line) "=" = false
  \/ starts_with "=" (String_trim rt line) = true
  \/ (exists key value,
        String_trim rt line = (key ++ "=" ++ value)%string
        /\ includes key "=" = false
        /\ String_trim rt value = EmptyString) ->
  parse_env_line env line = env.
Proof.
  unfold parse_env_line. intros Hblank.
  intros [H | [H | [H | [H | (key & value & H & Hk & Hv)]]]].
  - rewrite H. reflexivity.
  - rewrite H. now rewrite Bool.andb_false_r.
  - rewrite (split_on_whole "=" _ H). cbn [join_with].
    rewrite Hblank. cbn [String.eqb negb].
    rewrite Bool.andb_false_r.
    now match goal with |- (if ?b then _ else _) = _ => destruct b end.
  - destruct (String_trim rt line) as [|c r]; [ reflexivity | ].
    cbn [starts_with] in H. apply andb_prop in H. destruct H as [H _].
    apply Ascii.eqb_eq in H. subst c.
    cbn [split_on]. rewrite Ascii.eqb_refl. cbn [String.eqb negb andb].
    now match goal with |- (if ?b then _ else _) = _ => destruct b end.
  - rewrite H.
    change ((key ++ "=" ++ value)%string) with ((key ++ String "=" value)%string).
    rewrite (split_on_first "=" key value Hk), join_split, Hv.
    cbn [String.eqb negb]. rewrite Bool.andb_false_r.
    now match goal with |- (if ?b then _ else _) = _ => destruct b end.
Qed.

End EnvFacts.

(* ================================================================== *)
(** ** Facts about the routes *)
(* ================================================================== *)

Section RouteFacts.

Lemma hd_split_cons (c d : ascii) (s : string) :
  hd EmptyString (split_on c (String d s))
  = if Ascii.eqb d c then EmptyString else String d (hd EmptyString (split_on c s)).
Proof.
  cbn [split_on]. destruct (Ascii.eqb d c); [ reflexivity | ].
  now destruct (split_on_cons c s) as (h & t & ->).
Qed.

Lemma hd_split_app_without (c : ascii) (a b : string) :
  includes a (String c EmptyString) = false ->
  hd EmptyString (split_on c (a ++ b)) = (a ++ hd EmptyString (split_on c b))%string.
Proof.
  induction a as [|d a IH]; intros H; [ reflexivity | ].
  rewrite includes_char_cons in H. apply Bool.orb_false_iff in H.
  destruct H as [Hd Ha]. cbn [append]. rewrite hd_split_cons.
  rewrite Ascii.eqb_sym, Hd, (IH Ha). reflexivity.
Qed.

Lemma hd_split_app_with (c : ascii) (a b : string) :
  includes a (String c EmptyString) = true ->
  hd EmptyString (split_on c (a ++ b)) = hd EmptyString (split_on c a).
Proof.
  induction a as [|d a IH]; intros H; [ discriminate | ].
  rewrite includes_char_cons in H. cbn [append]. rewrite !hd_split_cons.
  destruct (Ascii.eqb_spec d c) as [-> | Hne]; [ reflexivity | ].
  rewrite Ascii.eqb_sym in H.
  destruct (Ascii.eqb_spec d c); [ contradiction | ].
  now rewrite (IH H).
Qed.

Lemma hd_split_keeps_without (c d : ascii) (s : string) :
  includes s (String d EmptyString) = false ->
  includes (hd EmptyString (split_on c s)) (String d EmptyString) = false.
Proof.
  induction s as [|e s IH]; intros H; [ reflexivity | ].
  rewrite includes_char_cons in H. apply Bool.orb_false_iff in H.
  destruct H as [He Hs]. rewrite hd_split_cons.
  destruct (Ascii.eqb e c); [ reflexivity | ].
  rewrite includes_char_cons, He. exact (IH Hs).
Qed.

Lemma after_segment_splits (s : string) :
  exists seg, s = (seg ++ after_segment s)%string /\ includes seg "/" = false.
Proof.
  induction s as [|c s (seg & Hs & Hseg)].
  - exists EmptyString. now split.
  - cbn [after_segment]. destruct (Ascii.eqb c "/") eqn:Hc.
    + exists EmptyString. now split.
    + exists (String c seg). split.
      * cbn [append]. now rewrite <- Hs.
      * rewrite includes_char_cons, Ascii.eqb_sym, Hc. exact Hseg.
Qed.

Lemma starts_with_app (p s : string) :
  starts_with p s = true -> exists r, s = (p ++ r)%string.
Proof.
  revert s. induction p as [|a p IH]; intros s H.
  - now exists s.
  - destruct s as [|b s]; [ discriminate | ].
    cbn [starts_with] in H. apply andb_prop in H. destruct H as [Hab H].
    apply Ascii.eqb_eq in Hab. subst b.
    destruct (IH s H) as (r & ->). now exists r.
Qed.

Lemma drop_prefix_Some (p s r : string) :
  drop_prefix p s = Some r -> s = (p ++ r)%string.
Proof.
  revert s. induction p as [|a p IH]; intros s H.
  - simpl in *. congruence.
  - destruct s as [|b s]; [ discriminate | ].
    cbn [drop_prefix] in H. destruct (Ascii.eqb_spec a b); [ | discriminate ].
    subst b. cbn [append]. now rewrite (IH s H).
Qed.

(** A URL of an account route, taken apart. *)
Lemma account_route_shape (what url : string) :
  account_route what url = true ->
  exists seg rest,
    url = ("/api/accounts/" ++ seg ++ "/" ++ what ++ rest)%string
    /\ seg <> EmptyString /\ includes seg "/" = false.
Proof.
  unfold account_route. intros H.
  destruct (drop_prefix "/api/accounts/" url) as [[|c tail]|] eqn:Hp; try discriminate.
  apply drop_prefix_Some in Hp. apply andb_prop in H. destruct H as [Hc Hw].
  apply Bool.negb_true_iff in Hc.
  destruct (starts_with_app _ _ Hw) as (rest & Hrest).
  destruct (after_segment_splits tail) as (seg & Htail & Hseg).
  exists (String c seg), rest. repeat split.
  - rewrite Hrest in Htail. rewrite Hp, Htail. reflexivity.
  - discriminate.
  - rewrite includes_char_cons, Ascii.eqb_sym, Hc. exact Hseg.
Qed.

(** X10.  A GET of [/api/accounts/<id>/balances...] is answered by the
    balances handler and one of [/api/accounts/<id>/transactions...] by the
    transactions handler, although both URLs also start with
    [/api/accounts]: the general accounts handler receives only the GET
    requests under that prefix that match neither pattern. *)
Theorem account_routes_precede_accounts (url : string) :
  (account_route "balances" url = true -> route "GET" url = AccountBalances)
  /\ (account_route "transactions" url = true -> route "GET" url = AccountTransactions)
  /\ (forall what, account_route what url = true -> starts_with "/api/accounts" url = true)
  /\ (starts_with "/api/accounts" url = true ->
      account_route "balances" url = false ->
      account_route "transactions" url = false ->
      route "GET" url = Accounts).
Proof.
  assert (Hpre : forall r, route "GET" ("/api/accounts" ++ r)
    = if account_route "balances" ("/api/accounts" ++ r) then AccountBalances
      else if account_route "transactions" ("/api/accounts" ++ r)
           then AccountTransactions else Accounts).
  { intros r. unfold route. cbn [String.eqb Ascii.eqb Bool.eqb append andb].
    change (String.eqb "GET" "GET") with true. rewrite !Bool.andb_true_r.
    change (starts_with "/api/accounts" (String "/" (String "a" (String "p"
      (String "i" (String "/" (String "a" (String "c" (String "c" (String "o"
      (String "u" (String "n" (String "t" (String "s" r))))))))))))))
      with true.
    reflexivity. }
  assert (Hstart : forall what, account_route what url = true ->
                   exists r, url = ("/api/accounts" ++ r)%string).
  { intros what H. destruct (account_route_shape _ _ H) as (seg & rest & -> & _).
    now exists ("/" ++ seg ++ "/" ++ what ++ rest)%string. }
  repeat split.
  - intros H. destruct (Hstart _ H) as (r & ->). now rewrite Hpre, H.
  - intros H. destruct (Hstart _ H) as (r & ->). rewrite Hpre, H.
    destruct (account_route "balances" ("/api/accounts" ++ r)) eqn:Hb; [ | reflexivity ].
    exfalso. unfold account_route in H, Hb.
    destruct (drop_prefix "/api/accounts/" ("/api/accounts" ++ r)) as [[|c tail]|];
      try discriminate.
    apply andb_prop in H. destruct H as [_ H].
    apply andb_prop in Hb. destruct Hb as [_ Hb].
    destruct (starts_with_app _ _ H) as (r1 & H1).
    destruct (starts_with_app _ _ Hb) as (r2 & H2).
    rewrite H1 in H2. discriminate H2.
  - intros what H. destruct (Hstart _ H) as (r & ->). reflexivity.
  - intros H Hb Ht. destruct (starts_with_app _ _ H) as (r & ->).
    now rewrite Hpre, Hb, Ht.
Qed.

(** X11.  The handler of an account route finds an account id: the URL
    reads [/api/accounts/<segment>/<what>...] with a non-empty segment free
    of slashes, and the id handed to [getAccountBalances] or
    [getAccountTransactions] is that segment, cut at its first [?] if it
    has one. *)
Theorem account_route_accountId (what url : string) :
  account_route what url = true ->
  exists seg rest,
    url = ("/api/accounts/" ++ seg ++ "/" ++ what ++ rest)%string
    /\ seg <> EmptyString
    /\ includes seg "/" = false
    /\ url_accountId url = Some (hd EmptyString (split_on "?" seg))
    /\ (includes seg "?" = false -> url_accountId url = Some seg).
Proof.
  intros H. destruct (account_route_shape _ _ H) as (seg & rest & Hurl & Hne & Hseg).
  exists seg, rest.
  assert (Hid : url_accountId url = Some (hd EmptyString (split_on "?" seg))).
  { unfold url_accountId. rewrite Hurl.
    rewrite (hd_split_app_without "?" "/api/accounts/") by reflexivity.
    destruct (includes seg "?") eqn:Hq.
    - rewrite (hd_split_app_with "?" seg _ Hq).
      cbn [append split_on Ascii.eqb Bool.eqb].
      rewrite (split_on_whole "/" _ (hd_split_keeps_without "?" "/" seg Hseg)).
      reflexivity.
    - rewrite (hd_split_app_without "?" seg _ Hq).
      rewrite (split_on_whole "?" seg Hq). cbn [hd].
      change (("/" ++ what ++ rest)%string) with (String "/" (what ++ rest)%string).
      rewrite hd_split_cons. change (Ascii.eqb "/" "?") with false. cbv iota.
      cbn [append split_on Ascii.eqb Bool.eqb].
      change (String "/" (hd EmptyString (split_on "?" (what ++ rest))))
        with (("/" ++ hd EmptyString (split_on "?" (what ++ rest)))%string).
      change (seg ++ "/" ++ hd EmptyString (split_on "?" (what ++ rest)))%string
        with (seg ++ String "/" (hd EmptyString (split_on "?" (what ++ rest))))%string.
      rewrite (split_on_first "/" seg _ Hseg). reflexivity. }
  repeat split; try assumption.
  intros Hq. rewrite Hid. now rewrite (split_on_whole "?" seg Hq).
Qed.

(** X12.  Apart from the account routes and the institutions search, which
    test a prefix of the URL, every API route compares the whole URL: a
    request whose URL carries a query string reaches none of them, whatever
    its method; unless it is a preflight, it is left to the static files. *)
Theorem query_string_misses_exact_routes (method url : string) :
  includes url "?" = true ->
  In (route method url)
     [Preflight; AccountBalances; AccountTransactions; Accounts;
      PlaidInstitutions; StaticFile].
Proof.
  intros Hq. unfold route.
  repeat match goal with
  | |- context [String.eqb url ?lit] =>
      destruct (String.eqb_spec url lit) as [E|_];
      [ exfalso; rewrite E in Hq; vm_compute in Hq; discriminate Hq | ]
  end.
  cbn [andb].
  repeat match goal with
  | |- In (if ?b then _ else _) _ => destruct b
  end; simpl; tauto.
Qed.

End RouteFacts.

(** A secret that itself holds [=] signs is kept whole. *)
Lemma env_line_assigns_witness :
  parse_env_line (W := Demo.world) (fun _ => None) "LEAN_CLIENT_SECRET=c2VjcmV0=="
  = assign (fun _ => None) "LEAN_CLIENT_SECRET" "c2VjcmV0==".
Proof.
  apply (env_line_assigns (W := Demo.world) (fun _ => None)
           "LEAN_CLIENT_SECRET" "c2VjcmV0==");
    try reflexivity; discriminate.
Defined.

(** A comment line changes nothing. *)
Lemma env_line_ignored_witness :
  parse_env_line (W := Demo.world) (fun _ => None) "# Lean credentials"
  = (fun _ => None).
Proof.
  exact (env_line_ignored (W := Demo.world) (fun _ => None) "# Lean credentials"
           eq_refl (or_intror (or_introl eq_refl))).
Defined.

Lemma account_route_accountId_witness :
  exists seg rest,
    "/api/accounts/acc-1/balances?entity_id=e-1"
    = ("/api/accounts/" ++ seg ++ "/" ++ "balances" ++ rest)%string
    /\ seg <> EmptyString
    /\ includes seg "/" = false
    /\ url_accountId "/api/accounts/acc-1/balances?entity_id=e-1"
       = Some (hd EmptyString (split_on "?" seg))
    /\ (includes seg "?" = false ->
        url_accountId "/api/accounts/acc-1/balances?entity_id=e-1" = Some seg).
Proof.
  exact (account_route_accountId "balances"
           "/api/accounts/acc-1/balances?entity_id=e-1" eq_refl).
Defined.

Lemma query_string_misses_exact_routes_witness :
  In (route "POST" "/api/consents?page=2")
     [Preflight; AccountBalances; AccountTransactions; Accounts;
      PlaidInstitutions; StaticFile].
Proof.
  exact (query_string_misses_exact_routes "POST" "/api/consents?page=2" eq_refl).
Defined.

(** The log of three connections of two users. *)
Lemma list_users_groups_by_user_witness :
  status (handle_list_users (W := UsersLog.world) UsersLog.Date_value
            UsersLog.String_length (Some (Demo.stringify (VArr UsersLog.log)))) = 200
  /\ map fst UsersLog.users = ["alice"; "bob"]
  /\ counted UsersLog.users = 3.
Proof.
  pose proof (list_users_groups_by_user (W := UsersLog.world) UsersLog.Date_value
                UsersLog.String_length (Demo.stringify (VArr UsersLog.log))
                UsersLog.log UsersLog.users eq_refl eq_refl eq_refl) as H.
  split; [ rewrite (proj1 H); reflexivity | ].
  split; [ reflexivity | ].
  exact (proj2 (proj2 (proj2 (proj2 (proj2 (proj2 H)))))).
Defined.

Lemma list_users_prototype_key_witness :
  status (handle_list_users (W := UsersLog.world) UsersLog.Date_value
            UsersLog.String_length
            (Some (Demo.stringify (VArr UsersLog.log_with_constructor)))) = 500.
Proof.
  exact (list_users_prototype_key (W := UsersLog.world) UsersLog.Date_value
           UsersLog.String_length
           (Demo.stringify (VArr UsersLog.log_with_constructor))
           UsersLog.log_with_constructor
           (UsersLog.connection "constructor" "item-9" "First Bank" 4000)
           (VStr "constructor")
           eq_refl eq_refl (or_intror (or_introl eq_refl)) eq_refl eq_refl).
Defined.

(* ================================================================== *)
(** ** Facts about the workflow of backend-simulation.js *)
(* ================================================================== *)

Section SimulationFacts.

Context {W : World}.










End SimulationFacts.

Section SimulationIdentifier.

Context {W : World}.




End SimulationIdentifier.


(* ================================================================== *)
(** ** Facts about the customer flows of the page *)
(* ================================================================== *)

Section PageFacts.

Context {W : World}.

Lemma read_backend_state (r : response) (fallback : string) (s : Sys) :
  snd (App.read_backend r fallback s) = s.
Proof.
  unfold App.read_backend, response_json, bind, lift, ret, throw.
  repeat match goal with
  | |- context [response_ok ?x] => destruct (response_ok x); simpl
  | |- context [JSON_parse rt ?t] => destruct (JSON_parse rt t); simpl
  | |- context [get ?d ?k] => destruct (get d k); simpl
  | |- context [truthy ?v] => destruct (truthy v); simpl
  end; reflexivity.
Qed.

Lemma read_backend_success (result : value) (fallback : string) (s : Sys) :
  wire_faithful result ->
  get result "success" = Return (VBool true) ->
  App.read_backend (mkResponse 200 (JSON_stringify rt result)) fallback s
  = (Return result, s).
Proof.
  intros Hwire Hok.
  unfold App.read_backend, response_json, bind, lift. simpl.
  rewrite Hwire, Hok. reflexivity.
Qed.

Lemma read_backend_failure (e : exn) (fallback : string) (s : Sys) :
  wire_faithful (failure_object e) ->
  App.read_backend (mkResponse 200 (JSON_stringify rt (failure_object e))) fallback s
  = (Throw (Error (if String.eqb (message e) EmptyString
                   then fallback else message e)), s).
Proof.
  intros Hwire.
  unfold App.read_backend, response_json, bind, lift. simpl.
  rewrite Hwire. simpl. unfold or_else. simpl.
  destruct (message e); reflexivity.
Qed.

(** X15.  The page follows the workflow object, not the HTTP status.  The
    backend answers /api/initialize-customer with status 200 also when the
    workflow failed; the page then shows the failure with the workflow's
    message (or "Customer initialization failed" if that is empty) and
    leaves the stored customer id, the stored token and the connect button
    as they were.  Only on [success: true] does it store the returned id
    and token and enable the button. *)
Theorem page_follows_workflow
    (randomId : string) (page : App.Page) (s : Sys) (result : value) (s' : Sys) :
  wire_faithful (VObj [("app_user_id", VStr ("user_" ++ randomId))]) ->
  wire_faithful result ->
  initializeCustomer (VStr ("user_" ++ randomId)) s = (Return result, s') ->
  (get result "success" = Return (VBool true)
   /\ App.initializeCustomer randomId page s
      = (Return (App.mkPage (prop result "customer_id") (prop result "access_token")
                   false (App.existingCustomerIdInput page)
                   (App.Succeeded "Customer Initialized Successfully!" result)), s'))
  \/ (exists e,
        result = failure_object e
        /\ App.initializeCustomer randomId page s
           = (Return (App.mkPage (App.currentCustomerId page)
                        (App.currentAccessToken page)
                        (App.connectBtn_disabled page)
                        (App.existingCustomerIdInput page)
                        (App.Failed "Initialization Failed"
                           (if String.eqb (message e) EmptyString
                            then "Customer initialization failed"
                            else message e))), s')).
Proof.
  intros Hreq Hwire Hrun.
  pose proof (handle_initialize_customer_run
                (JSON_stringify rt (VObj [("app_user_id", VStr ("user_" ++ randomId))]))
                s _ (VStr ("user_" ++ randomId)) result s' Hreq eq_refl Hrun) as Hh.
  destruct (initializeCustomer_returns (VStr ("user_" ++ randomId)) s)
    as (v & Hv & Hshape).
  rewrite Hrun in Hv. simpl in Hv. injection Hv as <-.
  unfold App.initializeCustomer, try_catch, bind. cbv zeta. rewrite Hh.
  destruct Hshape as [(e & ->) | Hok].
  - right. exists e. split; [ reflexivity | ].
    rewrite (read_backend_failure e _ s' Hwire). reflexivity.
  - left. split; [ exact Hok | ].
    rewrite (read_backend_success result _ s' Hwire Hok). reflexivity.
Qed.

Lemma uuid_not_empty (id : string) :
  App.uuidPattern_test id = true -> truthy (VStr id) = true.
Proof.
  destruct id; [ discriminate | reflexivity ].
Qed.

Lemma hex_digits_length (n : nat) (s rest : string) :
  App.hex_digits n s = Some rest -> String.length s = (n + String.length rest)%nat.
Proof.
  revert s. induction n as [|n IH]; intros s H.
  - simpl in H. now injection H as ->.
  - destruct s as [|c s]; [ discriminate | ].
    cbn [App.hex_digits] in H. destruct (App.is_hex c); [ | discriminate ].
    simpl. now rewrite (IH s H).
Qed.

(** X16.  The flow for an existing customer calls the backend only with an
    id of the UUID shape (36 characters: five groups of hexadecimal digits
    joined by dashes).  For any other input nothing is sent and the stored
    id, token and button stay as they are; for an id of that shape the
    backend's own check for a missing id cannot fire, so what the server
    does is exactly a run of [getTokensForCustomer] on that id. *)
Theorem existing_customer_flow_validates (page : App.Page) (s : Sys) :
  (App.uuidPattern_test (String_trim rt (App.existingCustomerIdInput page)) = false ->
   exists p,
     App.getTokensForExistingCustomer page s = (Return (App.show page p), s))
  /\ (App.uuidPattern_test (String_trim rt (App.existingCustomerIdInput page)) = true ->
      wire_faithful
        (VObj [("customer_id", VStr (String_trim rt (App.existingCustomerIdInput page)))]) ->
      String.length (String_trim rt (App.existingCustomerIdInput page)) = 36%nat
      /\ snd (App.getTokensForExistingCustomer page s)
         = snd (getTokensForCustomer
                  (VStr (String_trim rt (App.existingCustomerIdInput page))) s)).
Proof.
  unfold App.getTokensForExistingCustomer. cbv zeta.
  set (id := String_trim rt (App.existingCustomerIdInput page)).
  split.
  - intros Hbad. rewrite Hbad.
    destruct (String.eqb id EmptyString); eexists; reflexivity.
  - intros Hgood Hwire. split.
    + unfold App.uuidPattern_test, App.hex_group, App.dash in Hgood.
      repeat match type of Hgood with
      | context [App.hex_digits ?n ?x] =>
          let E := fresh "E" in
          destruct (App.hex_digits n x) as [[|? ?]|] eqn:E; try discriminate Hgood;
          apply hex_digits_length in E
      | context [Ascii.eqb ?a ?b] => destruct (Ascii.eqb a b); try discriminate Hgood
      end.
      simpl in *. lia.
    + rewrite Hgood.
      assert (Hne : String.eqb id EmptyString = false).
      { destruct id; [ discriminate Hgood | reflexivity ]. }
      rewrite Hne. cbn [negb].
      destruct (getTokensForCustomer_returns (VStr id) s) as (v & Hv & _).
      destruct (getTokensForCustomer (VStr id) s) as [[v'|e] s'] eqn:Hrun;
        simpl in Hv; [ | discriminate Hv ].
      pose proof (handle_get_customer_tokens_run
                    (JSON_stringify rt (VObj [("customer_id", VStr id)]))
                    s _ (VStr id) v' s' Hwire eq_refl
                    (uuid_not_empty id Hgood) Hrun) as Hh.
      unfold try_catch, bind. rewrite Hh.
      pose proof (read_backend_state
                    (mkResponse 200 (JSON_stringify rt v'))
                    "Token retrieval failed" s') as Hst.
      destruct (App.read_backend _ _ s') as [[r|e] s2]; simpl in Hst; subst s2;
        reflexivity.
Qed.

End PageFacts.

Lemma page_follows_workflow_witness :
  fst (App.initializeCustomer (W := Offline.world) "abc" Offline.page (Demo.start 1000))
  = Return (App.show Offline.page
              (App.Failed "Initialization Failed" "connect ECONNREFUSED")).
Proof.
  destruct (page_follows_workflow (W := Offline.world) "abc" Offline.page
              (Demo.start 1000) (failure_object Offline.refused)
              (snd (initializeCustomer (W := Offline.world) (VStr "user_abc")
                      (Demo.start 1000)))
              eq_refl eq_refl eq_refl) as [[H _] | (e & He & Hrun)].
  - discriminate H.
  - rewrite Hrun. injection He as Hm. rewrite <- Hm. reflexivity.
Defined.

Lemma existing_customer_flow_validates_witness :
  String.length Offline.uuid = 36%nat
  /\ snd (App.getTokensForExistingCustomer (W := Offline.world) Offline.page
            (Demo.start 1000))
     = snd (getTokensForCustomer (W := Offline.world) (VStr Offline.uuid)
              (Demo.start 1000)).
Proof.
  exact (proj2 (existing_customer_flow_validates (W := Offline.world) Offline.page
                  (Demo.start 1000)) eq_refl eq_refl).
Defined.

(* ================================================================== *)
(** ** Facts about the webhook log *)
(* ================================================================== *)

Section WebhookFacts.

Context {W : World}.
Variable JSON_pretty : value -> string.
Variable code_units : string -> list string.

Lemma lookup_set_property (k : string) (v : value) (fields : list (string * value)) :
  lookup k (set_property k v fields) = v.
Proof.
  unfold lookup. induction fields as [|[k' v'] rest IH]; simpl.
  - now rewrite String.eqb_refl.
  - destruct (String.eqb k' k) eqn:E; simpl.
    + now rewrite String.eqb_refl.
    + now rewrite E.
Qed.

Lemma lookup_set_property_other (k k' : string) (v : value)
    (fields : list (string * value)) :
  k' <> k -> lookup k' (set_property k v fields) = lookup k' fields.
Proof.
  intros Hne. unfold lookup. induction fields as [|[k0 v0] rest IH]; simpl.
  - destruct (String.eqb_spec k k'); [ congruence | reflexivity ].
  - destruct (String.eqb_spec k0 k) as [-> | Hk]; simpl.
    + destruct (String.eqb_spec k k'); [ congruence | reflexivity ].
    + destruct (String.eqb k0 k'); [ reflexivity | exact IH ].
Qed.

Lemma event_file_is_not_the_log (timestamp : string) :
  String.eqb all_webhooks (event_file timestamp) = false.
Proof. reflexivity. Qed.

(** X17.  A webhook whose payload is a JSON object, received while the log
    holds the array [events] (an absent or blank log holds none), is
    answered 200 with the name of its own file, and is appended to the
    log: provided the pretty-printed log reads back, the log then holds
    [events] followed by the payload stamped with [received_at], which
    replaces any [received_at] of the payload and leaves its other
    properties alone; GET /api/plaid/webhooks then lists exactly these
    events, with their count.  No other file is touched. *)
Theorem webhook_is_logged
    (now : Z) (files : Files) (body : string) (fields : list (string * value))
    (events : list value) (timestamp : string) :
  JSON_parse rt body = Return (VObj fields) ->
  toISOString now = Return timestamp ->
  read_log files = Return (VArr events) ->
  String.eqb (String_trim rt
                (JSON_pretty (VArr (events ++ [stamped code_units timestamp (VObj fields)]))))
             EmptyString = false ->
  JSON_parse rt (JSON_pretty (VArr (events ++ [stamped code_units timestamp (VObj fields)])))
  = Return (VArr (events ++ [stamped code_units timestamp (VObj fields)])) ->
  fst (handle_webhook JSON_pretty code_units now files body)
  = mkResponse 200
      (JSON_stringify rt
         (VObj [("success", VBool true);
                ("message", VStr "Webhook received and processed");
                ("filename", VStr (event_file timestamp))]))
  /\ read_log (snd (handle_webhook JSON_pretty code_units now files body))
     = Return (VArr (events ++ [stamped code_units timestamp (VObj fields)]))
  /\ get (stamped code_units timestamp (VObj fields)) "received_at"
     = Return (VStr timestamp)
  /\ (forall k, k <> "received_at" ->
        get (stamped code_units timestamp (VObj fields)) k = get (VObj fields) k)
  /\ (forall name, name <> all_webhooks -> name <> event_file timestamp ->
        snd (handle_webhook JSON_pretty code_units now files body) name = files name)
  /\ handle_list_webhooks code_units
       (snd (handle_webhook JSON_pretty code_units now files body))
     = mkResponse 200
         (JSON_stringify rt
            (VObj [("success", VBool true);
                   ("count", VNum (Fin (Z.of_nat (List.length events) + 1)));
                   ("webhooks",
                    VArr (events ++ [stamped code_units timestamp (VObj fields)]))])).
Proof.
  intros Hbody Htime Hlog Hblank Hback.
  set (saved := stamped code_units timestamp (VObj fields)) in *.
  assert (Hlog1 : read_log (writeFileSync files (event_file timestamp) (JSON_pretty saved))
                  = Return (VArr events)).
  { unfold read_log, writeFileSync in *. rewrite event_file_is_not_the_log. exact Hlog. }
  assert (Hrun : handle_webhook JSON_pretty code_units now files body
                 = (mkResponse 200
                      (JSON_stringify rt
                         (VObj [("success", VBool true);
                                ("message", VStr "Webhook received and processed");
                                ("filename", VStr (event_file timestamp))])),
                    writeFileSync
                      (writeFileSync files (event_file timestamp) (JSON_pretty saved))
                      all_webhooks (JSON_pretty (VArr (events ++ [saved]))))).
  { unfold handle_webhook. rewrite Hbody. cbn [get].
    unfold saveWebhookEvent. rewrite Htime. cbv zeta. fold saved.
    rewrite Hlog1. reflexivity. }
  rewrite Hrun. cbn [fst snd].
  assert (Hread : read_log
                    (writeFileSync
                       (writeFileSync files (event_file timestamp) (JSON_pretty saved))
                       all_webhooks (JSON_pretty (VArr (events ++ [saved]))))
                  = Return (VArr (events ++ [saved]))).
  { unfold read_log, writeFileSync. rewrite String.eqb_refl, Hblank. exact Hback. }
  repeat split.
  - exact Hread.
  - unfold saved, stamped. cbn [get own_properties]. now rewrite lookup_set_property.
  - intros k Hk. unfold saved, stamped. cbn [get own_properties].
    now rewrite (lookup_set_property_other _ _ _ _ Hk).
  - intros name Hn1 Hn2. unfold writeFileSync.
    destruct (String.eqb_spec name all_webhooks); [ contradiction | ].
    destruct (String.eqb_spec name (event_file timestamp)); [ contradiction | reflexivity ].
  - unfold handle_list_webhooks. rewrite Hread.
    unfold writeFileSync at 1. rewrite String.eqb_refl.
    cbn [length_of]. rewrite length_app, Nat2Z.inj_add. reflexivity.
Qed.

(** X18.  A log that does not parse is not repaired: the webhook is
    answered 500 with the parser's message, its own file has been written
    all the same, and the log is left as it was. *)
Theorem webhook_with_corrupt_log
    (now : Z) (files : Files) (body : string) (fields : list (string * value))
    (timestamp : string) (error : exn) :
  JSON_parse rt body = Return (VObj fields) ->
  toISOString now = Return timestamp ->
  read_log files = Throw error ->
  fst (handle_webhook JSON_pretty code_units now files body)
  = mkResponse 500 (JSON_stringify rt (VObj [("error", VStr (message error))]))
  /\ snd (handle_webhook JSON_pretty code_units now files body) (event_file timestamp)
     = Some (JSON_pretty (stamped code_units timestamp (VObj fields)))
  /\ snd (handle_webhook JSON_pretty code_units now files body) all_webhooks
     = files all_webhooks.
Proof.
  intros Hbody Htime Hlog.
  assert (Hlog1 : read_log (writeFileSync files (event_file timestamp)
                              (JSON_pretty (stamped code_units timestamp (VObj fields))))
                  = Throw error).
  { unfold read_log, writeFileSync in *. rewrite event_file_is_not_the_log. exact Hlog. }
  unfold handle_webhook. rewrite Hbody. cbn [get].
  unfold saveWebhookEvent. rewrite Htime. cbv zeta. rewrite Hlog1. cbn [fst snd].
  repeat split.
  - unfold writeFileSync. now rewrite String.eqb_refl.
Qed.

End WebhookFacts.

Lemma webhook_is_logged_witness :
  read_log (W := WebhookDemo.world)
    (snd (handle_webhook (W := WebhookDemo.world) Demo.stringify WebhookDemo.code_units
            0 WebhookDemo.no_files (Demo.stringify WebhookDemo.payload)))
  = Return (VArr [WebhookDemo.saved])
  /\ get WebhookDemo.saved "received_at" = Return (VStr "1970-01-01T00:00:00.000Z").
Proof.
  pose proof (webhook_is_logged (W := WebhookDemo.world) Demo.stringify
                WebhookDemo.code_units 0 WebhookDemo.no_files
                (Demo.stringify WebhookDemo.payload)
                [("webhook_type", VStr "ITEM"); ("webhook_code", VStr "ERROR");
                 ("item_id", VStr "item-1"); ("received_at", VStr "yesterday")]
                [] "1970-01-01T00:00:00.000Z"
                eq_refl eq_refl eq_refl eq_refl eq_refl) as H.
  split; [ exact (proj1 (proj2 H)) | exact (proj1 (proj2 (proj2 H))) ].
Defined.

Lemma webhook_with_corrupt_log_witness :
  status (fst (handle_webhook (W := WebhookDemo.world) Demo.stringify
                 WebhookDemo.code_units 0 WebhookDemo.corrupt_log
                 (Demo.stringify WebhookDemo.payload))) = 500
  /\ snd (handle_webhook (W := WebhookDemo.world) Demo.stringify
            WebhookDemo.code_units 0 WebhookDemo.corrupt_log
            (Demo.stringify WebhookDemo.payload)) all_webhooks
     = Some "[{".
Proof.
  pose proof (webhook_with_corrupt_log (W := WebhookDemo.world) Demo.stringify
                WebhookDemo.code_units 0 WebhookDemo.corrupt_log
                (Demo.stringify WebhookDemo.payload)
                [("webhook_type", VStr "ITEM"); ("webhook_code", VStr "ERROR");
                 ("item_id", VStr "item-1"); ("received_at", VStr "yesterday")]
                "1970-01-01T00:00:00.000Z"
                (mkExn "SyntaxError" "Unexpected token in JSON")
                eq_refl eq_refl eq_refl) as H.
  split; [ rewrite (proj1 H); reflexivity | exact (proj2 (proj2 H)) ].
Defined.

(* ================================================================== *)
(** ** More facts about the two workflows *)
(* ================================================================== *)

Section WorkflowFacts.

Context {W : World}.

Lemma initialized_customer_id (customerId customer customerToken v : value) (s : Sys) :
  fst (initialized customerId customer customerToken s) = Return v ->
  get v "customer_id" = Return customerId.
Proof.
  unfold initialized, bind, lift.
  destruct (get customer "app_user_id"); [|discriminate].
  destruct (get customerToken "access_token"); [|discriminate].
  destruct (get customerToken "expires_in"); [|discriminate].
  destruct (get customerToken "scope"); [|discriminate].
  simpl. intros H. injection H as <-. reflexivity.
Qed.

(** X19.  When the customer endpoint's reply has no truthy [customer_id]
    but an [id], the workflow uses the [id]: the third request asks for the
    scope "customer." + id, and a result that reports success carries that
    id as its [customer_id]. *)
Theorem initializeCustomer_id_fallback
    (appUserId : value) (s : Sys) (data tok expires_in customer c0 cid : value) :
  deliver (fst (network (sent s) (token_request "api"))) = Return data ->
  get data "access_token" = Return tok ->
  get data "expires_in" = Return expires_in ->
  token_stale (refreshed s tok expires_in) = false ->
  deliver (fst (network (sent (refreshed s tok expires_in))
                  (customer_request appUserId tok))) = Return customer ->
  get customer "customer_id" = Return c0 ->
  truthy c0 = false ->
  get customer "id" = Return cid ->
  sent (snd (initializeCustomer appUserId s))
  = (sent s ++ [token_request "api";
                customer_request appUserId tok;
                token_request ("customer." ++ ToString cid)])%list
  /\ (forall v,
        fst (initializeCustomer appUserId s) = Return v ->
        get v "success" = Return (VBool true) ->
        get v "customer_id" = Return cid).
Proof.
  intros Hd Ht He Hfresh Hc Hc0 Hfalsy Hid.
  assert (Hcreate : createCustomer appUserId (refreshed s tok expires_in)
                    = (Return customer,
                       after_request (refreshed s tok expires_in)
                         (customer_request appUserId tok))).
  { rewrite createCustomer_run, Hfresh. unfold send_customer. cbv zeta.
    change (apiAccessToken (refreshed s tok expires_in)) with tok.
    rewrite Hc, Hc0. reflexivity. }
  rewrite initializeCustomer_run,
    (getApiAccessToken_ok s data tok expires_in Hd Ht He), Hcreate.
  assert (Hpick : forall s2, customer_id_or_id customer s2 = (Return cid, s2)).
  { intros s2. unfold customer_id_or_id, bind, lift. rewrite Hc0. simpl.
    rewrite Hfalsy, Hid. reflexivity. }
  rewrite Hpick, getCustomerAccessToken_run.
  match goal with
  | |- context [deliver ?x] => destruct (deliver x) as [customerToken|e]
  end.
  - pose proof (initialized_state cid customer customerToken
                  (after_request
                     (after_request (refreshed s tok expires_in)
                        (customer_request appUserId tok))
                     (token_request ("customer." ++ ToString cid)))) as H5.
    pose proof (initialized_customer_id cid customer customerToken) as Hcid.
    destruct (initialized cid customer customerToken _) as [[v|e] s5] eqn:Hrun;
      simpl in H5; subst s5; simpl; rewrite <- !app_assoc; split; try reflexivity.
    + intros v' Hv' _. injection Hv' as <-.
      refine (Hcid v _ _). rewrite Hrun. reflexivity.
    + intros v' Hv' Hok. injection Hv' as <-. discriminate Hok.
  - simpl. rewrite <- !app_assoc. split; [ reflexivity | ].
    intros v' Hv' Hok. injection Hv' as <-. discriminate Hok.
Qed.

(** X20.  [getTokensForCustomer] always returns an object and never
    creates a customer: it sends the API token request and, only if that
    exchange succeeded, one token request for the scope of the given
    customer id; a failed exchange is returned as the failure object with
    nothing further sent. *)
Theorem getTokensForCustomer_requests (customerId : value) (s : Sys) :
  exists v,
    fst (getTokensForCustomer customerId s) = Return v
    /\ ((exists e,
           fst (getApiAccessToken s) = Throw e
           /\ v = failure_object e
           /\ sent (snd (getTokensForCustomer customerId s))
              = (sent s ++ [token_request "api"])%list)
        \/ (exists t,
              fst (getApiAccessToken s) = Return t
              /\ sent (snd (getTokensForCustomer customerId s))
                 = (sent s ++ [token_request "api";
                               token_request ("customer." ++ ToString customerId)])%list)).
Proof.
  rewrite getTokensForCustomer_run.
  pose proof (getApiAccessToken_sent s) as Hsent.
  destruct (getApiAccessToken s) as [[t|e] s1]; simpl in Hsent.
  - rewrite getCustomerAccessToken_run.
    match goal with
    | |- context [deliver ?x] => destruct (deliver x) as [customerToken|e]
    end.
    + pose proof (retrieved_state customerId customerToken
                    (after_request s1
                       (token_request ("customer." ++ ToString customerId)))) as H3.
      destruct (retrieved customerId customerToken _) as [[v|e] s3];
        simpl in H3; subst s3; eexists; (split; [ reflexivity | ]);
        right; exists t; simpl; rewrite Hsent, <- app_assoc; now split.
    + eexists. split; [ reflexivity | ].
      right. exists t. simpl. rewrite Hsent, <- app_assoc. now split.
  - eexists. split; [ reflexivity | ].
    left. exists e. simpl. now repeat split.
Qed.

End WorkflowFacts.

Lemma initializeCustomer_id_fallback_witness :
  sent (snd (initializeCustomer (W := LegacyIds.world) (VStr "user_abc")
               (Demo.start 1000)))
  = [token_request (W := LegacyIds.world) "api";
     customer_request (W := LegacyIds.world) (VStr "user_abc") (VStr "tok-1");
     token_request (W := LegacyIds.world) "customer.cust-9"].
Proof.
  exact (proj1 (initializeCustomer_id_fallback (W := LegacyIds.world)
                  (VStr "user_abc") (Demo.start 1000)
                  Demo.token_json (VStr "tok-1") (VNum (Fin 3600))
                  LegacyIds.customer_json VUndefined (VStr "cust-9")
                  eq_refl eq_refl eq_refl eq_refl eq_refl eq_refl eq_refl eq_refl)).
Defined.

(* ================================================================== *)
(** ** Facts about the static files *)
(* ================================================================== *)

Section StaticFacts.

Lemma account_route_is_api (what url : string) :
  account_route what url = true -> starts_with "/api/" url = true.
Proof.
  intros H. destruct (account_route_shape _ _ H) as (seg & rest & -> & _).
  reflexivity.
Qed.

(** X21.  Whatever its method (a preflight apart), a request whose URL
    does not start with [/api/] is served from the file system: the path
    read is the URL up to its query string with a dot in front, and a file
    that can be read is sent back with status 200.  No path is excluded. *)
Theorem other_requests_read_files
    (readFile : string -> read_result) (method url : string) :
  method <> "OPTIONS" ->
  starts_with "/api/" url = false ->
  route method url = StaticFile
  /\ (includes url "?" = false -> url <> "/" -> static_path url = ("." ++ url)%string)
  /\ (forall content,
        readFile (static_path url) = Content content ->
        serve_static readFile url = mkResponse 200 content).
Proof.
  intros Hm Hapi. repeat split.
  - unfold route.
    destruct (String.eqb_spec method "OPTIONS") as [E|_]; [ contradiction | ].
    repeat match goal with
    | |- context [String.eqb url ?lit] =>
        destruct (String.eqb_spec url lit) as [E|_];
        [ exfalso; rewrite E in Hapi; discriminate Hapi | ]
    end.
    destruct (account_route "balances" url) eqn:Hb;
      [ rewrite (account_route_is_api _ _ Hb) in Hapi; discriminate Hapi | ].
    destruct (account_route "transactions" url) eqn:Ht;
      [ rewrite (account_route_is_api _ _ Ht) in Hapi; discriminate Hapi | ].
    destruct (starts_with "/api/accounts" url) eqn:Ha;
      [ destruct (starts_with_app _ _ Ha) as (r & ->); discriminate Hapi | ].
    destruct (starts_with "/api/plaid/institutions" url) eqn:Hi;
      [ destruct (starts_with_app _ _ Hi) as (r & ->); discriminate Hapi | ].
    reflexivity.
  - intros Hq Hroot. unfold static_path. cbv zeta.
    rewrite (split_on_whole "?" url Hq). cbn [hd].
    destruct (String.eqb_spec ("." ++ url) "./") as [E|_]; [ | reflexivity ].
    exfalso. apply Hroot. cbn [append] in E. now injection E.
  - intros content Hread. unfold serve_static. now rewrite Hread.
Qed.

End StaticFacts.

Lemma other_requests_read_files_witness :
  route "DELETE" "/.env" = StaticFile /\ static_path "/.env" = "./.env".
Proof.
  pose proof (other_requests_read_files (fun _ => ENOENT) "DELETE" "/.env") as H.
  split.
  - apply H; [ discriminate | reflexivity ].
  - apply H; [ discriminate | reflexivity | reflexivity | discriminate ].
Defined.

(* ================================================================== *)
(** ** Facts about the network names *)
(* ================================================================== *)

Section NetworkFacts.

Import CryptoWallet.

Lemma toString16_inj (m n : Z) :
  0 <= m -> 0 <= n -> toString16 m = toString16 n -> m = n.
Proof.
  intros Hm Hn. unfold toString16.
  destruct (Z.ltb_spec m 0); [ lia | ].
  destruct (Z.ltb_spec n 0); [ lia | ].
  intros Heq.
  apply (f_equal HexadecimalString.NilEmpty.uint_of_string) in Heq.
  rewrite !HexadecimalString.NilEmpty.usu in Heq. injection Heq as H'.
  apply HexadecimalN.Unsigned.to_uint_inj in H'.
  now apply Z2N.inj.
Qed.

Lemma key_eqb (m n : Z) (key : string) :
  0 <= m -> 0 <= n ->
  key = ("0x" ++ toString16 m)%string ->
  String.eqb key ("0x" ++ toString16 n) = (m =? n).
Proof.
  intros Hm Hn ->.
  destruct (Z.eqb_spec m n) as [-> | Hne].
  - apply String.eqb_refl.
  - apply String.eqb_neq. intros H. apply Hne.
    cbn [append] in H. injection H as H'. now apply toString16_inj.
Qed.

Lemma own_networks (n : Z) :
  0 <= n -> own ("0x" ++ toString16 n) networks = chain_name n chains.
Proof.
  intros Hn. unfold networks, chains. cbn [own chain_name].
  rewrite (key_eqb 1 n "0x1"), (key_eqb 3 n "0x3"), (key_eqb 4 n "0x4"),
    (key_eqb 5 n "0x5"), (key_eqb 42 n "0x2a"), (key_eqb 56 n "0x38"),
    (key_eqb 97 n "0x61"), (key_eqb 137 n "0x89"), (key_eqb 80001 n "0x13881"),
    (key_eqb 10 n "0xa"), (key_eqb 42161 n "0xa4b1"), (key_eqb 42170 n "0xa4ba"),
    (key_eqb 250 n "0xfa"), (key_eqb 25 n "0x19");
    try lia; reflexivity.
Qed.

(** X22.  For the chain number a WalletConnect account reports, the name
    shown is the one the table gives the chain: its hexadecimal keys stand
    for the chains 1, 3, 4, 5, 42, 56, 97, 137, 80001, 10, 42161, 42170, 250
    and 25.  A missing or zero chain number counts as chain 1, and any
    other chain is shown as "Unknown Network (0x...)" with its number in
    hexadecimal; the result is always a string. *)
Theorem account_network_by_number (n : Z) :
  0 <= n ->
  account_network n
  = Named (match chain_name (if n =? 0 then 1 else n) chains with
           | Some name => name
           | None =>
               "Unknown Network (0x" ++ toString16 (if n =? 0 then 1 else n) ++ ")"
           end).
Proof.
  intros Hn. unfold account_network. cbv zeta.
  set (c := if n =? 0 then 1 else n).
  assert (Hc : 0 <= c) by (unfold c; destruct (n =? 0); lia).
  unfold getNetworkName. rewrite (own_networks c Hc).
  destruct (chain_name c chains); reflexivity.
Qed.

End NetworkFacts.

Lemma account_network_by_number_witness :
  CryptoWallet.account_network 137 = CryptoWallet.Named "Polygon Mainnet".
Proof.
  refine (account_network_by_number 137 _). discriminate.
Defined.
